(** * Authentication and session engine of the Multitask platform (auth-svc)

    A shallow embedding of the Go packages [models], [repositories],
    [services], [middleware] and [handlers] of the auth service, and the
    properties of its token and session life cycle.

    Conventions of the embedding.
    - A Go [(T, error)] return is a [result T]; a Go [error] return is an
      [option error] ([None] is [nil]).
    - [time.Time] is a number of seconds ([Z]); [t.Unix()] is [t] itself.
    - The two repositories are interfaces in the source.  They are kept as
      interfaces here (type classes over the state of the storage behind
      them); the service is written once, against the interfaces.
    - What a request observes of its environment (wall clock, [uuid.New],
      [crypto/rand]) travels in the [Context] value next to the user claims.
    - A Go string is a sequence of bytes, a [string] here; its length in
      characters is [RuneCountInString].
    - A string that may carry a signed token is a [text]: characters
      interleaved with signed tokens, each token an indivisible block.  The
      HMAC is symbolic: a token records the key its signature was made
      with, and verification compares keys. *)

From Stdlib Require Import ZArith Ascii String List Lia.
From stdpp Require Import base option list strings gmap fin_maps.

Local Open Scope Z_scope.
Local Open Scope string_scope.

(** ** Go errors *)

(** An [error] value.  Package-level [errors.New] values are compared by
    identity in the source ([err == repositories.ErrUserNotFound]); the
    identity of such a value is the package that declares it and its text. *)
Inductive error : Type :=
  | Sentinel (pkg msg : string)
  | Errorf (msg : string) (cause : error)
  | Foreign (msg : string).

#[global] Instance error_eq_dec : EqDecision error.
Proof. solve_decision. Defined.

(** [err.Error()]; [Errorf m c] is [fmt.Errorf(m + ": %w", c)]. *)
Fixpoint Error (e : error) : string :=
  match e with
  | Sentinel _ m => m
  | Errorf m c => m ++ ": " ++ Error c
  | Foreign m => m
  end.

Inductive result (A : Type) : Type :=
  | Ok (a : A)
  | Err (e : error).
Arguments Ok {A} a.
Arguments Err {A} e.

Definition is_ok {A} (r : result A) : bool :=
  match r with Ok _ => true | Err _ => false end.

(** ** Signed tokens and the text that carries them *)

Inductive SigningMethod : Type :=
  | HS256 | HS384 | HS512 | RS256 | ES256 | SigningMethodNone.

#[global] Instance SigningMethod_eq_dec : EqDecision SigningMethod.
Proof. solve_decision. Defined.

(** The type assertion of [token.Method] to the HMAC signing method succeeds
    for the HS family. *)
Definition SigningMethodHMAC (m : SigningMethod) : bool :=
  match m with HS256 | HS384 | HS512 => true | _ => false end.

(** Values of a [jwt.MapClaims] entry, as [encoding/json] decodes them. *)
Inductive scalar : Type :=
  | JString (s : string)
  | JNumber (n : Z)
  | JBool (b : bool)
  | JNull.

Inductive ClaimValue : Type :=
  | Scalar (x : scalar)
  | Array (l : list scalar).

#[global] Instance scalar_eq_dec : EqDecision scalar.
Proof. solve_decision. Defined.
#[global] Instance ClaimValue_eq_dec : EqDecision ClaimValue.
Proof. solve_decision. Defined.

(** [v.(string)] with the comma-ok result dropped: the zero value on a miss. *)
Definition as_string (v : option ClaimValue) : string :=
  match v with
  | Some (Scalar (JString s)) => s
  | _ => EmptyString
  end.

(** [v.([]interface{})], [nil] on a miss. *)
Definition as_array (v : option ClaimValue) : list scalar :=
  match v with
  | Some (Array l) => l
  | _ => []
  end.

Abbreviation MapClaims := (gmap string ClaimValue).

(** A compact JWS: header algorithm, claims, and the key that made the
    signature. *)
Record Token : Type := mkToken {
  Method : SigningMethod;
  Claims : MapClaims;
  signed_with : string
}.

#[global] Instance Token_eq_dec : EqDecision Token.
Proof. solve_decision. Defined.

Inductive atom : Type :=
  | Ch (c : ascii)
  | Jws (t : Token).

#[global] Instance atom_eq_dec : EqDecision atom.
Proof. solve_decision. Defined.

Abbreviation text := (list atom).

(** A plain Go string literal as a [text]. *)
Definition lit (s : string) : text := Ch <$> list_ascii_of_string s.

(** [strings.Split(s, sep)] for a one-element separator: the fields between
    the occurrences of [sep]; always at least one field. *)
Fixpoint Split {A} `{EqDecision A} (sep : A) (s : list A) : list (list A) :=
  match s with
  | [] => [[]]
  | c :: s' =>
      if decide (c = sep) then [] :: Split sep s'
      else match Split sep s' with
           | [] => [[c]]
           | f :: fs => (c :: f) :: fs
           end
  end.

(** *** [jwt.Parse] of golang-jwt v5, as the service configures it *)

(** [parseNumericDate]: absent or zero is no date; a non-number is an error. *)
Definition NumericDate (v : option ClaimValue) : result (option Z) :=
  match v with
  | None => Ok None
  | Some (Scalar (JNumber n)) => if decide (n = 0) then Ok None else Ok (Some n)
  | Some _ => Err (Foreign "token has invalid claims: invalid type for claim")
  end.

(** [Validator.Validate] with the default options: [exp] and [nbf]. *)
Definition Validate (claims : MapClaims) (now : Z) : option error :=
  match NumericDate (claims !! "exp") with
  | Err e => Some e
  | Ok exp =>
      if match exp with Some e => bool_decide (now < e) | None => true end
      then match NumericDate (claims !! "nbf") with
           | Err e => Some e
           | Ok nbf =>
               if match nbf with Some n => bool_decide (n <= now) | None => true end
               then None
               else Some (Foreign "token has invalid claims: token is not valid yet")
           end
      else Some (Foreign "token has invalid claims: token is expired")
  end.

(** A parsed [jwt.Token]. *)
Record ParsedToken : Type := mkParsed {
  Parsed_Method : SigningMethod;
  Parsed_Claims : MapClaims;
  Valid : bool
}.

Definition jwt_Parse (tokenString : text) (keyFunc : SigningMethod -> result string)
    (now : Z) : result ParsedToken :=
  match tokenString with
  | [Jws t] =>
      match keyFunc (Method t) with
      | Err e => Err (Errorf "token is unverifiable: error while executing keyfunc" e)
      | Ok key =>
          if decide (signed_with t = key) then
            match Validate (Claims t) now with
            | Some e => Err e
            | None => Ok (mkParsed (Method t) (Claims t) true)
            end
          else Err (Foreign "token signature is invalid: signature is invalid")
      end
  | _ => Err (Foreign "token is malformed: token contains an invalid number of segments")
  end.

(** [jwt.NewWithClaims(method, claims)] followed by [SignedString(key)]. *)
Definition SignedString (m : SigningMethod) (claims : MapClaims) (key : string)
    : result text :=
  Ok [Jws (mkToken m claims key)].

(** The key function both parsers of the source pass to [jwt.Parse]. *)
Definition hmacKeyFunc (secret : string) (m : SigningMethod) : result string :=
  if SigningMethodHMAC m then Ok secret
  else Err (Foreign "unexpected signing method").

(** ** The request context *)

(** [middleware.UserClaims]: what the bearer-token check leaves in the
    context for the handlers. *)
Record UserClaims : Type := mkUserClaims {
  UserClaims_UserID : string;
  UserClaims_Email : string;
  UserClaims_Roles : list string
}.

(** [context.Context] of one request, with what the request observes of
    its environment. *)
Record Context : Type := mkContext {
  ctx_now : Z;                       (* time.Now().UTC() *)
  ctx_uuid : string;                 (* uuid.New().String() *)
  ctx_rand : result string;          (* hex of 32 bytes of crypto/rand, or its error *)
  ctx_claims : option UserClaims     (* ctx.Value(userClaimsKey) *)
}.

(** [WithUserClaims] and [GetUserClaims] of package middleware. *)
Definition WithUserClaims (ctx : Context) (claims : UserClaims) : Context :=
  mkContext (ctx_now ctx) (ctx_uuid ctx) (ctx_rand ctx) (Some claims).

Definition GetUserClaims (ctx : Context) : option UserClaims := ctx_claims ctx.

(** ** Package logger: the records a request writes *)

Inductive Level : Type := DebugLevel | InfoLevel | WarnLevel | ErrorLevel.

#[global] Instance Level_eq_dec : EqDecision Level.
Proof. solve_decision. Defined.

(** A log record: level and message (the structured fields are dropped). *)
Definition LogEntry : Type := Level * string.

(** The Go loop that returns true at the first element of a slice that
    passes a test, and false after the last. *)
Fixpoint any_in_range {A} (test : A -> bool) (xs : list A) : bool :=
  match xs with
  | [] => false
  | x :: rest => if test x then true else any_in_range test rest
  end.

(** ** Package models *)

Module models.

Record User : Type := mkUser {
  User_ID : string;
  User_Email : string;
  User_Name : string;
  User_IsVerified : bool;
  User_IsActive : bool;
  User_Roles : list string;
  User_CreatedAt : Z;
  User_UpdatedAt : Z;
  User_LastLoginAt : option Z
}.

Record Session : Type := mkSession {
  Session_ID : string;
  Session_UserID : string;
  Session_Token : string;
  Session_DeviceID : string;
  Session_UserAgent : string;
  Session_IPAddress : string;
  Session_CreatedAt : Z;
  Session_ExpiresAt : Z;
  Session_IsActive : bool
}.

Record AnonymousSession : Type := mkAnonymousSession {
  AnonymousSession_ID : string;
  AnonymousSession_Token : text;
  AnonymousSession_CreatedAt : Z;
  AnonymousSession_ExpiresAt : Z
}.

Record LoginRequest : Type := mkLoginRequest {
  LoginRequest_Email : string;
  LoginRequest_Password : string;
  LoginRequest_DeviceID : string
}.

Record RegisterRequest : Type := mkRegisterRequest {
  RegisterRequest_Email : string;
  RegisterRequest_Password : string;
  RegisterRequest_Name : string
}.

(** If [SessionID] is empty, logout all sessions. *)
Record LogoutRequest : Type := mkLogoutRequest {
  LogoutRequest_SessionID : string
}.

Record AuthResponse : Type := mkAuthResponse {
  AccessToken : text;
  RefreshToken : text;
  ExpiresIn : Z;
  AuthResponse_User : User
}.

Record TokenClaims : Type := mkTokenClaims {
  TokenClaims_UserID : string;
  TokenClaims_Email : string;
  TokenClaims_Name : string;
  TokenClaims_Roles : list string;
  TokenClaims_SessionID : string;
  TokenClaims_IssuedAt : Z;
  TokenClaims_ExpiresAt : Z
}.

Record PasswordResetToken : Type := mkPasswordResetToken {
  PasswordResetToken_UserID : string;
  PasswordResetToken_Token : string;
  PasswordResetToken_ExpiresAt : Z;
  PasswordResetToken_Used : bool;
  PasswordResetToken_CreatedAt : Z
}.

Record EmailVerificationToken : Type := mkEmailVerificationToken {
  EmailVerificationToken_UserID : string;
  EmailVerificationToken_Token : string;
  EmailVerificationToken_Email : string;
  EmailVerificationToken_ExpiresAt : Z;
  EmailVerificationToken_Used : bool;
  EmailVerificationToken_CreatedAt : Z
}.

Record UserCreateRequest : Type := mkUserCreateRequest {
  UserCreateRequest_Email : string;
  UserCreateRequest_PasswordHash : string;
  UserCreateRequest_Name : string;
  UserCreateRequest_Roles : list string
}.

Record SessionCreateRequest : Type := mkSessionCreateRequest {
  SessionCreateRequest_UserID : string;
  SessionCreateRequest_DeviceID : string;
  SessionCreateRequest_UserAgent : string;
  SessionCreateRequest_IPAddress : string
}.

Definition TokenTypeAccess : string := "access".
Definition TokenTypeRefresh : string := "refresh".

Definition RoleUser : string := "user".

(** Durations, in seconds. *)
Definition DefaultSessionDuration : Z := 15 * 60.
Definition DefaultRefreshDuration : Z := 7 * 24 * 3600.
Definition DefaultResetTokenDuration : Z := 1 * 3600.
Definition DefaultVerifyTokenDuration : Z := 24 * 3600.
Definition DefaultAnonymousDuration : Z := 24 * 3600.

Definition SanitizeUser (u : User) : User :=
  mkUser (User_ID u) (User_Email u) (User_Name u) (User_IsVerified u)
         (User_IsActive u) (User_Roles u) (User_CreatedAt u)
         (User_UpdatedAt u) (User_LastLoginAt u).

(** [s.IsExpired()]: [time.Now().UTC().After(s.ExpiresAt)]. *)
Definition Session_IsExpired (now : Z) (s : Session) : bool :=
  bool_decide (Session_ExpiresAt s < now).

Definition AnonymousSession_IsExpired (now : Z) (a : AnonymousSession) : bool :=
  bool_decide (AnonymousSession_ExpiresAt a < now).

Record ResetPasswordRequest : Type := mkResetPasswordRequest {
  ResetPasswordRequest_Token : string;
  ResetPasswordRequest_NewPassword : string
}.

Record ChangePasswordRequest : Type := mkChangePasswordRequest {
  ChangePasswordRequest_CurrentPassword : string;
  ChangePasswordRequest_NewPassword : string
}.

Definition RoleAdmin : string := "admin".
Definition RoleMod : string := "moderator".

Definition IsValidRole (role : string) : bool :=
  any_in_range (fun validRole => bool_decide (role = validRole))
               [RoleUser; RoleAdmin; RoleMod].

Definition HasRole (u : User) (role : string) : bool :=
  any_in_range (fun userRole => bool_decide (userRole = role)) (User_Roles u).

End models.

(** ** Package repositories: the two storage interfaces *)

Module repositories.
Import models.

Definition ErrUserNotFound : error := Sentinel "repositories" "user not found".
Definition ErrSessionNotFound : error := Sentinel "repositories" "session not found".
Definition ErrTokenNotFound : error := Sentinel "repositories" "token not found".
Definition ErrTokenExpired : error := Sentinel "repositories" "token expired".

(** [UserRepository] over the state [U] of the storage behind it.  Reads
    return a value; writes return the error and the storage after. *)
Class UserRepository (U : Type) : Type := {
  CreateUser : Context -> User -> string -> U -> option error * U;
  GetUser : Context -> string -> U -> result User;
  GetUserByEmail : Context -> string -> U -> result User;
  UpdateUser : Context -> User -> U -> option error * U;
  DeleteUser : Context -> string -> U -> option error * U;
  GetPasswordHash : Context -> string -> U -> result string;
  UpdatePassword : Context -> string -> string -> U -> option error * U;
  UpdateLastLogin : Context -> string -> Z -> U -> option error * U;
  CreateEmailVerificationToken :
    Context -> string -> string -> string -> Z -> U -> option error * U;
  VerifyEmailToken : Context -> string -> U -> result string;
  MarkEmailTokenUsed : Context -> string -> U -> option error * U;
  MarkUserVerified : Context -> string -> U -> option error * U;
  CreatePasswordResetToken :
    Context -> string -> string -> Z -> U -> option error * U;
  VerifyPasswordResetToken : Context -> string -> U -> result string;
  MarkPasswordResetTokenUsed : Context -> string -> U -> option error * U
}.

Class SessionRepository (S : Type) : Type := {
  CreateSession : Context -> Session -> S -> option error * S;
  GetSession : Context -> string -> S -> result Session;
  GetUserSessions : Context -> string -> S -> result (list Session);
  UpdateSession : Context -> Session -> S -> option error * S;
  DeleteSession : Context -> string -> S -> option error * S;
  DeactivateSession : Context -> string -> S -> option error * S;
  DeactivateUserSessions : Context -> string -> S -> option error * S;
  CleanupExpiredSessions : Context -> S -> option error * S;
  CreateAnonymousSession : Context -> AnonymousSession -> S -> option error * S;
  GetAnonymousSession : Context -> string -> S -> result AnonymousSession;
  DeleteAnonymousSession : Context -> string -> S -> option error * S;
  CleanupExpiredAnonymousSessions : Context -> S -> option error * S
}.

(** The implementations the source ships: stateless placeholders. *)
Inductive MockUserRepository : Type := mockUsers.
Inductive MockSessionRepository : Type := mockSessions.

#[export] Instance NewDynamoDBUserRepository : UserRepository MockUserRepository := {
  CreateUser _ _ _ r := (None, r);
  GetUser _ _ _ := Err ErrUserNotFound;
  GetUserByEmail _ _ _ := Err ErrUserNotFound;
  UpdateUser _ _ r := (None, r);
  DeleteUser _ _ r := (None, r);
  GetPasswordHash _ _ _ := Err ErrUserNotFound;
  UpdatePassword _ _ _ r := (None, r);
  UpdateLastLogin _ _ _ r := (None, r);
  CreateEmailVerificationToken _ _ _ _ _ r := (None, r);
  VerifyEmailToken _ _ _ := Err ErrTokenNotFound;
  MarkEmailTokenUsed _ _ r := (None, r);
  MarkUserVerified _ _ r := (None, r);
  CreatePasswordResetToken _ _ _ _ r := (None, r);
  VerifyPasswordResetToken _ _ _ := Err ErrTokenNotFound;
  MarkPasswordResetTokenUsed _ _ r := (None, r)
}.

#[export] Instance NewDynamoDBSessionRepository : SessionRepository MockSessionRepository := {
  CreateSession _ _ r := (None, r);
  GetSession _ _ _ := Err ErrSessionNotFound;
  GetUserSessions _ _ _ := Ok [];
  UpdateSession _ _ r := (None, r);
  DeleteSession _ _ r := (None, r);
  DeactivateSession _ _ r := (None, r);
  DeactivateUserSessions _ _ r := (None, r);
  CleanupExpiredSessions _ r := (None, r);
  CreateAnonymousSession _ _ r := (None, r);
  GetAnonymousSession _ _ _ := Err ErrSessionNotFound;
  DeleteAnonymousSession _ _ r := (None, r);
  CleanupExpiredAnonymousSessions _ r := (None, r)
}.

End repositories.

(** ** Shared configuration, external libraries and the observable world *)

(** [config.Config], the fields this code reads. *)
Record Config : Type := mkConfig {
  JWTSecret : string;
  CORSOrigin : string
}.

(** [golang.org/x/crypto/bcrypt], the two functions the service calls. *)
Class Bcrypt : Type := {
  GenerateFromPassword : string -> result string;
  CompareHashAndPassword : string -> string -> option error
}.

(** What the operations act on: the storage behind each repository and the
    log written so far. *)
Record World (U S : Type) : Type := mkWorld {
  w_users : U;
  w_sessions : S;
  w_log : list LogEntry
}.
Arguments mkWorld {U S} _ _ _.
Arguments w_users {U S} _.
Arguments w_sessions {U S} _.
Arguments w_log {U S} _.

Definition set_users {U S} (u : U) (w : World U S) : World U S :=
  mkWorld u (w_sessions w) (w_log w).

Definition set_sessions {U S} (s : S) (w : World U S) : World U S :=
  mkWorld (w_users w) s (w_log w).

Definition logCtx {U S} (lvl : Level) (msg : string) (w : World U S) : World U S :=
  mkWorld (w_users w) (w_sessions w) (w_log w ++ [(lvl, msg)]).

Abbreviation DebugCtx := (logCtx DebugLevel).
Abbreviation InfoCtx := (logCtx InfoLevel).
Abbreviation WarnCtx := (logCtx WarnLevel).
Abbreviation ErrorCtx := (logCtx ErrorLevel).

(** ** Package services: [AuthService] *)

Module services.
Import models.
Export repositories.

Definition ErrInvalidCredentials : error := Sentinel "services" "invalid credentials".
Definition ErrUserAlreadyExists : error := Sentinel "services" "user already exists".
Definition ErrUserNotFound : error := Sentinel "services" "user not found".
Definition ErrUserNotVerified : error := Sentinel "services" "user not verified".
Definition ErrUserDisabled : error := Sentinel "services" "user disabled".
Definition ErrInvalidToken : error := Sentinel "services" "invalid token".
Definition ErrTokenExpired : error := Sentinel "services" "token expired".
Definition ErrSessionNotFound : error := Sentinel "services" "session not found".

Section AuthService.

Context {U S : Type} `{!UserRepository U} `{!SessionRepository S} `{!Bcrypt}.
Variable cfg : Config.

#[local] Abbreviation world := (World U S).

(** *** Private helper methods *)

Definition hashPassword (password : string) : result string :=
  GenerateFromPassword password.

Definition verifyPassword (ctx : Context) (userID password : string) (w : world)
    : option error :=
  match GetPasswordHash ctx userID (w_users w) with
  | Err err => Some (Errorf "failed to get password hash" err)
  | Ok passwordHash =>
      match CompareHashAndPassword passwordHash password with
      | Some err => Some (Errorf "password verification failed" err)
      | None => None
      end
  end.

Definition accessClaims (ctx : Context) (user : User) (sessionID : string) : MapClaims :=
  <["sub" := Scalar (JString (User_ID user))]>
  (<["email" := Scalar (JString (User_Email user))]>
  (<["name" := Scalar (JString (User_Name user))]>
  (<["roles" := Array (JString <$> User_Roles user)]>
  (<["session_id" := Scalar (JString sessionID)]>
  (<["iat" := Scalar (JNumber (ctx_now ctx))]>
  (<["exp" := Scalar (JNumber (ctx_now ctx + DefaultSessionDuration))]>
  (<["type" := Scalar (JString TokenTypeAccess)]> ∅))))))).

Definition generateAccessToken (ctx : Context) (user : User) (sessionID : string)
    : result text :=
  match SignedString HS256 (accessClaims ctx user sessionID) (JWTSecret cfg) with
  | Err err => Err (Errorf "failed to sign token" err)
  | Ok tokenString => Ok tokenString
  end.

Definition refreshClaims (ctx : Context) (userID sessionID : string) : MapClaims :=
  <["sub" := Scalar (JString userID)]>
  (<["session_id" := Scalar (JString sessionID)]>
  (<["iat" := Scalar (JNumber (ctx_now ctx))]>
  (<["exp" := Scalar (JNumber (ctx_now ctx + DefaultRefreshDuration))]>
  (<["type" := Scalar (JString TokenTypeRefresh)]> ∅)))).

Definition generateRefreshToken (ctx : Context) (userID sessionID : string)
    : result text :=
  match SignedString HS256 (refreshClaims ctx userID sessionID) (JWTSecret cfg) with
  | Err err => Err (Errorf "failed to sign refresh token" err)
  | Ok tokenString => Ok tokenString
  end.

Definition anonymousClaims (ctx : Context) (sessionID : string) : MapClaims :=
  <["session_id" := Scalar (JString sessionID)]>
  (<["iat" := Scalar (JNumber (ctx_now ctx))]>
  (<["exp" := Scalar (JNumber (ctx_now ctx + DefaultAnonymousDuration))]>
  (<["type" := Scalar (JString "anonymous")]> ∅))).

Definition generateAnonymousToken (ctx : Context) (sessionID : string) : result text :=
  match SignedString HS256 (anonymousClaims ctx sessionID) (JWTSecret cfg) with
  | Err err => Err (Errorf "failed to sign anonymous token" err)
  | Ok tokenString => Ok tokenString
  end.

(** The type assertion of [token.Claims] to [jwt.MapClaims] always holds for
    [jwt.Parse]; its failure branch has no counterpart here. *)
Definition parseRefreshToken (ctx : Context) (tokenString : text) : result TokenClaims :=
  match jwt_Parse tokenString (hmacKeyFunc (JWTSecret cfg)) (ctx_now ctx) with
  | Err err => Err err
  | Ok token =>
      if negb (Valid token) then Err ErrInvalidToken
      else
        let claims := Parsed_Claims token in
        let tokenType := as_string (claims !! "type") in
        if negb (bool_decide (tokenType = TokenTypeRefresh)) then Err ErrInvalidToken
        else
          let userID := as_string (claims !! "sub") in
          let sessionID := as_string (claims !! "session_id") in
          if bool_decide (userID = EmptyString) || bool_decide (sessionID = EmptyString)
          then Err ErrInvalidToken
          else Ok (mkTokenClaims userID EmptyString EmptyString [] sessionID 0 0)
  end.

Definition generateSecureToken (ctx : Context) : result string := ctx_rand ctx.

Definition createSession (ctx : Context) (req : SessionCreateRequest) (w : world)
    : result Session * world :=
  let sessionID := ctx_uuid ctx in
  let now := ctx_now ctx in
  let session :=
    mkSession sessionID (SessionCreateRequest_UserID req) EmptyString
              (SessionCreateRequest_DeviceID req) (SessionCreateRequest_UserAgent req)
              (SessionCreateRequest_IPAddress req) now
              (now + DefaultRefreshDuration) true in
  let '(err, s) := CreateSession ctx session (w_sessions w) in
  let w := set_sessions s w in
  match err with
  | Some err => (Err (Errorf "failed to create session" err), w)
  | None => (Ok session, w)
  end.

Definition sendVerificationEmail (ctx : Context) (user : User) (w : world)
    : option error * world :=
  match generateSecureToken ctx with
  | Err err => (Some (Errorf "failed to generate verification token" err), w)
  | Ok verificationToken =>
      let '(err, u) :=
        CreateEmailVerificationToken ctx (User_ID user) (User_Email user)
          verificationToken DefaultVerifyTokenDuration (w_users w) in
      let w := set_users u w in
      match err with
      | Some err => (Some (Errorf "failed to store verification token" err), w)
      | None => (None, InfoCtx "Verification email would be sent" w)
      end
  end.

Definition sendPasswordResetEmail (ctx : Context) (user : User) (resetToken : string)
    (w : world) : option error * world :=
  (None, InfoCtx "Password reset email would be sent" w).

(** *** Operations *)

Definition Login (ctx : Context) (req : LoginRequest) (w : world)
    : result AuthResponse * world :=
  let w := DebugCtx "Attempting to login user" w in
  match GetUserByEmail ctx (LoginRequest_Email req) (w_users w) with
  | Err err =>
      if decide (err = repositories.ErrUserNotFound) then (Err ErrInvalidCredentials, w)
      else (Err (Errorf "failed to get user" err), w)
  | Ok user =>
      if negb (User_IsActive user) then (Err ErrUserDisabled, w)
      else if negb (User_IsVerified user) then (Err ErrUserNotVerified, w)
      else
        match verifyPassword ctx (User_ID user) (LoginRequest_Password req) w with
        | Some _ => (Err ErrInvalidCredentials, w)
        | None =>
            let sessionReq :=
              mkSessionCreateRequest (User_ID user) (LoginRequest_DeviceID req) EmptyString EmptyString in
            match createSession ctx sessionReq w with
            | (Err err, w) => (Err (Errorf "failed to create session" err), w)
            | (Ok session, w) =>
                match generateAccessToken ctx user (Session_ID session) with
                | Err err => (Err (Errorf "failed to generate access token" err), w)
                | Ok accessToken =>
                    match generateRefreshToken ctx (User_ID user) (Session_ID session) with
                    | Err err => (Err (Errorf "failed to generate refresh token" err), w)
                    | Ok refreshToken =>
                        let '(err, u) :=
                          UpdateLastLogin ctx (User_ID user) (ctx_now ctx) (w_users w) in
                        let w := set_users u w in
                        let w :=
                          match err with
                          | Some _ => WarnCtx "Failed to update last login time" w
                          | None => w
                          end in
                        let response :=
                          mkAuthResponse accessToken refreshToken DefaultSessionDuration
                                         (SanitizeUser user) in
                        (Ok response, InfoCtx "User login successful" w)
                    end
                end
            end
        end
  end.

Definition Register (ctx : Context) (req : RegisterRequest) (w : world)
    : result User * world :=
  let w := DebugCtx "Attempting to register user" w in
  match GetUserByEmail ctx (RegisterRequest_Email req) (w_users w) with
  | Err err =>
      if decide (err = repositories.ErrUserNotFound) then
        match hashPassword (RegisterRequest_Password req) with
        | Err err => (Err (Errorf "failed to hash password" err), w)
        | Ok passwordHash =>
            let userID := ctx_uuid ctx in
            let createReq :=
              mkUserCreateRequest (RegisterRequest_Email req) passwordHash
                                  (RegisterRequest_Name req) [RoleUser] in
            let user :=
              mkUser userID (UserCreateRequest_Email createReq)
                     (UserCreateRequest_Name createReq) false true
                     (UserCreateRequest_Roles createReq) (ctx_now ctx) (ctx_now ctx)
                     None in
            let '(err, u) :=
              CreateUser ctx user (UserCreateRequest_PasswordHash createReq) (w_users w) in
            let w := set_users u w in
            match err with
            | Some err => (Err (Errorf "failed to create user" err), w)
            | None =>
                let '(err, w) := sendVerificationEmail ctx user w in
                let w :=
                  match err with
                  | Some _ => WarnCtx "Failed to send verification email" w
                  | None => w
                  end in
                (Ok user, InfoCtx "User registration successful" w)
            end
        end
      else (Err (Errorf "failed to check existing user" err), w)
  | Ok existingUser => (Err ErrUserAlreadyExists, w)
  end.

Definition Logout (ctx : Context) (userID sessionID : string) (w : world)
    : option error * world :=
  let w := DebugCtx "Attempting to logout user" w in
  if negb (bool_decide (sessionID = EmptyString)) then
    let '(err, s) := DeactivateSession ctx sessionID (w_sessions w) in
    let w := set_sessions s w in
    match err with
    | Some err => (Some (Errorf "failed to deactivate session" err), w)
    | None => (None, InfoCtx "User logout successful" w)
    end
  else
    let '(err, s) := DeactivateUserSessions ctx userID (w_sessions w) in
    let w := set_sessions s w in
    match err with
    | Some err => (Some (Errorf "failed to deactivate user sessions" err), w)
    | None => (None, InfoCtx "User logout successful" w)
    end.

Definition RefreshToken (ctx : Context) (refreshToken : text) (w : world)
    : result AuthResponse * world :=
  let w := DebugCtx "Attempting to refresh token" w in
  match parseRefreshToken ctx refreshToken with
  | Err _ => (Err ErrInvalidToken, w)
  | Ok claims =>
      match GetUser ctx (TokenClaims_UserID claims) (w_users w) with
      | Err err =>
          if decide (err = repositories.ErrUserNotFound) then (Err ErrInvalidToken, w)
          else (Err (Errorf "failed to get user" err), w)
      | Ok user =>
          if negb (User_IsActive user) then (Err ErrUserDisabled, w)
          else
            match GetSession ctx (TokenClaims_SessionID claims) (w_sessions w) with
            | Err err =>
                if decide (err = repositories.ErrSessionNotFound)
                then (Err ErrInvalidToken, w)
                else (Err (Errorf "failed to get session" err), w)
            | Ok session =>
                if negb (Session_IsActive session) || Session_IsExpired (ctx_now ctx) session
                then (Err ErrTokenExpired, w)
                else
                  match generateAccessToken ctx user (Session_ID session) with
                  | Err err => (Err (Errorf "failed to generate access token" err), w)
                  | Ok accessToken =>
                      match generateRefreshToken ctx (User_ID user) (Session_ID session) with
                      | Err err =>
                          (Err (Errorf "failed to generate refresh token" err), w)
                      | Ok newRefreshToken =>
                          let response :=
                            mkAuthResponse accessToken newRefreshToken
                                           DefaultSessionDuration (SanitizeUser user) in
                          (Ok response, InfoCtx "Token refresh successful" w)
                      end
                  end
            end
      end
  end.

Definition ForgotPassword (ctx : Context) (email : string) (w : world)
    : option error * world :=
  let w := DebugCtx "Processing forgot password request" w in
  match GetUserByEmail ctx email (w_users w) with
  | Err err =>
      if decide (err = repositories.ErrUserNotFound) then (None, w)
      else (Some (Errorf "failed to get user" err), w)
  | Ok user =>
      match generateSecureToken ctx with
      | Err err => (Some (Errorf "failed to generate reset token" err), w)
      | Ok resetToken =>
          let '(err, u) :=
            CreatePasswordResetToken ctx (User_ID user) resetToken
              DefaultResetTokenDuration (w_users w) in
          let w := set_users u w in
          match err with
          | Some err => (Some (Errorf "failed to store reset token" err), w)
          | None =>
              let '(err, w) := sendPasswordResetEmail ctx user resetToken w in
              match err with
              | Some err =>
                  (Some (Errorf "failed to send reset email" err),
                   ErrorCtx "Failed to send password reset email" w)
              | None => (None, InfoCtx "Password reset initiated" w)
              end
          end
      end
  end.

Definition ResetPassword (ctx : Context) (token newPassword : string) (w : world)
    : option error * world :=
  let w := DebugCtx "Processing password reset" w in
  match VerifyPasswordResetToken ctx token (w_users w) with
  | Err err =>
      if bool_decide (err = repositories.ErrTokenNotFound)
         || bool_decide (err = repositories.ErrTokenExpired)
      then (Some ErrInvalidToken, w)
      else (Some (Errorf "failed to verify reset token" err), w)
  | Ok userID =>
      match hashPassword newPassword with
      | Err err => (Some (Errorf "failed to hash password" err), w)
      | Ok passwordHash =>
          let '(err, u) := UpdatePassword ctx userID passwordHash (w_users w) in
          let w := set_users u w in
          match err with
          | Some err => (Some (Errorf "failed to update password" err), w)
          | None =>
              let '(err, u) := MarkPasswordResetTokenUsed ctx token (w_users w) in
              let w := set_users u w in
              let w :=
                match err with
                | Some _ => WarnCtx "Failed to mark reset token as used" w
                | None => w
                end in
              let '(err, s) := DeactivateUserSessions ctx userID (w_sessions w) in
              let w := set_sessions s w in
              let w :=
                match err with
                | Some _ => WarnCtx "Failed to deactivate user sessions" w
                | None => w
                end in
              (None, InfoCtx "Password reset successful" w)
          end
      end
  end.

Definition ChangePassword (ctx : Context) (userID currentPassword newPassword : string)
    (w : world) : option error * world :=
  let w := DebugCtx "Processing password change" w in
  match verifyPassword ctx userID currentPassword w with
  | Some _ => (Some ErrInvalidCredentials, w)
  | None =>
      match hashPassword newPassword with
      | Err err => (Some (Errorf "failed to hash password" err), w)
      | Ok passwordHash =>
          let '(err, u) := UpdatePassword ctx userID passwordHash (w_users w) in
          let w := set_users u w in
          match err with
          | Some err => (Some (Errorf "failed to update password" err), w)
          | None => (None, InfoCtx "Password change successful" w)
          end
      end
  end.

Definition VerifyEmail (ctx : Context) (token : string) (w : world)
    : option error * world :=
  let w := DebugCtx "Processing email verification" w in
  match VerifyEmailToken ctx token (w_users w) with
  | Err err =>
      if bool_decide (err = repositories.ErrTokenNotFound)
         || bool_decide (err = repositories.ErrTokenExpired)
      then (Some ErrInvalidToken, w)
      else (Some (Errorf "failed to verify email token" err), w)
  | Ok userID =>
      let '(err, u) := MarkUserVerified ctx userID (w_users w) in
      let w := set_users u w in
      match err with
      | Some err => (Some (Errorf "failed to mark user as verified" err), w)
      | None =>
          let '(err, u) := MarkEmailTokenUsed ctx token (w_users w) in
          let w := set_users u w in
          let w :=
            match err with
            | Some _ => WarnCtx "Failed to mark email token as used" w
            | None => w
            end in
          (None, InfoCtx "Email verification successful" w)
      end
  end.

Definition ResendVerification (ctx : Context) (email : string) (w : world)
    : option error * world :=
  let w := DebugCtx "Processing resend verification" w in
  match GetUserByEmail ctx email (w_users w) with
  | Err err =>
      if decide (err = repositories.ErrUserNotFound) then (None, w)
      else (Some (Errorf "failed to get user" err), w)
  | Ok user =>
      if User_IsVerified user then (None, w)
      else
        let '(err, w) := sendVerificationEmail ctx user w in
        match err with
        | Some err => (Some (Errorf "failed to send verification email" err), w)
        | None => (None, InfoCtx "Verification email resent" w)
        end
  end.

Definition GetUser (ctx : Context) (userID : string) (w : world) : result User :=
  match repositories.GetUser ctx userID (w_users w) with
  | Err err => Err (Errorf "failed to get user" err)
  | Ok user => Ok (SanitizeUser user)
  end.

Definition CreateAnonymousSession (ctx : Context) (w : world)
    : result AnonymousSession * world :=
  let w := DebugCtx "Creating anonymous session" w in
  let sessionID := ctx_uuid ctx in
  match generateAnonymousToken ctx sessionID with
  | Err err => (Err (Errorf "failed to generate anonymous token" err), w)
  | Ok token =>
      let session :=
        mkAnonymousSession sessionID token (ctx_now ctx)
                           (ctx_now ctx + DefaultAnonymousDuration) in
      let '(err, s) := repositories.CreateAnonymousSession ctx session (w_sessions w) in
      let w := set_sessions s w in
      match err with
      | Some err => (Err (Errorf "failed to create anonymous session" err), w)
      | None => (Ok session, InfoCtx "Anonymous session created" w)
      end
  end.

Definition GetUserSessions (ctx : Context) (userID : string) (w : world)
    : result (list Session) :=
  match repositories.GetUserSessions ctx userID (w_sessions w) with
  | Err err => Err (Errorf "failed to get user sessions" err)
  | Ok sessions => Ok sessions
  end.

Definition RevokeSession (ctx : Context) (userID sessionID : string) (w : world)
    : option error * world :=
  match GetSession ctx sessionID (w_sessions w) with
  | Err err =>
      if decide (err = repositories.ErrSessionNotFound) then (Some ErrSessionNotFound, w)
      else (Some (Errorf "failed to get session" err), w)
  | Ok session =>
      if negb (bool_decide (Session_UserID session = userID))
      then (Some ErrSessionNotFound, w)
      else
        let '(err, s) := DeactivateSession ctx sessionID (w_sessions w) in
        let w := set_sessions s w in
        match err with
        | Some err => (Some (Errorf "failed to deactivate session" err), w)
        | None => (None, InfoCtx "Session revoked" w)
        end
  end.

End AuthService.

End services.

(** ** API Gateway requests and responses *)

(** A JSON value met in a request body: a string, [null] ([JNil]), or
    anything else (a number, a boolean, an array, an object). *)
Inductive jvalue : Type :=
  | JStr (s : text)
  | JNil
  | JOther.

(** [request.Body] as [encoding/json] sees it: the empty string, a text that
    is not a JSON document, or a JSON object with its members in the order
    of the document; a name may occur more than once.  (Documents that are
    not objects are not represented.) *)
Inductive Body : Type :=
  | EmptyBody
  | Malformed
  | Object (members : list (string * jvalue)).

Record APIGatewayProxyRequest : Type := mkRequest {
  HTTPMethod : string;
  Path : string;
  Headers : gmap string text;
  Request_Body : Body
}.

(** The value a handler marshals into the response body. *)
Inductive Data : Type :=
  | ErrorData (message : string)
  | MessageData (message : string)
  | RegisteredData (message user_id : string)
  | AuthData (r : models.AuthResponse)
  | UserData (u : models.User)
  | SessionsData (l : list models.Session)
  | AnonymousData (a : models.AnonymousSession).

Record APIGatewayProxyResponse : Type := mkResponse {
  StatusCode : Z;
  Response_Headers : gmap string string;
  Response_Body : Data
}.

Definition StatusOK : Z := 200.
Definition StatusCreated : Z := 201.
Definition StatusBadRequest : Z := 400.
Definition StatusUnauthorized : Z := 401.
Definition StatusForbidden : Z := 403.
Definition StatusNotFound : Z := 404.
Definition StatusConflict : Z := 409.
Definition StatusInternalServerError : Z := 500.

(** A Go map read: the zero value when the key is absent. *)
Definition header (request : APIGatewayProxyRequest) (name : string) : text :=
  default [] (Headers request !! name).

(** The characters of a text that carries no token. *)
Fixpoint plain (t : text) : option string :=
  match t with
  | [] => Some EmptyString
  | Ch c :: t' => String c <$> plain t'
  | Jws _ :: _ => None
  end.

(** *** Strings as bytes

    A Go string is a sequence of bytes; a character outside ASCII takes
    two to four of them (UTF-8). *)

Definition byte_in (lo hi : N) (c : ascii) : bool :=
  ((lo <=? N_of_ascii c) && (N_of_ascii c <=? hi))%N.

(** Table [first] of package [unicode/utf8]: for the first byte of an
    encoding, its length and the range of its second byte; [None] for a
    byte that starts no encoding. *)
Definition first (c : ascii) : option (nat * (N * N)) :=
  if byte_in 194 223 c then Some (2%nat, (128, 191)%N)
  else if byte_in 224 224 c then Some (3%nat, (160, 191)%N)
  else if byte_in 225 236 c then Some (3%nat, (128, 191)%N)
  else if byte_in 237 237 c then Some (3%nat, (128, 159)%N)
  else if byte_in 238 239 c then Some (3%nat, (128, 191)%N)
  else if byte_in 240 240 c then Some (4%nat, (144, 191)%N)
  else if byte_in 241 243 c then Some (4%nat, (128, 191)%N)
  else if byte_in 244 244 c then Some (4%nat, (128, 143)%N)
  else None.

(** The number of bytes that the loop of [utf8.RuneCountInString] steps
    over at the byte [c] followed by [rest]: the length of the encoding
    when it is complete and well formed, one byte otherwise. *)
Definition rune_width (c : ascii) (rest : list ascii) : nat :=
  if byte_in 0 127 c then 1%nat
  else
    match first c with
    | None => 1%nat
    | Some (size, (lo, hi)) =>
        if (length rest <? size - 1)%nat then 1%nat
        else
          match rest with
          | c1 :: rest1 =>
              if negb (byte_in lo hi c1) then 1%nat
              else if (size =? 2)%nat then 2%nat
              else
                match rest1 with
                | c2 :: rest2 =>
                    if negb (byte_in 128 191 c2) then 1%nat
                    else if (size =? 3)%nat then 3%nat
                    else
                      match rest2 with
                      | c3 :: _ => if negb (byte_in 128 191 c3) then 1%nat else 4%nat
                      | [] => 1%nat
                      end
                | [] => 1%nat
                end
          | [] => 1%nat
          end
    end.

(** The loop of [utf8.RuneCountInString]; [skip] is the number of bytes
    still to step over before the next character is counted. *)
Fixpoint count_runes (skip : nat) (s : list ascii) : nat :=
  match s with
  | [] => 0%nat
  | c :: rest =>
      match skip with
      | Datatypes.S skip => count_runes skip rest
      | O => Datatypes.S (count_runes (rune_width c rest - 1) rest)
      end
  end.

(** [utf8.RuneCountInString]: the length that the validator compares with
    the bounds of the [min] and [max] tags of a string. *)
Definition RuneCountInString (s : string) : nat :=
  count_runes 0 (list_ascii_of_string s).

(** The letters [a] to [z] in upper case, every other byte as it is. *)
Definition upper (c : ascii) : ascii :=
  if byte_in 97 122 c then ascii_of_N (N_of_ascii c - 32) else c.

(** The folding under which [encoding/json] compares the name of a member
    with the name of a field when the two are not the same: a letter of
    ASCII folds to its upper case, the Kelvin sign (U+212A, the bytes 226
    132 170) to K and the long s (U+017F, the bytes 197 191) to S.  The
    other characters outside ASCII fold among themselves and never to a
    character of ASCII; they are left as they are. *)
Fixpoint foldName (name : list ascii) : list ascii :=
  match name with
  | [] => []
  | c1 :: rest =>
      match rest with
      | c2 :: rest2 =>
          if byte_in 197 197 c1 && byte_in 191 191 c2 then "S"%char :: foldName rest2
          else
            match rest2 with
            | c3 :: rest3 =>
                if byte_in 226 226 c1 && byte_in 132 132 c2 && byte_in 170 170 c3
                then "K"%char :: foldName rest3
                else upper c1 :: foldName rest
            | [] => upper c1 :: foldName rest
            end
      | [] => [upper c1]
      end
  end.

(** The member [key] is stored into the field that the [json] tag names
    [field]: the names are the same, or the same after folding.  (The field
    names of the request types are ASCII and no two of them fold to the same
    name, so a member matches at most one field.) *)
Definition names_field (key field : string) : bool :=
  bool_decide (foldName (list_ascii_of_string key) = foldName (list_ascii_of_string field)).

(** *** Decoding a request body *)

(** The error of [json.Unmarshal] for a member whose value does not fit the
    field.  (The text of the library names the value and the field; the
    handlers use only that there is an error.) *)
Definition UnmarshalTypeError : error :=
  Foreign "json: cannot unmarshal into Go struct field".

Definition or_type_error (err : option error) : option error :=
  match err with
  | Some e => Some e
  | None => Some UnmarshalTypeError
  end.

(** What [json.Unmarshal] does with one member, seen from one string field:
    a member of another name is passed over; a string is stored; [null]
    leaves the field as it is; any other value is a type error, which
    leaves the field as it is and does not stop the decoding.  A signed
    token is not a value of a plain string field. *)
Definition store_string (field : string) (acc : option error * string)
    (member : string * jvalue) : option error * string :=
  if negb (names_field (fst member) field) then acc
  else
    match snd member with
    | JStr s =>
        match plain s with
        | Some s => (fst acc, s)
        | None => (or_type_error (fst acc), snd acc)
        end
    | JNil => acc
    | JOther => (or_type_error (fst acc), snd acc)
    end.

(** [json.Unmarshal] into one string field of a zero-valued struct: the
    members are read in the order of the document, a later member
    overwrites an earlier one; the result is the first error, if there is
    one, and the value of the field at the end. *)
Definition string_field (members : list (string * jvalue)) (name : string)
    : option error * string :=
  foldl (store_string name) (None, EmptyString) members.

(** The same for a field that may hold a signed token. *)
Definition store_text (field : string) (acc : option error * text)
    (member : string * jvalue) : option error * text :=
  if negb (names_field (fst member) field) then acc
  else
    match snd member with
    | JStr s => (fst acc, s)
    | JNil => acc
    | JOther => (or_type_error (fst acc), snd acc)
    end.

Definition text_field (members : list (string * jvalue)) (name : string)
    : option error * text :=
  foldl (store_text name) (None, []) members.

Definition SyntaxError : error := Foreign "json: syntax error".

(** [strings.TrimPrefix]. *)
Definition TrimPrefix (s pre : string) : string :=
  if String.prefix pre s
  then String.substring (String.length pre) (String.length s - String.length pre) s
  else s.

(** ** Package middleware *)

Module middleware.
Export services.

Section Middleware.

Context {U S : Type}.
Variable cfg : Config.

#[local] Abbreviation world := (World U S).

Definition Handler : Type :=
  Context -> APIGatewayProxyRequest -> world -> APIGatewayProxyResponse * world.

Definition jsonHeaders : gmap string string :=
  {["Content-Type" := "application/json"]}.

Definition convertRoles (roles : list scalar) : list string :=
  omap (fun role => match role with JString str => Some str | _ => None end) roles.

Definition AuthMiddleware (next : Handler) : Handler :=
  fun ctx request w =>
    let authHeader := header request "Authorization" in
    let authHeader :=
      if bool_decide (authHeader = []) then header request "authorization"
      else authHeader in
    if bool_decide (authHeader = []) then
      (mkResponse StatusUnauthorized jsonHeaders
         (ErrorData "missing authorization header"), w)
    else
      match Split (Ch " ") authHeader with
      | [bearer; tokenString] =>
          if negb (bool_decide (bearer = lit "Bearer")) then
            (mkResponse StatusUnauthorized jsonHeaders
               (ErrorData "invalid authorization format"), w)
          else
            match jwt_Parse tokenString (hmacKeyFunc (JWTSecret cfg)) (ctx_now ctx) with
            | Err _ =>
                (mkResponse StatusUnauthorized jsonHeaders
                   (ErrorData "invalid or expired token"),
                 WarnCtx "Invalid JWT token" w)
            | Ok token =>
                if negb (Valid token) then
                  (mkResponse StatusUnauthorized jsonHeaders
                     (ErrorData "invalid or expired token"),
                   WarnCtx "Invalid JWT token" w)
                else
                  let claims := Parsed_Claims token in
                  let userID := as_string (claims !! "sub") in
                  let email := as_string (claims !! "email") in
                  let roles := as_array (claims !! "roles") in
                  if bool_decide (userID = EmptyString) then
                    (mkResponse StatusUnauthorized jsonHeaders
                       (ErrorData "missing user ID in token"), w)
                  else
                    let ctx :=
                      WithUserClaims ctx (mkUserClaims userID email (convertRoles roles)) in
                    next ctx request w
            end
      | _ =>
          (mkResponse StatusUnauthorized jsonHeaders
             (ErrorData "invalid authorization format"), w)
      end.

Definition OptionalAuthMiddleware (next : Handler) : Handler :=
  fun ctx request w =>
    let authHeader := header request "Authorization" in
    let authHeader :=
      if bool_decide (authHeader = []) then header request "authorization"
      else authHeader in
    if negb (bool_decide (authHeader = [])) then AuthMiddleware next ctx request w
    else next ctx request w.

Definition RateLimitMiddleware (next : Handler) : Handler :=
  fun ctx request w => next ctx request w.

(** [Chain]: the loop runs from the last middleware down to the first,
    wrapping [next] each time; [i] is the number of middlewares still to
    apply and [i - 1] the index of the loop. *)
Fixpoint Chain_loop (middlewares : list (Handler -> Handler)) (i : nat) (next : Handler)
    : Handler :=
  match i with
  | O => next
  | Datatypes.S j =>
      match middlewares !! j with
      | Some m => Chain_loop middlewares j (m next)
      | None => Chain_loop middlewares j next
      end
  end.

Definition Chain (middlewares : list (Handler -> Handler)) (next : Handler) : Handler :=
  Chain_loop middlewares (length middlewares) next.

(** [HasRole] of [UserClaims]. *)
Definition UserClaims_HasRole (u : UserClaims) (role : string) : bool :=
  any_in_range (fun r => bool_decide (r = role)) (UserClaims_Roles u).

End Middleware.

End middleware.

(** ** Package handlers: [AuthHandlers] *)

(** [go-playground/validator]: the [email] tag is the library's format
    check; the other tags used by the request types are written out. *)
Class Validator : Type := {
  is_email : string -> bool
}.

Module handlers.
Export middleware.
Import models.

Section AuthHandlers.

Context {U S : Type} `{!UserRepository U} `{!SessionRepository S} `{!Bcrypt}
        `{!Validator}.
Variable cfg : Config.

#[local] Abbreviation world := (World U S).
#[local] Abbreviation Handler := (@middleware.Handler U S).

Definition successResponse (statusCode : Z) (data : Data) : APIGatewayProxyResponse :=
  mkResponse statusCode jsonHeaders data.

Definition errorResponse (statusCode : Z) (message : string) : APIGatewayProxyResponse :=
  mkResponse statusCode jsonHeaders (ErrorData message).

(** [json.Unmarshal([]byte(request.Body), &v)] on a zero-valued [v]: a
    syntax error leaves [v] untouched; a member of the wrong type is
    reported after the other members have been stored. *)
Definition Unmarshal {T} (zero : T)
    (decode : list (string * jvalue) -> option error * T)
    (b : Body) : option error * T :=
  match b with
  | EmptyBody => (Some (Foreign "unexpected end of JSON input"), zero)
  | Malformed => (Some SyntaxError, zero)
  | Object members => decode members
  end.

Definition first_error (errs : list (option error)) : option error :=
  head (omap id errs).

(** The request types, by the [json] tags of their fields. *)
Definition decodeLoginRequest (m : list (string * jvalue)) : option error * LoginRequest :=
  let email := string_field m "email" in
  let password := string_field m "password" in
  let device := string_field m "device_id" in
  (first_error [fst email; fst password; fst device],
   mkLoginRequest (snd email) (snd password) (snd device)).

Definition decodeRegisterRequest (m : list (string * jvalue))
    : option error * RegisterRequest :=
  let email := string_field m "email" in
  let password := string_field m "password" in
  let name := string_field m "name" in
  (first_error [fst email; fst password; fst name],
   mkRegisterRequest (snd email) (snd password) (snd name)).

Definition decodeLogoutRequest (m : list (string * jvalue)) : option error * LogoutRequest :=
  let session := string_field m "session_id" in
  (fst session, mkLogoutRequest (snd session)).

(** The one-field requests: [refresh_token] (a text) and [email]. *)
Definition decodeRefreshTokenRequest (m : list (string * jvalue)) : option error * text :=
  text_field m "refresh_token".

Definition decodeEmailRequest (m : list (string * jvalue)) : option error * string :=
  string_field m "email".

(** [h.validator.Struct], per request type. *)
Definition failed (field tag : string) : option error :=
  Some (Foreign ("Field validation for '" ++ field ++ "' failed on the '" ++ tag ++ "' tag")).

Definition validate_email (field email : string) : option error :=
  if bool_decide (email = EmptyString) then failed field "required"
  else if negb (is_email email) then failed field "email"
  else None.

(** The tags [required,min=8]; the validator measures a string in
    characters ([utf8.RuneCountInString]), not in bytes. *)
Definition validate_password (field password : string) : option error :=
  if bool_decide (password = EmptyString) then failed field "required"
  else if (RuneCountInString password <? 8)%nat then failed field "min"
  else None.

Definition validateLoginRequest (req : LoginRequest) : option error :=
  first_error [validate_email "Email" (LoginRequest_Email req);
               validate_password "Password" (LoginRequest_Password req)].

Definition validateRegisterRequest (req : RegisterRequest) : option error :=
  first_error [validate_email "Email" (RegisterRequest_Email req);
               validate_password "Password" (RegisterRequest_Password req);
               let name := RegisterRequest_Name req in
               if bool_decide (name = EmptyString) then failed "Name" "required"
               else if (RuneCountInString name <? 2)%nat then failed "Name" "min"
               else if (100 <? RuneCountInString name)%nat then failed "Name" "max"
               else None].

Definition validateRefreshTokenRequest (token : text) : option error :=
  if bool_decide (token = []) then failed "RefreshToken" "required" else None.

Definition Login : Handler :=
  fun ctx request w =>
    let w := InfoCtx "Processing login request" w in
    match Unmarshal (mkLoginRequest EmptyString EmptyString EmptyString) decodeLoginRequest (Request_Body request) with
    | (Some _, _) =>
        (errorResponse StatusBadRequest "invalid request body",
         WarnCtx "Invalid login request body" w)
    | (None, loginReq) =>
        match validateLoginRequest loginReq with
        | Some err =>
            (errorResponse StatusBadRequest ("validation failed: " ++ Error err),
             WarnCtx "Login request validation failed" w)
        | None =>
            match services.Login cfg ctx loginReq w with
            | (Err err, w) =>
                let w := WarnCtx "Login failed" w in
                if decide (err = ErrInvalidCredentials) then
                  (errorResponse StatusUnauthorized "invalid credentials", w)
                else if decide (err = ErrUserNotVerified) then
                  (errorResponse StatusForbidden "email not verified", w)
                else if decide (err = ErrUserDisabled) then
                  (errorResponse StatusForbidden "account disabled", w)
                else (errorResponse StatusInternalServerError "authentication failed", w)
            | (Ok authResponse, w) =>
                (successResponse StatusOK (AuthData authResponse),
                 InfoCtx "Login successful" w)
            end
        end
    end.

Definition Register : Handler :=
  fun ctx request w =>
    let w := InfoCtx "Processing registration request" w in
    match Unmarshal (mkRegisterRequest EmptyString EmptyString EmptyString) decodeRegisterRequest
                    (Request_Body request) with
    | (Some _, _) =>
        (errorResponse StatusBadRequest "invalid request body",
         WarnCtx "Invalid registration request body" w)
    | (None, registerReq) =>
        match validateRegisterRequest registerReq with
        | Some err =>
            (errorResponse StatusBadRequest ("validation failed: " ++ Error err),
             WarnCtx "Registration request validation failed" w)
        | None =>
            match services.Register ctx registerReq w with
            | (Err err, w) =>
                let w := WarnCtx "Registration failed" w in
                if decide (err = ErrUserAlreadyExists) then
                  (errorResponse StatusConflict "user already exists", w)
                else (errorResponse StatusInternalServerError "registration failed", w)
            | (Ok user, w) =>
                (successResponse StatusCreated
                   (RegisteredData "registration successful, please verify your email"
                                   (User_ID user)),
                 InfoCtx "Registration successful" w)
            end
        end
    end.

Definition Logout : Handler :=
  fun ctx request w =>
    let w := InfoCtx "Processing logout request" w in
    match GetUserClaims ctx with
    | None => (errorResponse StatusUnauthorized "unauthorized", w)
    | Some userClaims =>
        let '(logoutReq, w) :=
          match Request_Body request with
          | EmptyBody => (mkLogoutRequest EmptyString, w)
          | body =>
              match Unmarshal (mkLogoutRequest EmptyString) decodeLogoutRequest body with
              | (Some _, logoutReq) =>
                  (logoutReq, WarnCtx "Invalid logout request body" w)
              | (None, logoutReq) => (logoutReq, w)
              end
          end in
        match services.Logout ctx (UserClaims_UserID userClaims)
                              (LogoutRequest_SessionID logoutReq) w with
        | (Some _, w) =>
            (errorResponse StatusInternalServerError "logout failed",
             ErrorCtx "Logout failed" w)
        | (None, w) =>
            (successResponse StatusOK (MessageData "logout successful"),
             InfoCtx "Logout successful" w)
        end
    end.

Definition RefreshToken : Handler :=
  fun ctx request w =>
    let w := InfoCtx "Processing token refresh request" w in
    match Unmarshal [] decodeRefreshTokenRequest (Request_Body request) with
    | (Some _, _) =>
        (errorResponse StatusBadRequest "invalid request body",
         WarnCtx "Invalid refresh token request body" w)
    | (None, refreshReq) =>
        match validateRefreshTokenRequest refreshReq with
        | Some err =>
            (errorResponse StatusBadRequest ("validation failed: " ++ Error err),
             WarnCtx "Refresh token request validation failed" w)
        | None =>
            match services.RefreshToken cfg ctx refreshReq w with
            | (Err err, w) =>
                let w := WarnCtx "Token refresh failed" w in
                if decide (err = ErrInvalidToken) then
                  (errorResponse StatusUnauthorized "invalid refresh token", w)
                else if decide (err = ErrTokenExpired) then
                  (errorResponse StatusUnauthorized "refresh token expired", w)
                else (errorResponse StatusInternalServerError "token refresh failed", w)
            | (Ok authResponse, w) =>
                (successResponse StatusOK (AuthData authResponse),
                 InfoCtx "Token refresh successful" w)
            end
        end
    end.

Definition ForgotPassword : Handler :=
  fun ctx request w =>
    let w := InfoCtx "Processing forgot password request" w in
    match Unmarshal EmptyString decodeEmailRequest (Request_Body request) with
    | (Some _, _) =>
        (errorResponse StatusBadRequest "invalid request body",
         WarnCtx "Invalid forgot password request body" w)
    | (None, email) =>
        match validate_email "Email" email with
        | Some err =>
            (errorResponse StatusBadRequest ("validation failed: " ++ Error err),
             WarnCtx "Forgot password request validation failed" w)
        | None =>
            let '(err, w) := services.ForgotPassword ctx email w in
            let w :=
              match err with
              | Some _ => ErrorCtx "Forgot password processing failed" w
              | None => w
              end in
            (successResponse StatusOK
               (MessageData "if the email exists, a password reset link has been sent"), w)
        end
    end.

Definition ResendVerification : Handler :=
  fun ctx request w =>
    let w := InfoCtx "Processing resend verification request" w in
    match Unmarshal EmptyString decodeEmailRequest (Request_Body request) with
    | (Some _, _) =>
        (errorResponse StatusBadRequest "invalid request body",
         WarnCtx "Invalid resend verification request body" w)
    | (None, email) =>
        match validate_email "Email" email with
        | Some err =>
            (errorResponse StatusBadRequest ("validation failed: " ++ Error err),
             WarnCtx "Resend verification request validation failed" w)
        | None =>
            let '(err, w) := services.ResendVerification ctx email w in
            let w :=
              match err with
              | Some _ => ErrorCtx "Resend verification failed" w
              | None => w
              end in
            (successResponse StatusOK
               (MessageData
                  "if the email exists and is not verified, a verification email has been sent"),
             w)
        end
    end.

(** The first field of the path after the sessions prefix. *)
Definition sessionIDOfPath (path : string) : string :=
  match Split "/"%char (list_ascii_of_string (TrimPrefix path "/v1/auth/sessions/")) with
  | [] => EmptyString
  | part :: _ => string_of_list_ascii part
  end.

Definition RevokeSession : Handler :=
  fun ctx request w =>
    let w := InfoCtx "Processing revoke session request" w in
    match GetUserClaims ctx with
    | None => (errorResponse StatusUnauthorized "unauthorized", w)
    | Some userClaims =>
        let sessionID := sessionIDOfPath (Path request) in
        if bool_decide (sessionID = EmptyString) then
          (errorResponse StatusBadRequest "session ID required", w)
        else
          match services.RevokeSession ctx (UserClaims_UserID userClaims) sessionID w with
          | (Some err, w) =>
              let w := ErrorCtx "Failed to revoke session" w in
              if decide (err = ErrSessionNotFound) then
                (errorResponse StatusNotFound "session not found", w)
              else
                (errorResponse StatusInternalServerError "failed to revoke session", w)
          | (None, w) =>
              (successResponse StatusOK (MessageData "session revoked successfully"),
               InfoCtx "Session revoked successfully" w)
          end
    end.

Definition decodeResetPasswordRequest (m : list (string * jvalue))
    : option error * ResetPasswordRequest :=
  let token := string_field m "token" in
  let password := string_field m "new_password" in
  (first_error [fst token; fst password],
   mkResetPasswordRequest (snd token) (snd password)).

Definition decodeChangePasswordRequest (m : list (string * jvalue))
    : option error * ChangePasswordRequest :=
  let current := string_field m "current_password" in
  let password := string_field m "new_password" in
  (first_error [fst current; fst password],
   mkChangePasswordRequest (snd current) (snd password)).

Definition decodeVerifyEmailRequest (m : list (string * jvalue)) : option error * string :=
  string_field m "token".

Definition validate_required (field value : string) : option error :=
  if bool_decide (value = EmptyString) then failed field "required" else None.

Definition validateResetPasswordRequest (req : ResetPasswordRequest) : option error :=
  first_error [validate_required "Token" (ResetPasswordRequest_Token req);
               validate_password "NewPassword" (ResetPasswordRequest_NewPassword req)].

Definition validateChangePasswordRequest (req : ChangePasswordRequest) : option error :=
  first_error [validate_required "CurrentPassword"
                 (ChangePasswordRequest_CurrentPassword req);
               validate_password "NewPassword" (ChangePasswordRequest_NewPassword req)].

Definition ResetPassword : Handler :=
  fun ctx request w =>
    let w := InfoCtx "Processing password reset request" w in
    match Unmarshal (mkResetPasswordRequest EmptyString EmptyString)
                    decodeResetPasswordRequest (Request_Body request) with
    | (Some _, _) =>
        (errorResponse StatusBadRequest "invalid request body",
         WarnCtx "Invalid reset password request body" w)
    | (None, resetReq) =>
        match validateResetPasswordRequest resetReq with
        | Some err =>
            (errorResponse StatusBadRequest ("validation failed: " ++ Error err),
             WarnCtx "Reset password request validation failed" w)
        | None =>
            match services.ResetPassword ctx (ResetPasswordRequest_Token resetReq)
                                         (ResetPasswordRequest_NewPassword resetReq) w with
            | (Some err, w) =>
                let w := WarnCtx "Password reset failed" w in
                if decide (err = ErrInvalidToken) then
                  (errorResponse StatusBadRequest "invalid or expired reset token", w)
                else (errorResponse StatusInternalServerError "password reset failed", w)
            | (None, w) =>
                (successResponse StatusOK (MessageData "password reset successful"),
                 InfoCtx "Password reset successful" w)
            end
        end
    end.

Definition ChangePassword : Handler :=
  fun ctx request w =>
    let w := InfoCtx "Processing password change request" w in
    match GetUserClaims ctx with
    | None => (errorResponse StatusUnauthorized "unauthorized", w)
    | Some userClaims =>
        match Unmarshal (mkChangePasswordRequest EmptyString EmptyString)
                        decodeChangePasswordRequest (Request_Body request) with
        | (Some _, _) =>
            (errorResponse StatusBadRequest "invalid request body",
             WarnCtx "Invalid change password request body" w)
        | (None, changeReq) =>
            match validateChangePasswordRequest changeReq with
            | Some err =>
                (errorResponse StatusBadRequest ("validation failed: " ++ Error err),
                 WarnCtx "Change password request validation failed" w)
            | None =>
                match services.ChangePassword ctx (UserClaims_UserID userClaims)
                        (ChangePasswordRequest_CurrentPassword changeReq)
                        (ChangePasswordRequest_NewPassword changeReq) w with
                | (Some err, w) =>
                    let w := WarnCtx "Password change failed" w in
                    if decide (err = ErrInvalidCredentials) then
                      (errorResponse StatusBadRequest "current password is incorrect", w)
                    else
                      (errorResponse StatusInternalServerError "password change failed", w)
                | (None, w) =>
                    (successResponse StatusOK (MessageData "password changed successfully"),
                     InfoCtx "Password change successful" w)
                end
            end
        end
    end.

Definition VerifyEmail : Handler :=
  fun ctx request w =>
    let w := InfoCtx "Processing email verification request" w in
    match Unmarshal EmptyString decodeVerifyEmailRequest (Request_Body request) with
    | (Some _, _) =>
        (errorResponse StatusBadRequest "invalid request body",
         WarnCtx "Invalid verify email request body" w)
    | (None, token) =>
        match validate_required "Token" token with
        | Some err =>
            (errorResponse StatusBadRequest ("validation failed: " ++ Error err),
             WarnCtx "Verify email request validation failed" w)
        | None =>
            match services.VerifyEmail ctx token w with
            | (Some err, w) =>
                let w := WarnCtx "Email verification failed" w in
                if decide (err = ErrInvalidToken) then
                  (errorResponse StatusBadRequest "invalid or expired verification token", w)
                else
                  (errorResponse StatusInternalServerError "email verification failed", w)
            | (None, w) =>
                (successResponse StatusOK (MessageData "email verified successfully"),
                 InfoCtx "Email verification successful" w)
            end
        end
    end.

Definition GetCurrentUser : Handler :=
  fun ctx request w =>
    let w := InfoCtx "Processing get current user request" w in
    match GetUserClaims ctx with
    | None => (errorResponse StatusUnauthorized "unauthorized", w)
    | Some userClaims =>
        match services.GetUser ctx (UserClaims_UserID userClaims) w with
        | Err _ =>
            (errorResponse StatusInternalServerError "failed to get user information",
             ErrorCtx "Failed to get user" w)
        | Ok user => (successResponse StatusOK (UserData user), w)
        end
    end.

Definition CreateAnonymousSession : Handler :=
  fun ctx request w =>
    let w := InfoCtx "Processing create anonymous session request" w in
    match services.CreateAnonymousSession cfg ctx w with
    | (Err _, w) =>
        (errorResponse StatusInternalServerError "failed to create anonymous session",
         ErrorCtx "Failed to create anonymous session" w)
    | (Ok session, w) =>
        (successResponse StatusCreated (AnonymousData session),
         InfoCtx "Anonymous session created" w)
    end.

Definition GetUserSessions : Handler :=
  fun ctx request w =>
    let w := InfoCtx "Processing get user sessions request" w in
    match GetUserClaims ctx with
    | None => (errorResponse StatusUnauthorized "unauthorized", w)
    | Some userClaims =>
        match services.GetUserSessions ctx (UserClaims_UserID userClaims) w with
        | Err _ =>
            (errorResponse StatusInternalServerError "failed to get sessions",
             ErrorCtx "Failed to get user sessions" w)
        | Ok sessions => (successResponse StatusOK (SessionsData sessions), w)
        end
    end.

End AuthHandlers.

End handlers.

(** ** A storage layer behind the repository interfaces *)

Module memory.
Import models.
Export repositories.

(** Modelled from the spec: the operations of the storage layer, each of
    which can be out of service (the unexpected repository failures).
    Which operations are out of service is a matter of the moment: it is
    fixed during one call of the service and changes from one call to the
    next, see [outage]. *)
Inductive Op : Type :=
  | OpCreateUser | OpGetUser | OpGetUserByEmail | OpUpdateUser | OpDeleteUser
  | OpGetPasswordHash | OpUpdatePassword | OpUpdateLastLogin
  | OpCreateEmailVerificationToken | OpVerifyEmailToken | OpMarkEmailTokenUsed
  | OpMarkUserVerified | OpCreatePasswordResetToken | OpVerifyPasswordResetToken
  | OpMarkPasswordResetTokenUsed
  | OpCreateSession | OpGetSession | OpGetUserSessions | OpUpdateSession
  | OpDeleteSession | OpDeactivateSession | OpDeactivateUserSessions
  | OpCleanupExpiredSessions | OpCreateAnonymousSession | OpGetAnonymousSession
  | OpDeleteAnonymousSession | OpCleanupExpiredAnonymousSessions.

#[global] Instance Op_eq_dec : EqDecision Op.
Proof. solve_decision. Defined.

(** The unexpected error of the storage layer. *)
Definition ErrStorage : error := Foreign "storage: request failed".

(** Modelled from the spec: the user storage behind [UserRepository], of
    which the source has the interface and a placeholder only.  A user
    record with its password hash per user id, the verification and reset
    tokens by token value (a token is valid only if it is not used and the
    clock is before its expiry), and the operations that are out of
    service at the moment. *)
Record Users : Type := mkUsers {
  users : gmap string (User * string);
  email_tokens : gmap string EmailVerificationToken;
  reset_tokens : gmap string PasswordResetToken;
  users_down : list Op
}.

(** Modelled from the spec: the session storage behind [SessionRepository],
    of which the source has the interface and a placeholder only.  Sessions
    and anonymous sessions by id; deactivation clears [IsActive]; the
    operations that are out of service at the moment. *)
Record Sessions : Type := mkSessions {
  sessions : gmap string Session;
  anonymous_sessions : gmap string AnonymousSession;
  sessions_down : list Op
}.

Definition down (op : Op) (ops : list Op) : bool := bool_decide (op ∈ ops).

(** Every user record is stored under its own id, as [CreateUser] stores it. *)
Definition keyed_by_id (r : Users) : Prop :=
  map_Forall (fun k row => User_ID (fst row) = k) (users r).

Definition set_user_rows (m : gmap string (User * string)) (r : Users) : Users :=
  mkUsers m (email_tokens r) (reset_tokens r) (users_down r).

Definition set_email_tokens (m : gmap string EmailVerificationToken) (r : Users) : Users :=
  mkUsers (users r) m (reset_tokens r) (users_down r).

Definition set_reset_tokens (m : gmap string PasswordResetToken) (r : Users) : Users :=
  mkUsers (users r) (email_tokens r) m (users_down r).

Definition set_session_rows (m : gmap string Session) (r : Sessions) : Sessions :=
  mkSessions m (anonymous_sessions r) (sessions_down r).

Definition set_anonymous_rows (m : gmap string AnonymousSession) (r : Sessions) : Sessions :=
  mkSessions (sessions r) m (sessions_down r).

Definition with_LastLoginAt (t : Z) (u : User) : User :=
  mkUser (User_ID u) (User_Email u) (User_Name u) (User_IsVerified u) (User_IsActive u)
         (User_Roles u) (User_CreatedAt u) (User_UpdatedAt u) (Some t).

Definition with_IsVerified (b : bool) (u : User) : User :=
  mkUser (User_ID u) (User_Email u) (User_Name u) b (User_IsActive u)
         (User_Roles u) (User_CreatedAt u) (User_UpdatedAt u) (User_LastLoginAt u).

Definition with_IsActive (b : bool) (s : Session) : Session :=
  mkSession (Session_ID s) (Session_UserID s) (Session_Token s) (Session_DeviceID s)
            (Session_UserAgent s) (Session_IPAddress s) (Session_CreatedAt s)
            (Session_ExpiresAt s) b.

Definition email_token_used (t : EmailVerificationToken) : EmailVerificationToken :=
  mkEmailVerificationToken (EmailVerificationToken_UserID t)
    (EmailVerificationToken_Token t) (EmailVerificationToken_Email t)
    (EmailVerificationToken_ExpiresAt t) true (EmailVerificationToken_CreatedAt t).

Definition reset_token_used (t : PasswordResetToken) : PasswordResetToken :=
  mkPasswordResetToken (PasswordResetToken_UserID t) (PasswordResetToken_Token t)
    (PasswordResetToken_ExpiresAt t) true (PasswordResetToken_CreatedAt t).

(** Modelled from the spec: an unexpected failure of the storage layer.  A
    write that is out of service fails and has no effect. *)
Definition write {R} (op : Op) (ops : list Op) (r : R) (f : option error * R)
    : option error * R :=
  if down op ops then (Some ErrStorage, r) else f.

(** Modelled from the spec: a read that is out of service fails. *)
Definition read {A} (op : Op) (ops : list Op) (f : result A) : result A :=
  if down op ops then Err ErrStorage else f.

Definition deactivate_of (userID : string) (s : Session) : Session :=
  if bool_decide (Session_UserID s = userID) then with_IsActive false s else s.

(** Modelled from the spec: the operations of [UserRepository] on [Users],
    which the source leaves to a storage layer it does not contain. *)
#[export] Instance users_repository : UserRepository Users := {
  CreateUser _ user passwordHash r :=
    write OpCreateUser (users_down r) r
      (None, set_user_rows (<[User_ID user := (user, passwordHash)]> (users r)) r);
  GetUser _ userID r :=
    read OpGetUser (users_down r)
      match users r !! userID with
      | Some (user, _) => Ok user
      | None => Err ErrUserNotFound
      end;
  GetUserByEmail _ email r :=
    read OpGetUserByEmail (users_down r)
      match list_find (fun row => bool_decide (User_Email (fst (snd row)) = email))
                      (map_to_list (users r)) with
      | Some (_, (_, (user, _))) => Ok user
      | None => Err ErrUserNotFound
      end;
  UpdateUser _ user r :=
    write OpUpdateUser (users_down r) r
      match users r !! User_ID user with
      | Some (_, passwordHash) =>
          (None, set_user_rows (<[User_ID user := (user, passwordHash)]> (users r)) r)
      | None => (Some ErrUserNotFound, r)
      end;
  DeleteUser _ userID r :=
    write OpDeleteUser (users_down r) r
      (None, set_user_rows (delete userID (users r)) r);
  GetPasswordHash _ userID r :=
    read OpGetPasswordHash (users_down r)
      match users r !! userID with
      | Some (_, passwordHash) => Ok passwordHash
      | None => Err ErrUserNotFound
      end;
  UpdatePassword _ userID passwordHash r :=
    write OpUpdatePassword (users_down r) r
      match users r !! userID with
      | Some (user, _) =>
          (None, set_user_rows (<[userID := (user, passwordHash)]> (users r)) r)
      | None => (Some ErrUserNotFound, r)
      end;
  UpdateLastLogin _ userID loginTime r :=
    write OpUpdateLastLogin (users_down r) r
      match users r !! userID with
      | Some (user, passwordHash) =>
          (None,
           set_user_rows
             (<[userID := (with_LastLoginAt loginTime user, passwordHash)]> (users r)) r)
      | None => (Some ErrUserNotFound, r)
      end;
  CreateEmailVerificationToken ctx userID email token duration r :=
    write OpCreateEmailVerificationToken (users_down r) r
      (None,
       set_email_tokens
         (<[token := mkEmailVerificationToken userID token email
                       (ctx_now ctx + duration) false (ctx_now ctx)]>
            (email_tokens r)) r);
  VerifyEmailToken ctx token r :=
    read OpVerifyEmailToken (users_down r)
      match email_tokens r !! token with
      | None => Err ErrTokenNotFound
      | Some t =>
          if EmailVerificationToken_Used t then Err ErrTokenNotFound
          else if bool_decide (ctx_now ctx < EmailVerificationToken_ExpiresAt t)
          then Ok (EmailVerificationToken_UserID t)
          else Err ErrTokenExpired
      end;
  MarkEmailTokenUsed _ token r :=
    write OpMarkEmailTokenUsed (users_down r) r
      match email_tokens r !! token with
      | Some t => (None, set_email_tokens (<[token := email_token_used t]> (email_tokens r)) r)
      | None => (Some ErrTokenNotFound, r)
      end;
  MarkUserVerified _ userID r :=
    write OpMarkUserVerified (users_down r) r
      match users r !! userID with
      | Some (user, passwordHash) =>
          (None,
           set_user_rows (<[userID := (with_IsVerified true user, passwordHash)]> (users r)) r)
      | None => (Some ErrUserNotFound, r)
      end;
  CreatePasswordResetToken ctx userID token duration r :=
    write OpCreatePasswordResetToken (users_down r) r
      (None,
       set_reset_tokens
         (<[token := mkPasswordResetToken userID token (ctx_now ctx + duration) false
                       (ctx_now ctx)]> (reset_tokens r)) r);
  VerifyPasswordResetToken ctx token r :=
    read OpVerifyPasswordResetToken (users_down r)
      match reset_tokens r !! token with
      | None => Err ErrTokenNotFound
      | Some t =>
          if PasswordResetToken_Used t then Err ErrTokenNotFound
          else if bool_decide (ctx_now ctx < PasswordResetToken_ExpiresAt t)
          then Ok (PasswordResetToken_UserID t)
          else Err ErrTokenExpired
      end;
  MarkPasswordResetTokenUsed _ token r :=
    write OpMarkPasswordResetTokenUsed (users_down r) r
      match reset_tokens r !! token with
      | Some t => (None, set_reset_tokens (<[token := reset_token_used t]> (reset_tokens r)) r)
      | None => (Some ErrTokenNotFound, r)
      end
}.

(** Modelled from the spec: the operations of [SessionRepository] on
    [Sessions], which the source leaves to a storage layer it does not
    contain. *)
#[export] Instance sessions_repository : SessionRepository Sessions := {
  CreateSession _ session r :=
    write OpCreateSession (sessions_down r) r
      (None, set_session_rows (<[Session_ID session := session]> (sessions r)) r);
  GetSession _ sessionID r :=
    read OpGetSession (sessions_down r)
      match sessions r !! sessionID with
      | Some session => Ok session
      | None => Err ErrSessionNotFound
      end;
  GetUserSessions _ userID r :=
    read OpGetUserSessions (sessions_down r)
      (Ok (filter (fun s => Session_UserID s = userID /\ Session_IsActive s = true)
                  (snd <$> map_to_list (sessions r))));
  UpdateSession _ session r :=
    write OpUpdateSession (sessions_down r) r
      match sessions r !! Session_ID session with
      | Some _ => (None, set_session_rows (<[Session_ID session := session]> (sessions r)) r)
      | None => (Some ErrSessionNotFound, r)
      end;
  DeleteSession _ sessionID r :=
    write OpDeleteSession (sessions_down r) r
      (None, set_session_rows (delete sessionID (sessions r)) r);
  DeactivateSession _ sessionID r :=
    write OpDeactivateSession (sessions_down r) r
      (None, set_session_rows (alter (with_IsActive false) sessionID (sessions r)) r);
  DeactivateUserSessions _ userID r :=
    write OpDeactivateUserSessions (sessions_down r) r
      (None, set_session_rows (deactivate_of userID <$> sessions r) r);
  CleanupExpiredSessions ctx r :=
    write OpCleanupExpiredSessions (sessions_down r) r
      (None,
       set_session_rows
         (filter (fun kv => Session_IsExpired (ctx_now ctx) (snd kv) = false) (sessions r)) r);
  CreateAnonymousSession _ session r :=
    write OpCreateAnonymousSession (sessions_down r) r
      (None,
       set_anonymous_rows (<[AnonymousSession_ID session := session]> (anonymous_sessions r)) r);
  GetAnonymousSession _ sessionID r :=
    read OpGetAnonymousSession (sessions_down r)
      match anonymous_sessions r !! sessionID with
      | Some session => Ok session
      | None => Err ErrSessionNotFound
      end;
  DeleteAnonymousSession _ sessionID r :=
    write OpDeleteAnonymousSession (sessions_down r) r
      (None, set_anonymous_rows (delete sessionID (anonymous_sessions r)) r);
  CleanupExpiredAnonymousSessions ctx r :=
    write OpCleanupExpiredAnonymousSessions (sessions_down r) r
      (None,
       set_anonymous_rows
         (filter (fun kv => AnonymousSession_IsExpired (ctx_now ctx) (snd kv) = false)
                 (anonymous_sessions r)) r)
}.

(** Modelled from the spec: the failures of the storage are not in the
    hands of the service, and an operation that worked in one call can
    fail in the next.  [outage du ds w] is the world [w] at a moment when
    the operations [du] of the user storage and [ds] of the session storage
    are the ones out of service; the rows and the log are those of [w]. *)
Definition outage (du ds : list Op) (w : World Users Sessions) : World Users Sessions :=
  mkWorld
    (mkUsers (users (w_users w)) (email_tokens (w_users w)) (reset_tokens (w_users w)) du)
    (mkSessions (sessions (w_sessions w)) (anonymous_sessions (w_sessions w)) ds)
    (w_log w).

End memory.

(** ** A concrete setting for running the operations *)

Module scenario.
Import models.
Export handlers memory.

(** A stand-in for bcrypt: the hash is the cost prefix followed by the
    password.  It serves only to run the operations on examples. *)
#[export] Instance bcrypt : Bcrypt := {
  GenerateFromPassword password :=
    if (72 <? String.length password)%nat
    then Err (Foreign "bcrypt: password length exceeds 72 bytes")
    else Ok ("$2a$10$" ++ password);
  CompareHashAndPassword hashedPassword password :=
    if bool_decide (hashedPassword = "$2a$10$" ++ password) then None
    else Some (Foreign "crypto/bcrypt: hashedPassword is not the hash of the given password")
}.

(** A stand-in for the [email] tag: an at sign between two non-empty parts. *)
#[export] Instance validator : Validator := {
  is_email email :=
    match Split "@"%char (list_ascii_of_string email) with
    | [name; domain] => negb (bool_decide (name = [])) && negb (bool_decide (domain = []))
    | _ => false
    end
}.

Definition cfg : Config := mkConfig "s3cr3t-signing-key" "*".

Definition alice : User :=
  mkUser "u-alice" "alice@example.com" "Alice" true true ["user"] 100 100 None.

(** Bob has registered and has not verified his address. *)
Definition bob : User :=
  mkUser "u-bob" "bob@example.com" "Bob" false true ["user"] 200 200 None.

(** Carol's account has been disabled. *)
Definition carol : User :=
  mkUser "u-carol" "carol@example.com" "Carol" true false ["user"] 300 300 None.

Definition alice_session : Session :=
  mkSession "s-alice-1" "u-alice" EmptyString "laptop" EmptyString EmptyString 1000 (1000 + DefaultRefreshDuration) true.

Definition carol_session : Session :=
  mkSession "s-carol-1" "u-carol" EmptyString "phone" EmptyString EmptyString 1000 (1000 + DefaultRefreshDuration) true.

Definition alice_reset : PasswordResetToken :=
  mkPasswordResetToken "u-alice" "reset-token-1" 5000 false 1400.

Definition carol_reset : PasswordResetToken :=
  mkPasswordResetToken "u-carol" "reset-token-2" 5000 false 1400.

Definition bob_verification : EmailVerificationToken :=
  mkEmailVerificationToken "u-bob" "verify-token-1" "bob@example.com" 90000 false 3600.

Definition users0 (down : list Op) : Users :=
  mkUsers
    (<["u-alice" := (alice, "$2a$10$Secret123!")]>
     (<["u-bob" := (bob, "$2a$10$hunter2hunter2")]>
     (<["u-carol" := (carol, "$2a$10$correct-horse")]> ∅)))
    (<["verify-token-1" := bob_verification]> ∅)
    (<["reset-token-1" := alice_reset]> (<["reset-token-2" := carol_reset]> ∅))
    down.

Definition sessions0 (down : list Op) : Sessions :=
  mkSessions
    (<["s-alice-1" := alice_session]> (<["s-carol-1" := carol_session]> ∅))
    ∅ down.

(** The world with all storage operations in service, and the world in
    which the operations [down] fail. *)
Definition world_down (down : list Op) : World Users Sessions :=
  mkWorld (users0 down) (sessions0 down) [].

Definition world0 : World Users Sessions := world_down [].

Definition at_time (t : Z) : Context :=
  mkContext t "c0ffee00-0000-4000-8000-000000000001" (Ok "5ec0de") None.

(** The refresh token of user [userID] for session [sessionID], as the
    service issues it at time [t]. *)
Definition refresh_token_at (t : Z) (userID sessionID : string) : text :=
  [Jws (mkToken HS256 (services.refreshClaims (at_time t) userID sessionID)
                (JWTSecret cfg))].

(** A context in which [crypto/rand] fails. *)
Definition without_entropy (t : Z) : Context :=
  mkContext t "c0ffee00-0000-4000-8000-000000000002"
            (Err (Foreign "rand: entropy source unavailable")) None.

(** Alice, as the bearer-token check leaves her in the context. *)
Definition as_alice (t : Z) : Context :=
  WithUserClaims (at_time t) (mkUserClaims "u-alice" "alice@example.com" ["user"]).

Definition alice_login : LoginRequest :=
  mkLoginRequest "alice@example.com" "Secret123!" "laptop".

Definition dave_registration : RegisterRequest :=
  mkRegisterRequest "dave@example.com" "Passw0rd!!" "Dave".

End scenario.

(** ** Observations used in the statements *)

(** The claims a token text carries, whoever signed it. *)
Definition claims_of (tokenString : text) : MapClaims :=
  match tokenString with
  | [Jws t] => Claims t
  | _ => ∅
  end.

Definition type_of (tokenString : text) : string := as_string (claims_of tokenString !! "type").
Definition subject_of (tokenString : text) : string := as_string (claims_of tokenString !! "sub").
Definition session_of (tokenString : text) : string :=
  as_string (claims_of tokenString !! "session_id").

(** The records a run from [w] to [w'] added to the log. *)
Definition logged_since {U S} (w w' : World U S) : list LogEntry :=
  drop (length (w_log w)) (w_log w').

(** The refresh token a login hands out. *)
Definition issued_refresh (r : result models.AuthResponse) : text :=
  match r with
  | Ok response => models.RefreshToken response
  | Err _ => []
  end.

(** A request with a bearer token and no body. *)
Definition bearer_request (method path : string) (tokenString : text)
    : APIGatewayProxyRequest :=
  mkRequest method path {["Authorization" := (lit "Bearer " ++ tokenString)%list]} EmptyBody.

(** ** Observations on the bearer-token check *)

(** The header the bearer-token check reads: [Authorization], and
    [authorization] when that one is absent or empty. *)
Definition authorization (request : APIGatewayProxyRequest) : text :=
  let authHeader := header request "Authorization" in
  if bool_decide (authHeader = []) then header request "authorization" else authHeader.

(** A token that passes [jwt.Parse] with the service's key function at
    time [now]. *)
Definition verifies (cfg : Config) (now : Z) (t : Token) : Prop :=
  SigningMethodHMAC (Method t) = true
  /\ signed_with t = JWTSecret cfg
  /\ Validate (Claims t) now = None.

(** The claims the bearer-token check puts into the context. *)
Definition claims_in (t : Token) : UserClaims :=
  mkUserClaims (as_string (Claims t !! "sub")) (as_string (Claims t !! "email"))
               (middleware.convertRoles (as_array (Claims t !! "roles"))).

(** A response that says unauthorized. *)
Definition unauthorized (r : APIGatewayProxyResponse) : Prop :=
  StatusCode r = StatusUnauthorized
  /\ exists message, Response_Body r = ErrorData message.

(** Two worlds with the same storage (the logs may differ). *)
Definition same_storage {U S} (w w' : World U S) : Prop :=
  w_users w' = w_users w /\ w_sessions w' = w_sessions w.

(** ** Package main of the auth service: the router *)

Module main.
Export handlers.
Import models.

Section Router.

Context {U S : Type} `{!UserRepository U} `{!SessionRepository S} `{!Bcrypt}
        `{!Validator}.
Variable cfg : Config.

#[local] Abbreviation Handler := (@middleware.Handler U S).

(** [healthCheck] answers with a description of the service (name, status,
    time, stage, region), for which [Data] has no payload; the routing
    function takes it as an argument. *)
Variable healthCheck : Handler.

(** The function that [createRouter] puts behind its chain of middlewares:
    the switch over the path, once the prefix [/v1/auth] is trimmed, and
    the method. *)
Definition route : Handler :=
  fun ctx request w =>
    let path := TrimPrefix (Path request) "/v1/auth" in
    let method := HTTPMethod request in
    let w := DebugCtx "Routing request" w in
    if bool_decide (path = "/login") && bool_decide (method = "POST") then
      handlers.Login cfg ctx request w
    else if bool_decide (path = "/logout") && bool_decide (method = "POST") then
      AuthMiddleware cfg handlers.Logout ctx request w
    else if bool_decide (path = "/register") && bool_decide (method = "POST") then
      handlers.Register ctx request w
    else if bool_decide (path = "/refresh") && bool_decide (method = "POST") then
      handlers.RefreshToken cfg ctx request w
    else if bool_decide (path = "/forgot-password") && bool_decide (method = "POST") then
      handlers.ForgotPassword ctx request w
    else if bool_decide (path = "/reset-password") && bool_decide (method = "POST") then
      handlers.ResetPassword ctx request w
    else if bool_decide (path = "/change-password") && bool_decide (method = "POST") then
      AuthMiddleware cfg handlers.ChangePassword ctx request w
    else if bool_decide (path = "/verify-email") && bool_decide (method = "POST") then
      handlers.VerifyEmail ctx request w
    else if bool_decide (path = "/resend-verification") && bool_decide (method = "POST")
    then
      handlers.ResendVerification ctx request w
    else if bool_decide (path = "/me") && bool_decide (method = "GET") then
      AuthMiddleware cfg handlers.GetCurrentUser ctx request w
    else if bool_decide (path = "/anonymous") && bool_decide (method = "POST") then
      handlers.CreateAnonymousSession cfg ctx request w
    else if bool_decide (path = "/health") && bool_decide (method = "GET") then
      healthCheck ctx request w
    else if String.prefix "/sessions" path && bool_decide (method = "GET") then
      AuthMiddleware cfg handlers.GetUserSessions ctx request w
    else if String.prefix "/sessions/" path && bool_decide (method = "DELETE") then
      AuthMiddleware cfg handlers.RevokeSession ctx request w
    else
      (mkResponse StatusNotFound jsonHeaders (ErrorData "endpoint not found"), w).

End Router.

End main.

(** ** Package logger: the wrappers around the zap logger

    The wrappers are modelled up to the call they make on the zap logger:
    which level, which message, which fields.  A [context.Context] is seen
    through the values it holds for the three keys of this package, the
    innermost first, as [ctx.Value] finds them. *)

Module logger.

Inductive contextKeyType : Type := correlationIDKey | userIDKey | requestIDKey.

#[global] Instance contextKeyType_eq_dec : EqDecision contextKeyType.
Proof. solve_decision. Defined.

Definition Values : Type := list (contextKeyType * string).

(** [ctx.Value(key)] asserted to a string. *)
Fixpoint Value (ctx : Values) (key : contextKeyType) : option string :=
  match ctx with
  | [] => None
  | (k, v) :: parent => if decide (k = key) then Some v else Value parent key
  end.

Definition getCorrelationID (ctx : Values) : string :=
  match Value ctx correlationIDKey with Some id => id | None => EmptyString end.

Definition getUserID (ctx : Values) : string :=
  match Value ctx userIDKey with Some id => id | None => EmptyString end.

Definition getRequestID (ctx : Values) : string :=
  match Value ctx requestIDKey with Some id => id | None => EmptyString end.

Definition WithCorrelationID (ctx : Values) (correlationID : string) : Values :=
  (correlationIDKey, correlationID) :: ctx.

Definition WithUserID (ctx : Values) (userID : string) : Values :=
  (userIDKey, userID) :: ctx.

Definition WithRequestID (ctx : Values) (requestID : string) : Values :=
  (requestIDKey, requestID) :: ctx.

(** A [zap.Field]. *)
Inductive FieldValue : Type :=
  | StringValue (s : string)
  | IntValue (n : Z)
  | DurationValue (d : Z)
  | ErrorValue (e : error).

Definition Field : Type := string * FieldValue.

(** A [zap.Logger]: the fields bound to it so far. *)
Definition Logger : Type := list Field.

(** [logger.With(fields...)]. *)
Definition With (l : Logger) (fields : list Field) : Logger := (l ++ fields)%list.

(** A call of [Debug], [Info], [Warn] or [Error] on a zap logger, with the
    fields bound to the logger followed by the fields of the call. *)
Record Call : Type := mkCall {
  call_level : Level;
  call_message : string;
  call_fields : list Field
}.

Definition emit (l : Logger) (lvl : Level) (msg : string) (fields : list Field) : Call :=
  mkCall lvl msg (l ++ fields)%list.

(** What a wrapper does: it returns after the calls it made, or it panics. *)
Inductive outcome (A : Type) : Type :=
  | Returns (a : A)
  | Panics (msg : string).
Arguments Returns {A} a.
Arguments Panics {A} msg.

Definition WithContext (globalLogger : option Logger) (ctx : Values) : outcome Logger :=
  match globalLogger with
  | None => Panics "logger not initialized - call logger.Initialize() first"
  | Some logger =>
      let logger :=
        if negb (bool_decide (getCorrelationID ctx = EmptyString))
        then With logger [("correlation_id", StringValue (getCorrelationID ctx))]
        else logger in
      let logger :=
        if negb (bool_decide (getUserID ctx = EmptyString))
        then With logger [("user_id", StringValue (getUserID ctx))]
        else logger in
      let logger :=
        if negb (bool_decide (getRequestID ctx = EmptyString))
        then With logger [("request_id", StringValue (getRequestID ctx))]
        else logger in
      Returns logger
  end.

(** [Info], [Debug], [Warn], [Error]: nothing happens without a logger. *)
Definition log (globalLogger : option Logger) (lvl : Level) (msg : string)
    (fields : list Field) : list Call :=
  match globalLogger with
  | None => []
  | Some logger => [emit logger lvl msg fields]
  end.

(** [InfoCtx], [DebugCtx], [WarnCtx], [ErrorCtx]. *)
Definition logCtx (globalLogger : option Logger) (lvl : Level) (ctx : Values)
    (msg : string) (fields : list Field) : outcome (list Call) :=
  match WithContext globalLogger ctx with
  | Panics m => Panics m
  | Returns logger => Returns [emit logger lvl msg fields]
  end.

Definition LogError (globalLogger : option Logger) (ctx : Values) (err : error)
    (msg : string) (fields : list Field) : outcome (list Call) :=
  let allFields := (fields ++ [("error", ErrorValue err)])%list in
  logCtx globalLogger ErrorLevel ctx msg allFields.

Definition LogRequest (globalLogger : option Logger) (ctx : Values) (method path : string)
    (statusCode : Z) (duration : Z) (fields : list Field) : outcome (list Call) :=
  let allFields :=
    (fields ++ [("method", StringValue method); ("path", StringValue path);
                ("status_code", IntValue statusCode);
                ("duration", DurationValue duration)])%list in
  logCtx globalLogger InfoLevel ctx "HTTP request completed" allFields.

Definition LogDatabaseOperation (globalLogger : option Logger) (ctx : Values)
    (operation table : string) (duration : Z) (err : option error) (fields : list Field)
    : outcome (list Call) :=
  let allFields :=
    (fields ++ [("operation", StringValue operation); ("table", StringValue table);
                ("duration", DurationValue duration)])%list in
  match err with
  | Some err =>
      let allFields := (allFields ++ [("error", ErrorValue err)])%list in
      logCtx globalLogger ErrorLevel ctx "Database operation failed" allFields
  | None => logCtx globalLogger DebugLevel ctx "Database operation completed" allFields
  end.

Definition LogEventBridge (globalLogger : option Logger) (ctx : Values)
    (eventType source : string) (err : option error) (fields : list Field)
    : outcome (list Call) :=
  let allFields :=
    (fields ++ [("event_type", StringValue eventType);
                ("source", StringValue source)])%list in
  match err with
  | Some err =>
      let allFields := (allFields ++ [("error", ErrorValue err)])%list in
      logCtx globalLogger ErrorLevel ctx "EventBridge event failed" allFields
  | None => logCtx globalLogger InfoLevel ctx "EventBridge event published" allFields
  end.

End logger.

(** * Properties *)

Import handlers.
Import models.

Local Open Scope list_scope.

(** ** Tokens *)

Section TokenFacts.

Context {U S : Type} `{!UserRepository U} `{!SessionRepository S} `{!Bcrypt}.
Variable cfg : Config.

Lemma generateRefreshToken_eq ctx userID sessionID :
  services.generateRefreshToken cfg ctx userID sessionID
  = Ok [Jws (mkToken HS256 (services.refreshClaims ctx userID sessionID) (JWTSecret cfg))].
Proof. reflexivity. Qed.

Lemma generateAccessToken_eq ctx user sessionID :
  services.generateAccessToken cfg ctx user sessionID
  = Ok [Jws (mkToken HS256 (services.accessClaims ctx user sessionID) (JWTSecret cfg))].
Proof. reflexivity. Qed.

Lemma NumericDate_before now e :
  now < e ->
  match NumericDate (Some (Scalar (JNumber e))) with
  | Ok exp => match exp with Some e => bool_decide (now < e) | None => true end = true
  | Err _ => False
  end.
Proof.
  intros Hlt. unfold NumericDate. destruct (decide (e = 0)); [done|].
  by apply bool_decide_eq_true.
Qed.

Lemma Validate_refreshClaims ctx userID sessionID now :
  now < ctx_now ctx + DefaultRefreshDuration ->
  Validate (services.refreshClaims ctx userID sessionID) now = None.
Proof.
  intros Hlt. unfold Validate.
  change (services.refreshClaims ctx userID sessionID !! "exp")
    with (Some (Scalar (JNumber (ctx_now ctx + DefaultRefreshDuration)))).
  change (services.refreshClaims ctx userID sessionID !! "nbf") with (@None ClaimValue).
  pose proof (NumericDate_before _ _ Hlt) as Hd.
  destruct (NumericDate (Some _)) as [exp|]; [|done].
  by rewrite Hd.
Qed.

(** A refresh token of the service parses back to its user and session for
    as long as it has not expired. *)
Lemma parseRefreshToken_generated ctx ctx' userID sessionID :
  ctx_now ctx' < ctx_now ctx + DefaultRefreshDuration ->
  userID <> EmptyString -> sessionID <> EmptyString ->
  services.parseRefreshToken cfg ctx'
    [Jws (mkToken HS256 (services.refreshClaims ctx userID sessionID) (JWTSecret cfg))]
  = Ok (mkTokenClaims userID EmptyString EmptyString [] sessionID 0 0).
Proof.
  intros Hlt Hu Hs. unfold services.parseRefreshToken, jwt_Parse, hmacKeyFunc. simpl.
  rewrite decide_True by done.
  rewrite Validate_refreshClaims by done. simpl.
  change (services.refreshClaims ctx userID sessionID !! "type")
    with (Some (Scalar (JString "refresh"))).
  change (services.refreshClaims ctx userID sessionID !! "sub")
    with (Some (Scalar (JString userID))).
  change (services.refreshClaims ctx userID sessionID !! "session_id")
    with (Some (Scalar (JString sessionID))).
  simpl. rewrite !bool_decide_false by done. reflexivity.
Qed.

(** [parseRefreshToken] returns claims only for a text of type refresh. *)
Lemma parseRefreshToken_type ctx tokenString claims :
  services.parseRefreshToken cfg ctx tokenString = Ok claims ->
  type_of tokenString = TokenTypeRefresh.
Proof.
  unfold services.parseRefreshToken, jwt_Parse, type_of, claims_of.
  destruct tokenString as [|[c|t] [|a l]]; try done.
  destruct (hmacKeyFunc _ _); [|done].
  destruct (decide _); [|done].
  destruct (Validate _ _); [done|]. simpl.
  case_bool_decide; simpl; [|done]. done.
Qed.

Lemma parseRefreshToken_fields ctx tokenString claims :
  services.parseRefreshToken cfg ctx tokenString = Ok claims ->
  TokenClaims_UserID claims = subject_of tokenString
  /\ TokenClaims_SessionID claims = session_of tokenString.
Proof.
  unfold services.parseRefreshToken, jwt_Parse, subject_of, session_of, claims_of.
  destruct tokenString as [|[c|t] [|a l]]; try done.
  destruct (hmacKeyFunc _ _); [|done].
  destruct (decide _); [|done].
  destruct (Validate _ _); [done|]. simpl.
  case_bool_decide; simpl; [|done].
  destruct (_ || _); [done|]. intros [= <-]. done.
Qed.

(** A text whose type claim is not refresh, an access token for one, is
    answered with the invalid-token error by the refresh operation. *)
Lemma RefreshToken_rejects_other_types ctx tokenString (w : World U S) :
  type_of tokenString <> TokenTypeRefresh ->
  services.RefreshToken cfg ctx tokenString w
  = (Err services.ErrInvalidToken, DebugCtx "Attempting to refresh token" w).
Proof.
  intros Hty. unfold services.RefreshToken.
  destruct (services.parseRefreshToken cfg ctx tokenString) as [claims|e] eqn:Hp; [|done].
  by apply parseRefreshToken_type in Hp.
Qed.

(** The bearer-token check looks at the signature, the dates and the
    subject of a token, and at nothing else. *)
Lemma AuthMiddleware_accepts (next : @Handler U S) ctx method path t w :
  SigningMethodHMAC (Method t) = true ->
  signed_with t = JWTSecret cfg ->
  Validate (Claims t) (ctx_now ctx) = None ->
  as_string (Claims t !! "sub") <> EmptyString ->
  AuthMiddleware cfg next ctx (bearer_request method path [Jws t]) w
  = next (WithUserClaims ctx
            (mkUserClaims (as_string (Claims t !! "sub"))
                          (as_string (Claims t !! "email"))
                          (convertRoles (as_array (Claims t !! "roles")))))
         (bearer_request method path [Jws t]) w.
Proof.
  intros Hm Hk Hv Hs. unfold AuthMiddleware.
  change (header (bearer_request method path [Jws t]) "Authorization")
    with (lit "Bearer " ++ [Jws t])%list.
  simpl. unfold hmacKeyFunc. rewrite Hm. rewrite decide_True by done.
  rewrite Hv. simpl. rewrite bool_decide_false by done. reflexivity.
Qed.

End TokenFacts.


(** ** The service over any pair of repositories *)

Section ServiceFacts.

Context {U S : Type} `{!UserRepository U} `{!SessionRepository S} `{!Bcrypt}.
Variable cfg : Config.

#[local] Abbreviation world := (World U S).

Lemma verifyPassword_logCtx ctx userID password lvl msg (w : world) :
  services.verifyPassword ctx userID password (logCtx lvl msg w)
  = services.verifyPassword ctx userID password w.
Proof. reflexivity. Qed.

(** C2, as the code has it: a refresh token that passes the signature, type
    and expiry checks is answered with InvalidToken when the user lookup
    reports that the user does not exist, with UserDisabled when the user is
    not active, and with TokenExpired when the user exists and is active and
    the session is inactive or past its expiry.  Each of the three cases
    stands by itself. *)
Theorem RefreshToken_failure_cases ctx refreshToken claims (w : world) :
  services.parseRefreshToken cfg ctx refreshToken = Ok claims ->
  (repositories.GetUser ctx (TokenClaims_UserID claims) (w_users w)
     = Err repositories.ErrUserNotFound ->
   fst (services.RefreshToken cfg ctx refreshToken w) = Err services.ErrInvalidToken)
  /\ (forall user,
        repositories.GetUser ctx (TokenClaims_UserID claims) (w_users w) = Ok user ->
        User_IsActive user = false ->
        fst (services.RefreshToken cfg ctx refreshToken w) = Err services.ErrUserDisabled)
  /\ (forall user session,
        repositories.GetUser ctx (TokenClaims_UserID claims) (w_users w) = Ok user ->
        User_IsActive user = true ->
        GetSession ctx (TokenClaims_SessionID claims) (w_sessions w) = Ok session ->
        Session_IsActive session = false \/ Session_ExpiresAt session < ctx_now ctx ->
        fst (services.RefreshToken cfg ctx refreshToken w) = Err services.ErrTokenExpired).
Proof.
  intros Hp. unfold services.RefreshToken. rewrite Hp. simpl. split_and!.
  - intros Hu. rewrite Hu. by rewrite decide_True.
  - intros user Hu Ha. by rewrite Hu, Ha.
  - intros user session Hu Ha Hs Hdead. rewrite Hu, Ha. simpl. rewrite Hs.
    destruct Hdead as [Hin|Hexp].
    + by rewrite Hin.
    + unfold Session_IsExpired. rewrite (bool_decide_true _ Hexp).
      by rewrite orb_true_r.
Qed.

(** C4, as the code has it: for an account that is active and verified, a
    password that does not verify and an email address that no user has
    give the same run: the same InvalidCredentials error and the same
    world, log included. *)
Theorem Login_wrong_password_like_unknown_email
    ctx (w : world) known unknown user err :
  GetUserByEmail ctx (LoginRequest_Email known) (w_users w) = Ok user ->
  User_IsActive user = true ->
  User_IsVerified user = true ->
  services.verifyPassword ctx (User_ID user) (LoginRequest_Password known) w = Some err ->
  GetUserByEmail ctx (LoginRequest_Email unknown) (w_users w)
    = Err repositories.ErrUserNotFound ->
  services.Login cfg ctx known w
    = (Err services.ErrInvalidCredentials, DebugCtx "Attempting to login user" w)
  /\ services.Login cfg ctx unknown w = services.Login cfg ctx known w.
Proof.
  intros Hk Ha Hv Hpw Hu.
  assert (services.Login cfg ctx known w
          = (Err services.ErrInvalidCredentials, DebugCtx "Attempting to login user" w))
    as Hknown.
  { unfold services.Login. simpl. rewrite Hk, Ha, Hv. simpl.
    rewrite verifyPassword_logCtx, Hpw. done. }
  split; [done|]. rewrite Hknown.
  unfold services.Login. simpl. rewrite Hu. by rewrite decide_True.
Qed.

(** C6: revoking a session that belongs to another user and revoking a
    session id that does not exist give the same result, the SessionNotFound
    error, and leave the world as it was. *)
Theorem RevokeSession_foreign_like_missing
    ctx (w : world) userID foreignID missingID session :
  GetSession ctx foreignID (w_sessions w) = Ok session ->
  Session_UserID session <> userID ->
  GetSession ctx missingID (w_sessions w) = Err repositories.ErrSessionNotFound ->
  services.RevokeSession ctx userID foreignID w = (Some services.ErrSessionNotFound, w)
  /\ services.RevokeSession ctx userID missingID w = (Some services.ErrSessionNotFound, w).
Proof.
  intros Hf Hne Hm. unfold services.RevokeSession. split.
  - rewrite Hf. by rewrite bool_decide_false.
  - rewrite Hm. by rewrite decide_True.
Qed.

(** C9: a successful password change leaves the session storage as it was;
    its one write is the update of the password hash of that user. *)
Theorem ChangePassword_leaves_sessions
    ctx userID currentPassword newPassword (w w' : world) :
  services.ChangePassword ctx userID currentPassword newPassword w = (None, w') ->
  w_sessions w' = w_sessions w
  /\ exists passwordHash,
       services.hashPassword newPassword = Ok passwordHash
       /\ UpdatePassword ctx userID passwordHash (w_users w) = (None, w_users w').
Proof.
  unfold services.ChangePassword.
  destruct (services.verifyPassword _ _ _ _); [done|].
  destruct (services.hashPassword newPassword) as [passwordHash|]; [|done].
  simpl. destruct (UpdatePassword _ _ _ _) as [[e|] u] eqn:Hup; [done|].
  intros [= <-]. simpl. eauto.
Qed.

Lemma sendVerificationEmail_logCtx ctx user lvl msg (w : world) :
  fst (services.sendVerificationEmail ctx user (logCtx lvl msg w))
  = fst (services.sendVerificationEmail ctx user w).
Proof.
  unfold services.sendVerificationEmail, services.generateSecureToken. simpl.
  destruct (ctx_rand ctx); [|done].
  destruct (CreateEmailVerificationToken ctx _ _ _ _ _) as [[e|] u]; reflexivity.
Qed.

Lemma sendVerificationEmail_log ctx user (w : world) :
  exists l, w_log (snd (services.sendVerificationEmail ctx user w)) = w_log w ++ l.
Proof.
  unfold services.sendVerificationEmail, services.generateSecureToken.
  destruct (ctx_rand ctx); [|by exists []; rewrite app_nil_r].
  destruct (CreateEmailVerificationToken ctx _ _ _ _ _) as [[e|] u]; simpl;
    [by exists []; rewrite app_nil_r | by eexists].
Qed.

(** C10: an authenticated logout whose body is not empty and is not JSON is
    not answered with 400.  The handler goes on with an empty session id:
    it has the session repository deactivate the sessions of the requesting
    user, all of them, and answers 200, or 500 when that call fails. *)
Theorem Logout_malformed_body_revokes_everywhere ctx request claims (w : world) :
  GetUserClaims ctx = Some claims ->
  Request_Body request = Malformed ->
  StatusCode (fst (handlers.Logout ctx request w)) <> StatusBadRequest
  /\ StatusCode (fst (handlers.Logout ctx request w))
     = match fst (DeactivateUserSessions ctx (UserClaims_UserID claims) (w_sessions w)) with
       | None => StatusOK
       | Some _ => StatusInternalServerError
       end
  /\ w_sessions (snd (handlers.Logout ctx request w))
     = snd (DeactivateUserSessions ctx (UserClaims_UserID claims) (w_sessions w))
  /\ w_users (snd (handlers.Logout ctx request w)) = w_users w
  /\ (WarnLevel, "Invalid logout request body")
       ∈ logged_since w (snd (handlers.Logout ctx request w)).
Proof.
  intros Hclaims Hbody. unfold handlers.Logout. rewrite Hclaims, Hbody. simpl.
  unfold services.Logout. simpl.
  destruct (DeactivateUserSessions _ _ _) as [[e|] s']; simpl;
    (repeat split; try done);
    unfold logged_since; simpl; rewrite <- ?app_assoc, drop_app_length; set_solver.
Qed.

End ServiceFacts.

(** ** The handlers of the operations that send email *)

Section DispatchFacts.

Context {U S : Type} `{!UserRepository U} `{!SessionRepository S} `{!Bcrypt}
        `{!Validator}.

#[local] Abbreviation world := (World U S).

(** C7, as the code has it: when the step that sends the verification
    email fails, Register still returns the new user and logs a warning,
    whereas ResendVerification returns the failure to its caller; the
    handlers of ResendVerification and of ForgotPassword answer 200 to
    every request that passes validation, whatever the service returned.
    Each of the three statements stands by itself. *)
Theorem email_dispatch_failure :
  (forall ctx req passwordHash (w : world) u err,
     let user :=
       mkUser (ctx_uuid ctx) (RegisterRequest_Email req) (RegisterRequest_Name req)
              false true [RoleUser] (ctx_now ctx) (ctx_now ctx) None in
     GetUserByEmail ctx (RegisterRequest_Email req) (w_users w)
       = Err repositories.ErrUserNotFound ->
     services.hashPassword (RegisterRequest_Password req) = Ok passwordHash ->
     CreateUser ctx user passwordHash (w_users w) = (None, u) ->
     fst (services.sendVerificationEmail ctx user (set_users u w)) = Some err ->
     fst (services.Register ctx req w) = Ok user
     /\ (WarnLevel, "Failed to send verification email")
          ∈ logged_since w (snd (services.Register ctx req w)))
  /\ (forall ctx email (w : world) user err,
        GetUserByEmail ctx email (w_users w) = Ok user ->
        User_IsVerified user = false ->
        fst (services.sendVerificationEmail ctx user w) = Some err ->
        fst (services.ResendVerification ctx email w)
        = Some (Errorf "failed to send verification email" err))
  /\ (forall ctx request email (w : world),
        Unmarshal EmptyString decodeEmailRequest (Request_Body request) = (None, email) ->
        validate_email "Email" email = None ->
        StatusCode (fst (handlers.ResendVerification ctx request w)) = StatusOK
        /\ StatusCode (fst (handlers.ForgotPassword ctx request w)) = StatusOK).
Proof.
  split_and!.
  - intros ctx1 req passwordHash w1 u1 err1 user1 Hnew Hhash Hcreate Hsend1.
    assert (forall u : U, set_users u (DebugCtx "Attempting to register user" w1)
                          = DebugCtx "Attempting to register user" (set_users u w1))
      as Hswap by done.
    assert (services.Register ctx1 req w1
            = (Ok user1,
               InfoCtx "User registration successful"
                 (WarnCtx "Failed to send verification email"
                    (snd (services.sendVerificationEmail ctx1 user1
                            (DebugCtx "Attempting to register user" (set_users u1 w1)))))))
      as Hregister.
    { unfold services.Register. simpl. rewrite Hnew. rewrite decide_True by done.
      rewrite Hhash. fold user1. simpl. rewrite Hcreate. rewrite Hswap.
      pose proof (sendVerificationEmail_logCtx ctx1 user1 DebugLevel
                    "Attempting to register user" (set_users u1 w1)) as Hfst.
      rewrite Hsend1 in Hfst.
      destruct (services.sendVerificationEmail ctx1 user1 (DebugCtx _ _)) as [e w'].
      simpl in Hfst. by subst e. }
    split.
    + by rewrite Hregister.
    + rewrite Hregister.
      destruct (sendVerificationEmail_log ctx1 user1
                  (DebugCtx "Attempting to register user" (set_users u1 w1))) as [l Hl].
      unfold logged_since. simpl. rewrite Hl. simpl.
      rewrite <- !app_assoc, drop_app_length. set_solver.
  - intros ctx2 email2 w2 user2 err2 Hknown Hunverified Hsend2.
    unfold services.ResendVerification. simpl. rewrite Hknown, Hunverified.
    pose proof (sendVerificationEmail_logCtx ctx2 user2 DebugLevel
                  "Processing resend verification" w2) as Hfst.
    rewrite Hsend2 in Hfst.
    destruct (services.sendVerificationEmail ctx2 user2 (DebugCtx _ _)) as [e w'].
    simpl in Hfst. by subst e.
  - intros ctx3 request3 email3 w3 Hbody Hvalid. split.
    + unfold handlers.ResendVerification. rewrite Hbody, Hvalid.
      by destruct (services.ResendVerification _ _ _) as [[e|] w'].
    + unfold handlers.ForgotPassword. rewrite Hbody, Hvalid.
      by destruct (services.ForgotPassword _ _ _) as [[e|] w'].
Qed.

End DispatchFacts.


(** ** More on the service over any pair of repositories *)

Section MoreServiceFacts.

Context {U S : Type} `{!UserRepository U} `{!SessionRepository S} `{!Bcrypt}.
Variable cfg : Config.

#[local] Abbreviation world := (World U S).

(** X1: Register answers UserAlreadyExists exactly when the lookup by email
    finds a user, and then it has written nothing. *)
Theorem Register_UserAlreadyExists_iff ctx req (w : world) :
  (fst (services.Register ctx req w) = Err services.ErrUserAlreadyExists
   <-> exists existing,
         GetUserByEmail ctx (RegisterRequest_Email req) (w_users w) = Ok existing)
  /\ (fst (services.Register ctx req w) = Err services.ErrUserAlreadyExists ->
      snd (services.Register ctx req w) = DebugCtx "Attempting to register user" w).
Proof.
  unfold services.Register. simpl.
  destruct (GetUserByEmail ctx _ _) as [existing|e] eqn:Hget.
  { split; [split; eauto|done]. }
  assert (forall r : result User * world,
             r = services.Register ctx req w ->
             fst r <> Err services.ErrUserAlreadyExists) as Hne.
  { intros r ->. unfold services.Register. simpl. rewrite Hget.
    destruct (decide _); [|done].
    destruct (services.hashPassword _); [|done].
    destruct (CreateUser ctx _ _ _) as [[e'|] u]; [done|].
    by destruct (services.sendVerificationEmail ctx _ _) as [e' w']. }
  specialize (Hne _ eq_refl). unfold services.Register in Hne. simpl in Hne.
  rewrite Hget in Hne.
  split; [split|]; [done | by intros [x Hx] | done].
Qed.

Lemma any_in_range_elem_of {A} (test : A -> bool) (xs : list A) :
  any_in_range test xs = true <-> exists x, x ∈ xs /\ test x = true.
Proof.
  induction xs as [|x xs IH]; simpl.
  - split; [done|]. intros (x & Hx & _). by apply elem_of_nil in Hx.
  - destruct (test x) eqn:Hx.
    + split; [|done]. intros _. exists x. split; [left|done].
    + rewrite IH. split.
      * intros (y & Hy & Ht). exists y. split; [by right|done].
      * intros (y & Hy & Ht). apply elem_of_cons in Hy as [->|Hy]; [congruence|eauto].
Qed.

(** X2: the user that a successful Register returns has the id drawn for
    the request, the email and name of the request, is active and not
    verified, and holds the one role user, which is a valid role; the
    user storage received exactly one CreateUser with the password hash,
    before the verification email, and the session storage is as it was. *)
Theorem Register_new_user ctx req user (w w' : world) :
  services.Register ctx req w = (Ok user, w') ->
  User_ID user = ctx_uuid ctx
  /\ User_Email user = RegisterRequest_Email req
  /\ User_Name user = RegisterRequest_Name req
  /\ User_IsVerified user = false
  /\ User_IsActive user = true
  /\ (forall role, HasRole user role = true <-> role = RoleUser)
  /\ (forall role, HasRole user role = true -> IsValidRole role = true)
  /\ w_sessions w' = w_sessions w
  /\ exists passwordHash u,
       services.hashPassword (RegisterRequest_Password req) = Ok passwordHash
       /\ CreateUser ctx user passwordHash (w_users w) = (None, u)
       /\ w_users w'
          = w_users (snd (services.sendVerificationEmail ctx user (set_users u w))).
Proof.
  unfold services.Register. simpl.
  destruct (GetUserByEmail ctx _ _) as [existing|e]; [done|].
  destruct (decide _); [|done].
  destruct (services.hashPassword _) as [passwordHash|] eqn:Hhash; [|done].
  destruct (CreateUser ctx _ _ _) as [[e'|] u] eqn:Hcreate; [done|].
  destruct (services.sendVerificationEmail ctx _ (set_users u (DebugCtx _ w)))
    as [e' w1] eqn:Hsend.
  intros [= <- <-]. simpl.
  assert (forall role,
             HasRole (mkUser (ctx_uuid ctx) (RegisterRequest_Email req)
                             (RegisterRequest_Name req) false true [RoleUser]
                             (ctx_now ctx) (ctx_now ctx) None) role = true
             <-> role = RoleUser) as Hrole.
  { intros role. unfold HasRole. simpl. case_bool_decide; split; congruence. }
  assert (w_sessions w1 = w_sessions w /\ w_users w1
          = w_users (snd (services.sendVerificationEmail ctx
               (mkUser (ctx_uuid ctx) (RegisterRequest_Email req)
                       (RegisterRequest_Name req) false true [RoleUser]
                       (ctx_now ctx) (ctx_now ctx) None) (set_users u w)))) as [Hs Hu].
  { revert Hsend. unfold services.sendVerificationEmail, services.generateSecureToken.
    destruct (ctx_rand ctx); [|by intros [= <- <-]].
    simpl. by destruct (CreateEmailVerificationToken ctx _ _ _ _ _) as [[e2|] u2];
      intros [= <- <-]. }
  split_and!; try done.
  - intros role Hr. apply Hrole in Hr as ->. reflexivity.
  - by destruct e'.
  - exists passwordHash, u. split_and!; try done. by destruct e'.
Qed.

(** X3: a login that is refused with InvalidCredentials, UserDisabled or
    UserNotVerified has written nothing: no session is created and the
    last login time is not touched. *)
Theorem Login_refused_writes_nothing ctx req e (w w' : world) :
  services.Login cfg ctx req w = (Err e, w') ->
  e = services.ErrInvalidCredentials \/ e = services.ErrUserDisabled
    \/ e = services.ErrUserNotVerified ->
  w' = DebugCtx "Attempting to login user" w.
Proof.
  unfold services.Login. simpl.
  destruct (GetUserByEmail ctx _ _) as [user|e0].
  2:{ destruct (decide _); by intros [= <- <-]. }
  destruct (User_IsActive user); simpl; [|by intros [= <- <-]].
  destruct (User_IsVerified user); simpl; [|by intros [= <- <-]].
  destruct (services.verifyPassword ctx _ _ _); [by intros [= <- <-]|].
  unfold services.createSession. simpl.
  destruct (CreateSession ctx _ _) as [[e1|] s1]; simpl.
  { intros [= <- <-] [?|[?|?]]; discriminate. }
  by destruct (UpdateLastLogin ctx _ _ _) as [[e2|] u2].
Qed.

(** X4: once the user is found, active and verified, the password verifies
    and the session is stored, the login succeeds also when stamping the
    last login time fails: it logs a warning and returns both tokens, a
    lifetime of 900 seconds and the user record as it was read. *)
Theorem Login_survives_last_login_failure
    ctx req user s1 e u1 (w : world) :
  GetUserByEmail ctx (LoginRequest_Email req) (w_users w) = Ok user ->
  User_IsActive user = true ->
  User_IsVerified user = true ->
  services.verifyPassword ctx (User_ID user) (LoginRequest_Password req) w = None ->
  CreateSession ctx
      (mkSession (ctx_uuid ctx) (User_ID user) EmptyString (LoginRequest_DeviceID req)
                 EmptyString EmptyString (ctx_now ctx)
                 (ctx_now ctx + DefaultRefreshDuration) true)
      (w_sessions w) = (None, s1) ->
  UpdateLastLogin ctx (User_ID user) (ctx_now ctx) (w_users w) = (Some e, u1) ->
  exists accessToken refreshToken w',
    services.Login cfg ctx req w
      = (Ok (mkAuthResponse accessToken refreshToken 900 user), w')
    /\ services.generateAccessToken cfg ctx user (ctx_uuid ctx) = Ok accessToken
    /\ services.generateRefreshToken cfg ctx (User_ID user) (ctx_uuid ctx) = Ok refreshToken
    /\ w_sessions w' = s1
    /\ w_users w' = u1
    /\ (WarnLevel, "Failed to update last login time") ∈ logged_since w w'.
Proof.
  intros Hget Hactive Hverified Hpw Hcreate Hlast.
  eexists _, _, _. split.
  { unfold services.Login. simpl. rewrite Hget, Hactive, Hverified. simpl.
    rewrite verifyPassword_logCtx, Hpw.
    unfold services.createSession. simpl. rewrite Hcreate. simpl. rewrite Hlast.
    destruct user. reflexivity. }
  repeat split.
  unfold logged_since. simpl. rewrite <- !app_assoc, drop_app_length. set_solver.
Qed.

(** X5: a logout that names a session deactivates that session whoever the
    requesting user is: the user id takes no part in the result, and the
    ownership of the session is not looked at. *)
Theorem Logout_by_session_id_ignores_user ctx userID otherID sessionID (w : world) :
  sessionID <> EmptyString ->
  services.Logout ctx userID sessionID w = services.Logout ctx otherID sessionID w
  /\ w_sessions (snd (services.Logout ctx userID sessionID w))
     = snd (DeactivateSession ctx sessionID (w_sessions w))
  /\ w_users (snd (services.Logout ctx userID sessionID w)) = w_users w.
Proof.
  intros Hne. unfold services.Logout. rewrite bool_decide_false by done. simpl.
  by destruct (DeactivateSession ctx _ _) as [[e|] s'].
Qed.

Lemma RefreshToken_same_storage ctx tokenString (w : world) :
  same_storage w (snd (services.RefreshToken cfg ctx tokenString w)).
Proof.
  unfold services.RefreshToken, same_storage.
  destruct (services.parseRefreshToken cfg ctx tokenString); [|done]. simpl.
  destruct (repositories.GetUser ctx _ _) as [user|e]; [|by destruct (decide _)].
  destruct (negb (User_IsActive user)); [done|].
  destruct (GetSession ctx _ _) as [session|e]; [|by destruct (decide _)].
  by destruct (_ || _).
Qed.

Lemma RefreshToken_result_of_storage ctx tokenString (w w' : world) :
  same_storage w w' ->
  fst (services.RefreshToken cfg ctx tokenString w')
  = fst (services.RefreshToken cfg ctx tokenString w).
Proof.
  intros [Hu Hs]. unfold services.RefreshToken. simpl. rewrite Hu, Hs.
  destruct (services.parseRefreshToken cfg ctx tokenString); [|done]. simpl.
  destruct (repositories.GetUser ctx _ _) as [user|e]; [|by destruct (decide _)].
  destruct (negb (User_IsActive user)); [done|].
  destruct (GetSession ctx _ _) as [session|e]; [|by destruct (decide _)].
  by destruct (_ || _).
Qed.

(** X6: the refresh operation only reads.  It leaves both storages as they
    were, so the rotation does not retire the token it was given: any
    refresh token gets, after a refresh, the answer it would have got
    before it. *)
Theorem RefreshToken_only_reads ctx tokenString ctx' tokenString' (w : world) :
  same_storage w (snd (services.RefreshToken cfg ctx tokenString w))
  /\ fst (services.RefreshToken cfg ctx' tokenString'
            (snd (services.RefreshToken cfg ctx tokenString w)))
     = fst (services.RefreshToken cfg ctx' tokenString' w).
Proof.
  split; [apply RefreshToken_same_storage|].
  apply RefreshToken_result_of_storage, RefreshToken_same_storage.
Qed.

Lemma Validate_expired claims now exp :
  claims !! "exp" = Some (Scalar (JNumber exp)) ->
  exp <> 0 -> exp <= now ->
  exists e, Validate claims now = Some e.
Proof.
  intros Hexp Hnz Hle. unfold Validate. rewrite Hexp. simpl.
  rewrite decide_False by done. rewrite bool_decide_false by lia. eauto.
Qed.

(** X7: a refresh token of the service is refused from the second its
    expiry is reached, seven days after it was issued, and the error is
    InvalidToken, not TokenExpired; nothing is read from the storage. *)
Theorem RefreshToken_past_expiry_is_InvalidToken
    ctx ctx' userID sessionID refreshToken (w : world) :
  services.generateRefreshToken cfg ctx userID sessionID = Ok refreshToken ->
  ctx_now ctx + 7 * 24 * 3600 <> 0 ->
  ctx_now ctx + 7 * 24 * 3600 <= ctx_now ctx' ->
  is_ok (services.parseRefreshToken cfg ctx' refreshToken) = false
  /\ services.RefreshToken cfg ctx' refreshToken w
     = (Err services.ErrInvalidToken, DebugCtx "Attempting to refresh token" w).
Proof.
  intros [= <-] Hnz Hle.
  assert (is_ok (services.parseRefreshToken cfg ctx'
            [Jws (mkToken HS256 (services.refreshClaims ctx userID sessionID)
                          (JWTSecret cfg))]) = false) as Hparse.
  { unfold services.parseRefreshToken, jwt_Parse, hmacKeyFunc. simpl.
    rewrite decide_True by done.
    destruct (Validate_expired (services.refreshClaims ctx userID sessionID)
                (ctx_now ctx') (ctx_now ctx + DefaultRefreshDuration)) as [e He];
      [reflexivity|done|done|].
    by rewrite He. }
  split; [done|]. unfold services.RefreshToken.
  by destruct (services.parseRefreshToken cfg ctx' _).
Qed.

(** X8: what parseRefreshToken accepts.  The text is one token, signed
    under an HMAC method with the service secret, within its dates, of type
    refresh, with a subject and a session id that are not empty; the claims
    returned carry these two ids and nothing else. *)
Theorem parseRefreshToken_accepts_only ctx tokenString claims :
  services.parseRefreshToken cfg ctx tokenString = Ok claims ->
  exists t,
    tokenString = [Jws t]
    /\ verifies cfg (ctx_now ctx) t
    /\ as_string (Claims t !! "type") = TokenTypeRefresh
    /\ TokenClaims_UserID claims <> EmptyString
    /\ TokenClaims_SessionID claims <> EmptyString
    /\ claims = mkTokenClaims (as_string (Claims t !! "sub")) EmptyString EmptyString []
                              (as_string (Claims t !! "session_id")) 0 0.
Proof.
  unfold services.parseRefreshToken, jwt_Parse, hmacKeyFunc, verifies.
  destruct tokenString as [|[c|t] [|a l]]; try done.
  destruct (SigningMethodHMAC (Method t)) eqn:Hm; [|done].
  destruct (decide _) as [Hk|]; [|done].
  destruct (Validate _ _) eqn:Hv; [done|]. simpl.
  case_bool_decide as Hty; simpl; [|done].
  destruct (bool_decide (as_string (Claims t !! "sub") = EmptyString)) eqn:Hsub;
    [done|].
  destruct (bool_decide (as_string (Claims t !! "session_id") = EmptyString)) eqn:Hsid;
    [done|].
  simpl. intros [= <-]. exists t. simpl.
  apply bool_decide_eq_false in Hsub, Hsid. by split_and!.
Qed.

(** X9: ResendVerification gives the same run for an address that no user
    has and for the address of a user who is verified already: success,
    nothing written, the same log. *)
Theorem ResendVerification_verified_like_unknown
    ctx (w : world) known unknown user :
  GetUserByEmail ctx known (w_users w) = Ok user ->
  User_IsVerified user = true ->
  GetUserByEmail ctx unknown (w_users w) = Err repositories.ErrUserNotFound ->
  services.ResendVerification ctx known w
    = (None, DebugCtx "Processing resend verification" w)
  /\ services.ResendVerification ctx unknown w = services.ResendVerification ctx known w.
Proof.
  intros Hk Hv Hu. unfold services.ResendVerification. simpl.
  rewrite Hk, Hv, Hu. by rewrite decide_True.
Qed.

(** X10: ForgotPassword returns no error both for an address that no user
    has and for a known address whose reset token could be stored.  In the
    first run nothing is written; in the second the user storage received
    one reset token, the one drawn for the request, valid for one hour, and
    the session storage is as it was.  Each of the two statements stands by
    itself. *)
Theorem ForgotPassword_silent_on_unknown_email :
  (forall ctx unknown (w : world),
     GetUserByEmail ctx unknown (w_users w) = Err repositories.ErrUserNotFound ->
     services.ForgotPassword ctx unknown w
     = (None, DebugCtx "Processing forgot password request" w))
  /\ (forall ctx known user resetToken u (w : world),
        GetUserByEmail ctx known (w_users w) = Ok user ->
        ctx_rand ctx = Ok resetToken ->
        CreatePasswordResetToken ctx (User_ID user) resetToken 3600 (w_users w)
          = (None, u) ->
        fst (services.ForgotPassword ctx known w) = None
        /\ w_users (snd (services.ForgotPassword ctx known w)) = u
        /\ w_sessions (snd (services.ForgotPassword ctx known w)) = w_sessions w).
Proof.
  unfold services.ForgotPassword. simpl. split.
  - intros ctx unknown w Hu. rewrite Hu. by rewrite decide_True.
  - intros ctx known user resetToken u w Hk Hrand Hstore.
    rewrite Hk. unfold services.generateSecureToken. rewrite Hrand.
    change DefaultResetTokenDuration with 3600. by rewrite Hstore.
Qed.

(** X11: when the token does not verify, whatever the reason, ResetPassword
    and VerifyEmail fail and write nothing; the error is InvalidToken
    exactly when the repository reported the token as not found or expired. *)
Theorem unverified_token_writes_nothing
    ctx1 resetToken newPassword e1 (w1 : world) ctx2 emailToken e2 (w2 : world) :
  VerifyPasswordResetToken ctx1 resetToken (w_users w1) = Err e1 ->
  VerifyEmailToken ctx2 emailToken (w_users w2) = Err e2 ->
  snd (services.ResetPassword ctx1 resetToken newPassword w1)
    = DebugCtx "Processing password reset" w1
  /\ (fst (services.ResetPassword ctx1 resetToken newPassword w1)
        = Some services.ErrInvalidToken
      <-> e1 = repositories.ErrTokenNotFound \/ e1 = repositories.ErrTokenExpired)
  /\ is_Some (fst (services.ResetPassword ctx1 resetToken newPassword w1))
  /\ snd (services.VerifyEmail ctx2 emailToken w2)
     = DebugCtx "Processing email verification" w2
  /\ (fst (services.VerifyEmail ctx2 emailToken w2) = Some services.ErrInvalidToken
      <-> e2 = repositories.ErrTokenNotFound \/ e2 = repositories.ErrTokenExpired)
  /\ is_Some (fst (services.VerifyEmail ctx2 emailToken w2)).
Proof.
  intros H1 H2. unfold services.ResetPassword, services.VerifyEmail. simpl.
  rewrite H1, H2.
  assert (forall e : error,
             bool_decide (e = repositories.ErrTokenNotFound)
             || bool_decide (e = repositories.ErrTokenExpired) = true
             <-> e = repositories.ErrTokenNotFound \/ e = repositories.ErrTokenExpired)
    as Hor.
  { intros e. rewrite orb_true_iff, !bool_decide_eq_true. done. }
  split_and!.
  - by destruct (_ || _).
  - rewrite <- Hor. destruct (_ || _); split; done.
  - destruct (_ || _); by eexists.
  - by destruct (_ || _).
  - rewrite <- Hor. destruct (_ || _); split; done.
  - destruct (_ || _); by eexists.
Qed.

(** X12: the token is marked used only after the change it pays for.  When
    storing the new password fails, ResetPassword returns that failure,
    the token is not marked and no session is deactivated; when marking
    the user verified fails, VerifyEmail returns that failure and the token
    is not marked. *)
Theorem failed_update_keeps_token
    ctx1 resetToken newPassword userID1 passwordHash e1 u1 (w1 : world)
    ctx2 emailToken userID2 e2 u2 (w2 : world) :
  VerifyPasswordResetToken ctx1 resetToken (w_users w1) = Ok userID1 ->
  services.hashPassword newPassword = Ok passwordHash ->
  UpdatePassword ctx1 userID1 passwordHash (w_users w1) = (Some e1, u1) ->
  VerifyEmailToken ctx2 emailToken (w_users w2) = Ok userID2 ->
  MarkUserVerified ctx2 userID2 (w_users w2) = (Some e2, u2) ->
  services.ResetPassword ctx1 resetToken newPassword w1
    = (Some (Errorf "failed to update password" e1),
       set_users u1 (DebugCtx "Processing password reset" w1))
  /\ services.VerifyEmail ctx2 emailToken w2
     = (Some (Errorf "failed to mark user as verified" e2),
        set_users u2 (DebugCtx "Processing email verification" w2)).
Proof.
  intros Hv1 Hh Hu1 Hv2 Hu2. unfold services.ResetPassword, services.VerifyEmail. simpl.
  by rewrite Hv1, Hh, Hu1, Hv2, Hu2.
Qed.

(** X13: a failure to read the password hash, whatever it is (the user is
    gone, the storage is down), is reported as InvalidCredentials, by
    ChangePassword and by Login alike, and nothing is written.  Each of
    the two statements stands by itself. *)
Theorem unreadable_hash_is_InvalidCredentials :
  (forall ctx userID currentPassword newPassword e (w : world),
     GetPasswordHash ctx userID (w_users w) = Err e ->
     services.ChangePassword ctx userID currentPassword newPassword w
     = (Some services.ErrInvalidCredentials, DebugCtx "Processing password change" w))
  /\ (forall ctx req user e (w : world),
        GetUserByEmail ctx (LoginRequest_Email req) (w_users w) = Ok user ->
        User_IsActive user = true ->
        User_IsVerified user = true ->
        GetPasswordHash ctx (User_ID user) (w_users w) = Err e ->
        services.Login cfg ctx req w
        = (Err services.ErrInvalidCredentials, DebugCtx "Attempting to login user" w)).
Proof.
  unfold services.ChangePassword, services.Login, services.verifyPassword. simpl. split.
  - intros ctx userID currentPassword newPassword e w Hh. by rewrite Hh.
  - intros ctx req user e w Hget Ha Hv Hh. by rewrite Hget, Ha, Hv, Hh.
Qed.

End MoreServiceFacts.

(** ** More on tokens and the bearer-token check *)

Section MoreTokenFacts.

Context {U S : Type} `{!UserRepository U} `{!SessionRepository S} `{!Bcrypt}.
Variable cfg : Config.

#[local] Abbreviation world := (World U S).
#[local] Abbreviation Handler := (@middleware.Handler U S).

Lemma convertRoles_strings roles :
  middleware.convertRoles (JString <$> roles) = roles.
Proof.
  unfold middleware.convertRoles. induction roles as [|r roles IH]; [done|].
  simpl. f_equal. exact IH.
Qed.

Lemma Split_bearer tokenString :
  Ch " "%char ∉ tokenString ->
  Split (Ch " "%char) (lit "Bearer " ++ tokenString) = [lit "Bearer"; tokenString].
Proof.
  intros Hno.
  assert (Split (Ch " "%char) tokenString = [tokenString]) as Htok.
  { induction tokenString as [|a l IH]; [done|].
    apply not_elem_of_cons in Hno as [Ha Hl]. simpl.
    rewrite decide_False by done. by rewrite IH. }
  simpl. by rewrite Htok.
Qed.

Lemma header_bearer_request method path tokenString :
  authorization (bearer_request method path tokenString) = lit "Bearer " ++ tokenString.
Proof. reflexivity. Qed.

Lemma Validate_accessClaims ctx user sessionID now :
  now < ctx_now ctx + DefaultSessionDuration ->
  Validate (services.accessClaims ctx user sessionID) now = None.
Proof.
  intros Hlt. unfold Validate.
  change (services.accessClaims ctx user sessionID !! "exp")
    with (Some (Scalar (JNumber (ctx_now ctx + DefaultSessionDuration)))).
  change (services.accessClaims ctx user sessionID !! "nbf") with (@None ClaimValue).
  pose proof (NumericDate_before _ _ Hlt) as Hd.
  destruct (NumericDate (Some _)) as [exp|]; [|done].
  by rewrite Hd.
Qed.

(** X14: the access token of a login round-trips through the bearer-token
    check.  For fifteen minutes from its issue, a request that carries it
    reaches the protected handler, with the id, the email and the roles of
    the user it was issued to in the context. *)
Theorem access_token_round_trip
    (next : Handler) ctx ctx' user sessionID accessToken method path (w : world) :
  services.generateAccessToken cfg ctx user sessionID = Ok accessToken ->
  User_ID user <> EmptyString ->
  ctx_now ctx' < ctx_now ctx + 15 * 60 ->
  AuthMiddleware cfg next ctx' (bearer_request method path accessToken) w
  = next (WithUserClaims ctx'
            (mkUserClaims (User_ID user) (User_Email user) (User_Roles user)))
         (bearer_request method path accessToken) w.
Proof.
  intros [= <-] Hid Hlt.
  rewrite (AuthMiddleware_accepts cfg next ctx' method path); try done.
  - simpl.
    change (services.accessClaims ctx user sessionID !! "sub")
      with (Some (Scalar (JString (User_ID user)))).
    change (services.accessClaims ctx user sessionID !! "email")
      with (Some (Scalar (JString (User_Email user)))).
    change (services.accessClaims ctx user sessionID !! "roles")
      with (Some (Array (JString <$> User_Roles user))).
    simpl. by rewrite convertRoles_strings.
  - by apply Validate_accessClaims.
Qed.

(** X15: from the second its expiry is reached, fifteen minutes after its
    issue, the access token is refused: the answer is 401 with the text
    invalid or expired token, a warning is logged, the storage is as it
    was, and the protected handler plays no part in the answer. *)
Theorem access_token_past_expiry
    (next : Handler) ctx ctx' user sessionID accessToken method path (w : world) :
  services.generateAccessToken cfg ctx user sessionID = Ok accessToken ->
  ctx_now ctx + 15 * 60 <> 0 ->
  ctx_now ctx + 15 * 60 <= ctx_now ctx' ->
  AuthMiddleware cfg next ctx' (bearer_request method path accessToken) w
  = (mkResponse StatusUnauthorized jsonHeaders (ErrorData "invalid or expired token"),
     WarnCtx "Invalid JWT token" w).
Proof.
  intros [= <-] Hnz Hle. unfold AuthMiddleware.
  change (header (bearer_request method path
            [Jws (mkToken HS256 (services.accessClaims ctx user sessionID)
                          (JWTSecret cfg))]) "Authorization")
    with (lit "Bearer " ++ [Jws (mkToken HS256 (services.accessClaims ctx user sessionID)
                                         (JWTSecret cfg))]).
  simpl. unfold hmacKeyFunc. simpl. rewrite decide_True by done.
  destruct (Validate_expired (services.accessClaims ctx user sessionID)
              (ctx_now ctx') (ctx_now ctx + DefaultSessionDuration)) as [e He];
    [reflexivity|done|done|].
  by rewrite He.
Qed.

(** X16: a token issued to an anonymous session opens nothing that belongs
    to users.  At any time, the refresh operation answers it with
    InvalidToken and the bearer-token check with 401, in both cases with
    the storage as it was and, for the check, without the protected
    handler. *)
Theorem anonymous_token_is_not_a_user_token
    (next : Handler) ctx ctx' sessionID token method path (w : world) :
  services.generateAnonymousToken cfg ctx sessionID = Ok token ->
  services.RefreshToken cfg ctx' token w
    = (Err services.ErrInvalidToken, DebugCtx "Attempting to refresh token" w)
  /\ unauthorized (fst (AuthMiddleware cfg next ctx' (bearer_request method path token) w))
  /\ same_storage w (snd (AuthMiddleware cfg next ctx' (bearer_request method path token) w))
  /\ forall other : Handler,
       AuthMiddleware cfg other ctx' (bearer_request method path token) w
       = AuthMiddleware cfg next ctx' (bearer_request method path token) w.
Proof.
  intros [= <-]. split.
  { by apply RefreshToken_rejects_other_types. }
  unfold AuthMiddleware, unauthorized, same_storage.
  change (header (bearer_request method path
            [Jws (mkToken HS256 (services.anonymousClaims ctx sessionID)
                          (JWTSecret cfg))]) "Authorization")
    with (lit "Bearer " ++ [Jws (mkToken HS256 (services.anonymousClaims ctx sessionID)
                                         (JWTSecret cfg))]).
  simpl. unfold hmacKeyFunc. simpl. rewrite decide_True by done.
  destruct (Validate _ _); simpl; [by eauto 10|].
  change (services.anonymousClaims ctx sessionID !! "sub") with (@None ClaimValue).
  simpl. by eauto 10.
Qed.

(** X17: an anonymous session lasts twenty-four hours from its creation,
    and so does its token, which names the session and has the type
    anonymous; creating it writes the session storage once and leaves the
    user storage as it was. *)
Theorem CreateAnonymousSession_lifetime ctx session (w w' : world) :
  services.CreateAnonymousSession cfg ctx w = (Ok session, w') ->
  AnonymousSession_ID session = ctx_uuid ctx
  /\ AnonymousSession_CreatedAt session = ctx_now ctx
  /\ AnonymousSession_ExpiresAt session = AnonymousSession_CreatedAt session + 24 * 3600
  /\ type_of (AnonymousSession_Token session) = "anonymous"
  /\ session_of (AnonymousSession_Token session) = AnonymousSession_ID session
  /\ claims_of (AnonymousSession_Token session) !! "exp"
     = Some (Scalar (JNumber (AnonymousSession_ExpiresAt session)))
  /\ repositories.CreateAnonymousSession ctx session (w_sessions w)
     = (None, w_sessions w')
  /\ w_users w' = w_users w.
Proof.
  unfold services.CreateAnonymousSession. simpl.
  destruct (repositories.CreateAnonymousSession ctx _ _) as [[e|] s'] eqn:Hc; [done|].
  intros [= <- <-]. simpl. by split_and!.
Qed.

End MoreTokenFacts.

(** ** The middleware chain *)

Section MiddlewareFacts.

Context {U S : Type}.
Variable cfg : Config.

#[local] Abbreviation world := (World U S).
#[local] Abbreviation Handler := (@middleware.Handler U S).
#[local] Abbreviation deny :=
  (fun message => mkResponse StatusUnauthorized jsonHeaders (ErrorData message)).

Lemma AuthMiddleware_by_authorization (next : Handler) ctx request (w : world) :
  AuthMiddleware cfg next ctx request w
  = if bool_decide (authorization request = []) then
      (deny "missing authorization header", w)
    else
      match Split (Ch " "%char) (authorization request) with
      | [bearer; tokenString] =>
          if negb (bool_decide (bearer = lit "Bearer")) then
            (deny "invalid authorization format", w)
          else
            match jwt_Parse tokenString (hmacKeyFunc (JWTSecret cfg)) (ctx_now ctx) with
            | Err _ => (deny "invalid or expired token", WarnCtx "Invalid JWT token" w)
            | Ok token =>
                if negb (Valid token) then
                  (deny "invalid or expired token", WarnCtx "Invalid JWT token" w)
                else if bool_decide (as_string (Parsed_Claims token !! "sub") = EmptyString)
                then (deny "missing user ID in token", w)
                else
                  next (WithUserClaims ctx
                          (mkUserClaims (as_string (Parsed_Claims token !! "sub"))
                             (as_string (Parsed_Claims token !! "email"))
                             (convertRoles (as_array (Parsed_Claims token !! "roles")))))
                       request w
            end
      | _ => (deny "invalid authorization format", w)
      end.
Proof. reflexivity. Qed.

Lemma jwt_Parse_Ok tokenString now token :
  jwt_Parse tokenString (hmacKeyFunc (JWTSecret cfg)) now = Ok token ->
  exists t, tokenString = [Jws t] /\ verifies cfg now t
            /\ token = mkParsed (Method t) (Claims t) true.
Proof.
  unfold jwt_Parse, hmacKeyFunc, verifies.
  destruct tokenString as [|[c|t] [|a l]]; try done.
  destruct (SigningMethodHMAC (Method t)) eqn:Hm; [|done].
  destruct (decide _) as [Hk|]; [|done].
  destruct (Validate _ _) eqn:Hv; [done|]. intros [= <-]. by exists t.
Qed.

(** The outcomes of the bearer-token check, whatever the handler behind it. *)
Lemma AuthMiddleware_cases ctx request (w : world) :
  (exists response w',
      unauthorized response /\ same_storage w w'
      /\ forall next : Handler, AuthMiddleware cfg next ctx request w = (response, w'))
  \/ (exists t,
        Split (Ch " "%char) (authorization request) = [lit "Bearer"; [Jws t]]
        /\ verifies cfg (ctx_now ctx) t
        /\ UserClaims_UserID (claims_in t) <> EmptyString
        /\ forall next : Handler,
             AuthMiddleware cfg next ctx request w
             = next (WithUserClaims ctx (claims_in t)) request w).
Proof.
  assert (forall message, unauthorized (deny message)) as Hdeny.
  { intros message. split; [done|by eexists]. }
  destruct (bool_decide (authorization request = [])) eqn:H0.
  { left. exists (deny "missing authorization header"), w. split_and!; try done.
    intros next. by rewrite AuthMiddleware_by_authorization, H0. }
  destruct (Split (Ch " "%char) (authorization request))
    as [|bearer [|tokenString [|x l]]] eqn:Hs.
  1,2,4: left; exists (deny "invalid authorization format"), w; split_and!; try done;
         intros next; by rewrite AuthMiddleware_by_authorization, H0, Hs.
  destruct (bool_decide (bearer = lit "Bearer")) eqn:Hb.
  2:{ left. exists (deny "invalid authorization format"), w. split_and!; try done.
      intros next. by rewrite AuthMiddleware_by_authorization, H0, Hs, Hb. }
  destruct (jwt_Parse tokenString (hmacKeyFunc (JWTSecret cfg)) (ctx_now ctx))
    as [token|e] eqn:Hp.
  2:{ left. exists (deny "invalid or expired token"), (WarnCtx "Invalid JWT token" w).
      split_and!; try done.
      intros next. by rewrite AuthMiddleware_by_authorization, H0, Hs, Hb, Hp. }
  destruct (jwt_Parse_Ok _ _ _ Hp) as (t & -> & Hver & ->).
  destruct (bool_decide (as_string (Claims t !! "sub") = EmptyString)) eqn:Hsub.
  { left. exists (deny "missing user ID in token"), w. split_and!; try done.
    intros next. rewrite AuthMiddleware_by_authorization, H0, Hs, Hb, Hp. simpl.
    by rewrite Hsub. }
  right. exists t. apply bool_decide_eq_true in Hb as Hb'. subst bearer.
  apply bool_decide_eq_false in Hsub as Hsub'. split_and!; try done.
  intros next. rewrite AuthMiddleware_by_authorization, H0, Hs, Hb, Hp. simpl.
  by rewrite Hsub.
Qed.

(** X18: the bearer-token check is sound.  For every request, either the
    answer is a 401 that does not depend on the protected handler and the
    storage is as it was, or the Authorization header is the word Bearer, one
    space and one token that is signed under an HMAC method with the service
    secret, is within its dates and has a subject, and the protected handler
    runs with the claims of that token in the context. *)
Theorem AuthMiddleware_sound ctx request (w : world) :
  (exists response w',
      unauthorized response /\ same_storage w w'
      /\ forall next : Handler, AuthMiddleware cfg next ctx request w = (response, w'))
  \/ (exists t,
        Split (Ch " "%char) (authorization request) = [lit "Bearer"; [Jws t]]
        /\ verifies cfg (ctx_now ctx) t
        /\ UserClaims_UserID (claims_in t) <> EmptyString
        /\ forall next : Handler,
             AuthMiddleware cfg next ctx request w
             = next (WithUserClaims ctx (claims_in t)) request w).
Proof. apply AuthMiddleware_cases. Qed.

Lemma OptionalAuthMiddleware_by_authorization (next : Handler) ctx request (w : world) :
  OptionalAuthMiddleware cfg next ctx request w
  = if negb (bool_decide (authorization request = []))
    then AuthMiddleware cfg next ctx request w
    else next ctx request w.
Proof. reflexivity. Qed.

(** X19: the optional check serves a request as anonymous only when it
    carries no Authorization header at all.  With a header, a token that
    does not verify is answered with 401 and is not downgraded to an
    anonymous request. *)
Theorem OptionalAuthMiddleware_does_not_downgrade ctx request (w : world) :
  (authorization request = []
   /\ forall next : Handler,
        OptionalAuthMiddleware cfg next ctx request w = next ctx request w)
  \/ (authorization request <> []
      /\ exists response w',
           unauthorized response /\ same_storage w w'
           /\ forall next : Handler,
                OptionalAuthMiddleware cfg next ctx request w = (response, w'))
  \/ (exists t,
        verifies cfg (ctx_now ctx) t
        /\ UserClaims_UserID (claims_in t) <> EmptyString
        /\ forall next : Handler,
             OptionalAuthMiddleware cfg next ctx request w
             = next (WithUserClaims ctx (claims_in t)) request w).
Proof.
  pose proof OptionalAuthMiddleware_by_authorization as Hopt.
  destruct (bool_decide (authorization request = [])) eqn:H0.
  { left. apply bool_decide_eq_true in H0 as H0'. split; [done|].
    intros next. by rewrite Hopt, H0. }
  apply bool_decide_eq_false in H0 as H0'. right.
  destruct (AuthMiddleware_cases ctx request w)
    as [(response & w' & Hun & Hst & Hall)|(t & _ & Hver & Hsub & Hall)].
  - left. split; [done|]. exists response, w'. split_and!; try done.
    intros next. by rewrite Hopt, H0, Hall.
  - right. exists t. split_and!; try done.
    intros next. by rewrite Hopt, H0, Hall.
Qed.

Lemma Chain_loop_take (middlewares : list (Handler -> Handler)) i (next : Handler) :
  (i <= length middlewares)%nat ->
  Chain_loop middlewares i next = foldr (fun m h => m h) next (take i middlewares).
Proof.
  revert next. induction i as [|j IH]; intros next Hle; [done|]. simpl.
  destruct (lookup_lt_is_Some_2 middlewares j) as [m Hm]; [lia|].
  rewrite Hm, IH by lia.
  rewrite (take_S_r _ _ _ Hm), foldr_app. done.
Qed.

Lemma Chain_foldr (middlewares : list (Handler -> Handler)) (next : Handler) :
  Chain middlewares next = foldr (fun m h => m h) next middlewares.
Proof.
  unfold Chain. rewrite Chain_loop_take by done. by rewrite firstn_all.
Qed.

(** X20: Chain applies the middlewares in the order they are listed, the
    first one outermost: chaining a list that is the concatenation of two
    is chaining the first around the chain of the second, an empty chain is
    the handler itself, and the rate limit placeholder can be dropped from
    any place of a chain. *)
Theorem Chain_order (before after : list (Handler -> Handler)) m (next : Handler) :
  Chain (before ++ after) next = Chain before (Chain after next)
  /\ Chain (m :: after) next = m (Chain after next)
  /\ Chain [] next = next
  /\ Chain (before ++ RateLimitMiddleware :: after) next = Chain (before ++ after) next.
Proof.
  rewrite !Chain_foldr, !foldr_app. split_and!; reflexivity.
Qed.

End MiddlewareFacts.

(** ** The handlers *)

Section HandlerFacts.

Context {U S : Type} `{!UserRepository U} `{!SessionRepository S} `{!Bcrypt}
        `{!Validator}.
Variable cfg : Config.

#[local] Abbreviation world := (World U S).

(** X21: the handlers of the authenticated routes check for themselves that
    the context carries user claims.  Without claims each of them answers
    401 unauthorized and does not reach the service. *)
Theorem handlers_require_claims ctx request (w : world) :
  GetUserClaims ctx = None ->
  handlers.Logout ctx request w
    = (errorResponse StatusUnauthorized "unauthorized",
       InfoCtx "Processing logout request" w)
  /\ handlers.ChangePassword ctx request w
     = (errorResponse StatusUnauthorized "unauthorized",
        InfoCtx "Processing password change request" w)
  /\ handlers.GetCurrentUser ctx request w
     = (errorResponse StatusUnauthorized "unauthorized",
        InfoCtx "Processing get current user request" w)
  /\ handlers.GetUserSessions ctx request w
     = (errorResponse StatusUnauthorized "unauthorized",
        InfoCtx "Processing get user sessions request" w)
  /\ handlers.RevokeSession ctx request w
     = (errorResponse StatusUnauthorized "unauthorized",
        InfoCtx "Processing revoke session request" w).
Proof.
  intros Hnone.
  unfold handlers.Logout, handlers.ChangePassword, handlers.GetCurrentUser,
    handlers.GetUserSessions, handlers.RevokeSession.
  by rewrite Hnone.
Qed.




(** X24: a reset token, and likewise a verification token, that the
    repository reports as not found or expired is answered by the handler
    with 400 (not 401), and nothing is written. *)
Theorem handlers_answer_400_for_invalid_token
    ctx1 request1 resetReq e1 (w1 : world) ctx2 request2 emailToken e2 (w2 : world) :
  Unmarshal (mkResetPasswordRequest EmptyString EmptyString) decodeResetPasswordRequest
            (Request_Body request1) = (None, resetReq) ->
  validateResetPasswordRequest resetReq = None ->
  VerifyPasswordResetToken ctx1 (ResetPasswordRequest_Token resetReq) (w_users w1)
    = Err e1 ->
  e1 = repositories.ErrTokenNotFound \/ e1 = repositories.ErrTokenExpired ->
  Unmarshal EmptyString decodeVerifyEmailRequest (Request_Body request2)
    = (None, emailToken) ->
  validate_required "Token" emailToken = None ->
  VerifyEmailToken ctx2 emailToken (w_users w2) = Err e2 ->
  e2 = repositories.ErrTokenNotFound \/ e2 = repositories.ErrTokenExpired ->
  fst (handlers.ResetPassword ctx1 request1 w1)
    = errorResponse StatusBadRequest "invalid or expired reset token"
  /\ same_storage w1 (snd (handlers.ResetPassword ctx1 request1 w1))
  /\ fst (handlers.VerifyEmail ctx2 request2 w2)
     = errorResponse StatusBadRequest "invalid or expired verification token"
  /\ same_storage w2 (snd (handlers.VerifyEmail ctx2 request2 w2)).
Proof.
  intros Hb1 Hv1 Ht1 He1 Hb2 Hv2 Ht2 He2.
  unfold handlers.ResetPassword, handlers.VerifyEmail. rewrite Hb1, Hv1, Hb2, Hv2.
  unfold services.ResetPassword, services.VerifyEmail. simpl. rewrite Ht1, Ht2.
  assert (forall e : error,
             e = repositories.ErrTokenNotFound \/ e = repositories.ErrTokenExpired ->
             bool_decide (e = repositories.ErrTokenNotFound)
             || bool_decide (e = repositories.ErrTokenExpired) = true) as Hor.
  { intros e [-> | ->]; reflexivity. }
  rewrite (Hor _ He1), (Hor _ He2). simpl. done.
Qed.

Lemma prefix_app (pre s : string) : String.prefix pre (pre +:+ s) = true.
Proof.
  induction pre as [|c pre IH]; simpl; [by destruct s|].
  by destruct (ascii_dec c c).
Qed.

Lemma substring_all (s : string) : String.substring 0 (String.length s) s = s.
Proof. induction s as [|c s IH]; simpl; [done|]. by rewrite IH. Qed.

Lemma TrimPrefix_app (pre s : string) : TrimPrefix (pre +:+ s) pre = s.
Proof.
  unfold TrimPrefix. rewrite prefix_app.
  induction pre as [|c pre IH]; simpl.
  - rewrite Nat.sub_0_r. apply substring_all.
  - exact IH.
Qed.

Lemma list_ascii_of_string_app (s1 s2 : string) :
  list_ascii_of_string (s1 +:+ s2) = list_ascii_of_string s1 ++ list_ascii_of_string s2.
Proof. induction s1 as [|c s1 IH]; simpl; [done|]. by rewrite IH. Qed.

Lemma Split_first_field {A} `{EqDecision A} (sep : A) (field rest : list A) :
  sep ∉ field ->
  Split sep field = [field]
  /\ Split sep (field ++ sep :: rest) = field :: Split sep rest.
Proof.
  induction field as [|c field IH]; intros Hno; simpl.
  - by rewrite decide_True by done.
  - apply not_elem_of_cons in Hno as [Hc Hno]. destruct (IH Hno) as [-> ->].
    destruct (decide (c = sep)); [congruence|done].
Qed.

(** X25: the session id of a revoke request is the first field of the path
    after the prefix /v1/auth/sessions/ and ends at the next slash, if
    there is one.  A path that starts with a slash and does not have the
    prefix, such as the prefix without its last slash, has no session id;
    a request without a session id is answered with 400 and the service is
    not reached. *)
Theorem RevokeSession_session_id_of_path
    ctx claims request sessionID rest other (w : world) :
  "/"%char ∉ list_ascii_of_string sessionID ->
  String.prefix "/v1/auth/sessions/" (String "/"%char other) = false ->
  GetUserClaims ctx = Some claims ->
  sessionIDOfPath (Path request) = EmptyString ->
  sessionIDOfPath ("/v1/auth/sessions/" +:+ sessionID) = sessionID
  /\ sessionIDOfPath ("/v1/auth/sessions/" +:+ sessionID +:+ String "/"%char rest)
     = sessionID
  /\ sessionIDOfPath (String "/"%char other) = EmptyString
  /\ handlers.RevokeSession ctx request w
     = (errorResponse StatusBadRequest "session ID required",
        InfoCtx "Processing revoke session request" w).
Proof.
  intros Hno Hother Hclaims Hempty.
  destruct (Split_first_field "/"%char (list_ascii_of_string sessionID)
              (list_ascii_of_string rest) Hno) as [Hone Hmore].
  split_and!.
  - unfold sessionIDOfPath. rewrite TrimPrefix_app, Hone.
    apply string_of_list_ascii_of_string.
  - unfold sessionIDOfPath. rewrite TrimPrefix_app, list_ascii_of_string_app.
    simpl. rewrite Hmore. apply string_of_list_ascii_of_string.
  - unfold sessionIDOfPath, TrimPrefix. rewrite Hother. reflexivity.
  - unfold handlers.RevokeSession. rewrite Hclaims, Hempty. done.
Qed.

Local Ltac status_in :=
  repeat (case_match; simpl in *; try done);
  repeat (apply list_elem_of_here || apply list_elem_of_further).

(** X26: the status codes each handler can answer with.  Login alone can
    answer 403 and Register alone 409; Logout never answers 400;
    ForgotPassword and ResendVerification answer 200 or 400 and nothing
    else, so a failure of the service never shows. *)
Theorem handler_status_codes ctx request (w : world) :
  StatusCode (fst (handlers.Login cfg ctx request w))
    ∈ [StatusOK; StatusBadRequest; StatusUnauthorized; StatusForbidden;
       StatusInternalServerError]
  /\ StatusCode (fst (handlers.Register ctx request w))
     ∈ [StatusCreated; StatusBadRequest; StatusConflict; StatusInternalServerError]
  /\ StatusCode (fst (handlers.Logout ctx request w))
     ∈ [StatusOK; StatusUnauthorized; StatusInternalServerError]
  /\ StatusCode (fst (handlers.RefreshToken cfg ctx request w))
     ∈ [StatusOK; StatusBadRequest; StatusUnauthorized; StatusInternalServerError]
  /\ StatusCode (fst (handlers.ForgotPassword ctx request w))
     ∈ [StatusOK; StatusBadRequest]
  /\ StatusCode (fst (handlers.ResendVerification ctx request w))
     ∈ [StatusOK; StatusBadRequest]
  /\ StatusCode (fst (handlers.ResetPassword ctx request w))
     ∈ [StatusOK; StatusBadRequest; StatusInternalServerError]
  /\ StatusCode (fst (handlers.ChangePassword ctx request w))
     ∈ [StatusOK; StatusBadRequest; StatusUnauthorized; StatusInternalServerError]
  /\ StatusCode (fst (handlers.VerifyEmail ctx request w))
     ∈ [StatusOK; StatusBadRequest; StatusInternalServerError]
  /\ StatusCode (fst (handlers.GetCurrentUser ctx request w))
     ∈ [StatusOK; StatusUnauthorized; StatusInternalServerError]
  /\ StatusCode (fst (handlers.CreateAnonymousSession cfg ctx request w))
     ∈ [StatusCreated; StatusInternalServerError]
  /\ StatusCode (fst (handlers.GetUserSessions ctx request w))
     ∈ [StatusOK; StatusUnauthorized; StatusInternalServerError]
  /\ StatusCode (fst (handlers.RevokeSession ctx request w))
     ∈ [StatusOK; StatusBadRequest; StatusUnauthorized; StatusNotFound;
        StatusInternalServerError].
Proof.
  split_and!.
  - unfold handlers.Login. status_in.
  - unfold handlers.Register. status_in.
  - unfold handlers.Logout. status_in.
  - unfold handlers.RefreshToken. status_in.
  - unfold handlers.ForgotPassword. status_in.
  - unfold handlers.ResendVerification. status_in.
  - unfold handlers.ResetPassword. status_in.
  - unfold handlers.ChangePassword. status_in.
  - unfold handlers.VerifyEmail. status_in.
  - unfold handlers.GetCurrentUser. status_in.
  - unfold handlers.CreateAnonymousSession. status_in.
  - unfold handlers.GetUserSessions. status_in.
  - unfold handlers.RevokeSession. status_in.
Qed.

End HandlerFacts.

(** ** The router *)

Section RouterFacts.

Context {U S : Type} `{!UserRepository U} `{!SessionRepository S} `{!Bcrypt}
        `{!Validator}.
Variable cfg : Config.
Variable healthCheck : @middleware.Handler U S.

#[local] Abbreviation world := (World U S).
#[local] Abbreviation Handler := (@middleware.Handler U S).
#[local] Abbreviation route := (main.route cfg healthCheck).
#[local] Abbreviation notFound :=
  (mkResponse StatusNotFound jsonHeaders (ErrorData "endpoint not found")).

Local Ltac listed := repeat (apply list_elem_of_here || apply list_elem_of_further).

(** X27: the router lets no request reach a handler that reads the user
    claims without a token that verifies.  Every request is answered by
    one of the open handlers or the health check, or with 404, or with a
    401 that leaves the storage as it was, or by Logout, ChangePassword,
    GetCurrentUser, GetUserSessions or RevokeSession running with the claims
    of a verified token that has a subject. *)
Theorem route_authenticates ctx request (w : world) :
  let w1 := DebugCtx "Routing request" w in
  (exists h : Handler,
      h ∈ [handlers.Login cfg; handlers.Register; handlers.RefreshToken cfg;
           handlers.ForgotPassword; handlers.ResetPassword; handlers.VerifyEmail;
           handlers.ResendVerification; handlers.CreateAnonymousSession cfg;
           healthCheck]
      /\ route ctx request w = h ctx request w1)
  \/ route ctx request w = (notFound, w1)
  \/ (unauthorized (fst (route ctx request w))
      /\ same_storage w (snd (route ctx request w)))
  \/ (exists (h : Handler) t,
        h ∈ [handlers.Logout; handlers.ChangePassword; handlers.GetCurrentUser;
             handlers.GetUserSessions; handlers.RevokeSession]
        /\ Split (Ch " "%char) (authorization request) = [lit "Bearer"; [Jws t]]
        /\ verifies cfg (ctx_now ctx) t
        /\ UserClaims_UserID (claims_in t) <> EmptyString
        /\ route ctx request w = h (WithUserClaims ctx (claims_in t)) request w1).
Proof.
  intros w1.
  assert (forall h : Handler,
             h ∈ [handlers.Logout; handlers.ChangePassword; handlers.GetCurrentUser;
                  handlers.GetUserSessions; handlers.RevokeSession] ->
             (unauthorized (fst (AuthMiddleware cfg h ctx request w1))
              /\ same_storage w (snd (AuthMiddleware cfg h ctx request w1)))
             \/ (exists (h' : Handler) t,
                   h' ∈ [handlers.Logout; handlers.ChangePassword;
                         handlers.GetCurrentUser; handlers.GetUserSessions;
                         handlers.RevokeSession]
                   /\ Split (Ch " "%char) (authorization request) = [lit "Bearer"; [Jws t]]
                   /\ verifies cfg (ctx_now ctx) t
                   /\ UserClaims_UserID (claims_in t) <> EmptyString
                   /\ AuthMiddleware cfg h ctx request w1
                      = h' (WithUserClaims ctx (claims_in t)) request w1)) as Hguard.
  { intros h Hh.
    destruct (AuthMiddleware_cases cfg ctx request w1)
      as [(response & w' & Hun & Hsame & Hall)|(t & Hsplit & Hver & Hsub & Hall)].
    - left. rewrite Hall. simpl. split; [done|]. exact Hsame.
    - right. exists h, t. split_and!; done. }
  unfold main.route. fold w1.
  repeat case_match;
    try (by left; eexists; split; [|reflexivity]; listed);
    try (by right; left);
    right; right; apply Hguard; listed.
Qed.

(** X28: the routing function inside createRouter, which runs behind the
    CORS, logging and rate limit middlewares, chooses the session routes by
    a prefix of the path.  Every GET that reaches it and whose path, after
    /v1/auth, begins with /sessions goes to the session list, whatever
    follows; a DELETE on /sessions/id that comes without the prefix
    /v1/auth is given to RevokeSession, which looks for the id after the
    full prefix, finds none and revokes nothing: the answer is 401 or 400.
    A request that reaches the routing function with a method other than
    GET, POST and DELETE (PUT, PATCH, HEAD) is answered by it with 404.
    (An OPTIONS request is answered by the CORS middleware and does not
    reach the routing function.) *)
Theorem route_sessions ctx listing rest revoking id other (w : world) :
  HTTPMethod listing = "GET" ->
  TrimPrefix (Path listing) "/v1/auth" = "/sessions" +:+ rest ->
  HTTPMethod revoking = "DELETE" ->
  Path revoking = "/sessions/" +:+ id ->
  HTTPMethod other ∉ ["GET"; "POST"; "DELETE"] ->
  let w1 := DebugCtx "Routing request" w in
  route ctx listing w = AuthMiddleware cfg handlers.GetUserSessions ctx listing w1
  /\ route ctx revoking w = AuthMiddleware cfg handlers.RevokeSession ctx revoking w1
  /\ StatusCode (fst (route ctx revoking w)) ∈ [StatusUnauthorized; StatusBadRequest]
  /\ same_storage w (snd (route ctx revoking w))
  /\ route ctx other w = (notFound, w1).
Proof.
  intros Hget Hlisting Hdelete Hrevoking Hother w1.
  assert (route ctx revoking w
          = AuthMiddleware cfg handlers.RevokeSession ctx revoking w1) as Hroute.
  { unfold main.route. rewrite Hdelete, Hrevoking.
    rewrite !(bool_decide_eq_false_2 ("DELETE" = "POST")) by done.
    rewrite !(bool_decide_eq_false_2 ("DELETE" = "GET")) by done.
    rewrite !andb_false_r.
    assert (TrimPrefix ("/sessions/" +:+ id) "/v1/auth" = "/sessions/" +:+ id) as ->
      by reflexivity.
    by rewrite prefix_app, bool_decide_eq_true_2. }
  split_and!.
  - unfold main.route. rewrite Hget, Hlisting.
    rewrite !(bool_decide_eq_false_2 ("GET" = "POST")) by done.
    rewrite !andb_false_r.
    rewrite (bool_decide_eq_false_2 ("/sessions" +:+ rest = "/me")) by done.
    rewrite (bool_decide_eq_false_2 ("/sessions" +:+ rest = "/health")) by done.
    by rewrite prefix_app, bool_decide_eq_true_2.
  - exact Hroute.
  - rewrite Hroute.
    destruct (AuthMiddleware_cases cfg ctx revoking w1)
      as [(response & w' & [Hun _] & _ & Hall)|(t & _ & _ & _ & Hall)];
      rewrite Hall.
    + simpl. rewrite Hun. listed.
    + unfold handlers.RevokeSession. rewrite Hrevoking. simpl. listed.
  - rewrite Hroute.
    destruct (AuthMiddleware_cases cfg ctx revoking w1)
      as [(response & w' & _ & Hsame & Hall)|(t & _ & _ & _ & Hall)];
      rewrite Hall.
    + exact Hsame.
    + unfold handlers.RevokeSession. rewrite Hrevoking. done.
  - unfold main.route. fold w1.
    assert (bool_decide (HTTPMethod other = "POST") = false) as ->.
    { apply bool_decide_eq_false. intros He. apply Hother. rewrite He. listed. }
    assert (bool_decide (HTTPMethod other = "GET") = false) as ->.
    { apply bool_decide_eq_false. intros He. apply Hother. rewrite He. listed. }
    assert (bool_decide (HTTPMethod other = "DELETE") = false) as ->.
    { apply bool_decide_eq_false. intros He. apply Hother. rewrite He. listed. }
    by rewrite !andb_false_r.
Qed.

End RouterFacts.

(** ** The logger wrappers *)

Section LoggerFacts.

Import logger.

(** X29: the ids of a context reach the zap logger as fields in a fixed
    order, correlation id, user id, request id, not in the order in which
    they were put into the context; an id that is set to the empty string
    hides the value set before it, and its field is left out. *)
Theorem WithContext_binds_ids (zap : Logger) ctx correlationID userID requestID :
  correlationID <> EmptyString ->
  userID <> EmptyString ->
  requestID <> EmptyString ->
  let ctx' :=
    WithRequestID (WithCorrelationID (WithUserID ctx userID) correlationID) requestID in
  WithContext (Some zap) ctx'
    = Returns (zap ++ [("correlation_id", StringValue correlationID);
                       ("user_id", StringValue userID);
                       ("request_id", StringValue requestID)])
  /\ WithContext (Some zap) (WithUserID ctx' EmptyString)
     = Returns (zap ++ [("correlation_id", StringValue correlationID);
                        ("request_id", StringValue requestID)]).
Proof.
  intros Hc Hu Hr ctx'. unfold WithContext, With. subst ctx'.
  unfold getCorrelationID, getUserID, getRequestID, WithRequestID, WithCorrelationID,
    WithUserID. simpl.
  rewrite !bool_decide_false by done. simpl.
  by rewrite <- !app_assoc.
Qed.

(** X30: before the logger is initialised the plain wrappers do nothing,
    while every wrapper that takes a context panics, whatever it is asked
    to log. *)
Theorem uninitialised_logger lvl ctx msg fields err method path status duration
    operation table dberr eventType source eberr :
  log None lvl msg fields = []
  /\ Forall (fun o : outcome (list Call) =>
               o = Panics "logger not initialized - call logger.Initialize() first")
            [logCtx None lvl ctx msg fields;
             LogError None ctx err msg fields;
             LogRequest None ctx method path status duration fields;
             LogDatabaseOperation None ctx operation table duration dberr fields;
             LogEventBridge None ctx eventType source eberr fields].
Proof.
  split; [done|].
  repeat (apply Forall_cons_2 || apply Forall_nil_2); try done.
  - by destruct dberr.
  - by destruct eberr.
Qed.

End LoggerFacts.

(** ** The service over the storage layer *)

Import memory.

Section StorageFacts.

Local Ltac unfold_storage :=
  unfold VerifyPasswordResetToken, MarkPasswordResetTokenUsed, UpdatePassword,
    VerifyEmailToken, MarkEmailTokenUsed, MarkUserVerified, UpdateLastLogin,
    GetPasswordHash, GetUserByEmail, repositories.GetUser, CreateUser,
    CreateSession, GetSession, DeactivateUserSessions, DeactivateSession,
    users_repository, sessions_repository, write, read in *.

Lemma VerifyPasswordResetToken_Ok ctx token r userID :
  VerifyPasswordResetToken ctx token r = Ok userID ->
  down OpVerifyPasswordResetToken (users_down r) = false
  /\ exists t, reset_tokens r !! token = Some t /\ PasswordResetToken_UserID t = userID.
Proof.
  unfold_storage. destruct (down _ _); [done|].
  destruct (reset_tokens r !! token) as [t|]; [|done].
  destruct (PasswordResetToken_Used t); [done|].
  case_bool_decide; [|done]. intros [= <-]. eauto.
Qed.

Lemma VerifyPasswordResetToken_used ctx token r t :
  down OpVerifyPasswordResetToken (users_down r) = false ->
  reset_tokens r !! token = Some t ->
  PasswordResetToken_Used t = true ->
  VerifyPasswordResetToken ctx token r = Err ErrTokenNotFound.
Proof. intros Hd Ht Hu. unfold_storage. by rewrite Hd, Ht, Hu. Qed.

Lemma UpdatePassword_frame ctx userID passwordHash r e r' :
  UpdatePassword ctx userID passwordHash r = (e, r') ->
  reset_tokens r' = reset_tokens r /\ email_tokens r' = email_tokens r
  /\ users_down r' = users_down r.
Proof.
  unfold_storage. destruct (down _ _); [by intros [= <- <-]|].
  destruct (users r !! userID) as [[user h]|]; by intros [= <- <-].
Qed.

Lemma MarkPasswordResetTokenUsed_None ctx token r r' :
  MarkPasswordResetTokenUsed ctx token r = (None, r') ->
  users_down r' = users_down r
  /\ exists t, reset_tokens r' !! token = Some t /\ PasswordResetToken_Used t = true.
Proof.
  unfold_storage. destruct (down _ _); [done|].
  destruct (reset_tokens r !! token) as [t|]; [|done].
  intros [= <-]. split; [done|]. exists (reset_token_used t). simpl.
  by rewrite lookup_insert_eq.
Qed.

Lemma VerifyEmailToken_Ok ctx token r userID :
  VerifyEmailToken ctx token r = Ok userID ->
  down OpVerifyEmailToken (users_down r) = false.
Proof. unfold_storage. by destruct (down _ _). Qed.

Lemma VerifyEmailToken_used ctx token r t :
  down OpVerifyEmailToken (users_down r) = false ->
  email_tokens r !! token = Some t ->
  EmailVerificationToken_Used t = true ->
  VerifyEmailToken ctx token r = Err ErrTokenNotFound.
Proof. intros Hd Ht Hu. unfold_storage. by rewrite Hd, Ht, Hu. Qed.

Lemma MarkUserVerified_frame ctx userID r e r' :
  MarkUserVerified ctx userID r = (e, r') ->
  users_down r' = users_down r.
Proof.
  unfold_storage. destruct (down _ _); [by intros [= <- <-]|].
  destruct (users r !! userID) as [[user h]|]; by intros [= <- <-].
Qed.

Lemma MarkEmailTokenUsed_None ctx token r r' :
  MarkEmailTokenUsed ctx token r = (None, r') ->
  users_down r' = users_down r
  /\ exists t, email_tokens r' !! token = Some t /\ EmailVerificationToken_Used t = true.
Proof.
  unfold_storage. destruct (down _ _); [done|].
  destruct (email_tokens r !! token) as [t|]; [|done].
  intros [= <-]. split; [done|]. exists (email_token_used t). simpl.
  by rewrite lookup_insert_eq.
Qed.

Lemma DeactivateUserSessions_None ctx userID r r' :
  DeactivateUserSessions ctx userID r = (None, r') ->
  sessions r' = deactivate_of userID <$> sessions r
  /\ sessions_down r' = sessions_down r.
Proof. unfold_storage. destruct (down _ _); [done|]. by intros [= <-]. Qed.

Lemma GetSession_Ok ctx sessionID r session :
  GetSession ctx sessionID r = Ok session ->
  down OpGetSession (sessions_down r) = false /\ sessions r !! sessionID = Some session.
Proof.
  unfold_storage. destruct (down _ _); [done|].
  destruct (sessions r !! sessionID); [|done]. by intros [= <-].
Qed.

Lemma GetSession_up ctx sessionID r session :
  down OpGetSession (sessions_down r) = false ->
  sessions r !! sessionID = Some session ->
  GetSession ctx sessionID r = Ok session.
Proof. intros Hd Hs. unfold_storage. by rewrite Hd, Hs. Qed.

Lemma CreateSession_up ctx session r :
  down OpCreateSession (sessions_down r) = false ->
  CreateSession ctx session r
  = (None, set_session_rows (<[Session_ID session := session]> (sessions r)) r).
Proof. intros Hd. unfold_storage. by rewrite Hd. Qed.

Lemma GetUserByEmail_Ok ctx email r user :
  GetUserByEmail ctx email r = Ok user ->
  exists k passwordHash, users r !! k = Some (user, passwordHash).
Proof.
  unfold_storage. destruct (down _ _); [done|].
  destruct (list_find _ _) as [[i [k [u h]]]|] eqn:Hfind; [|done].
  intros [= <-]. apply list_find_Some in Hfind as (Hi & _ & _).
  exists k, h. apply elem_of_map_to_list. by eapply list_elem_of_lookup_2.
Qed.

Lemma GetPasswordHash_Ok ctx userID r passwordHash :
  GetPasswordHash ctx userID r = Ok passwordHash ->
  exists user, users r !! userID = Some (user, passwordHash).
Proof.
  unfold_storage. destruct (down _ _); [done|].
  destruct (users r !! userID) as [[user h]|]; [|done]. intros [= <-]. eauto.
Qed.

Lemma UpdateLastLogin_lookup ctx userID loginTime r e r' user passwordHash :
  UpdateLastLogin ctx userID loginTime r = (e, r') ->
  users r !! userID = Some (user, passwordHash) ->
  users_down r' = users_down r
  /\ exists user', users r' !! userID = Some (user', passwordHash)
                  /\ User_IsActive user' = User_IsActive user
                  /\ User_ID user' = User_ID user.
Proof.
  intros Hup Hrow. unfold_storage. destruct (down _ _).
  { injection Hup as <- <-. eauto. }
  rewrite Hrow in Hup. injection Hup as <- <-. split; [done|].
  exists (with_LastLoginAt loginTime user). simpl. by rewrite lookup_insert_eq.
Qed.

Lemma GetUser_up ctx userID r user passwordHash :
  down OpGetUser (users_down r) = false ->
  users r !! userID = Some (user, passwordHash) ->
  repositories.GetUser ctx userID r = Ok user.
Proof. intros Hd Hrow. unfold_storage. by rewrite Hd, Hrow. Qed.

Lemma CreateUser_keyed_by_id ctx user passwordHash r e r' :
  CreateUser ctx user passwordHash r = (e, r') ->
  keyed_by_id r -> keyed_by_id r'.
Proof.
  unfold_storage. destruct (down _ _); intros [= <- <-]; [done|].
  intros Hk. by apply map_Forall_insert_2.
Qed.

Lemma UpdatePassword_rows ctx userID passwordHash r r' :
  UpdatePassword ctx userID passwordHash r = (None, r') ->
  exists user oldHash,
    users r !! userID = Some (user, oldHash)
    /\ users r' = <[userID := (user, passwordHash)]> (users r).
Proof.
  unfold_storage. destruct (down _ _); [done|].
  destruct (users r !! userID) as [[user h]|]; [|done]. intros [= <-]. eauto.
Qed.

End StorageFacts.

Section ServiceOnStorage.

Context `{!Bcrypt}.
Variable cfg : Config.

#[local] Abbreviation world := (World Users Sessions).

#[local] Arguments VerifyPasswordResetToken : simpl never.
#[local] Arguments MarkPasswordResetTokenUsed : simpl never.
#[local] Arguments UpdatePassword : simpl never.
#[local] Arguments VerifyEmailToken : simpl never.
#[local] Arguments MarkEmailTokenUsed : simpl never.
#[local] Arguments MarkUserVerified : simpl never.
#[local] Arguments UpdateLastLogin : simpl never.
#[local] Arguments GetPasswordHash : simpl never.
#[local] Arguments GetUserByEmail : simpl never.
#[local] Arguments repositories.GetUser : simpl never.
#[local] Arguments CreateSession : simpl never.
#[local] Arguments GetSession : simpl never.
#[local] Arguments DeactivateUserSessions : simpl never.
#[local] Arguments DeactivateSession : simpl never.

(** The log of a run, read off the nesting of the logging calls. *)
Local Ltac log_facts :=
  unfold logged_since in *; simpl in *;
  rewrite <- ?app_assoc in *; rewrite ?drop_app_length in *; simpl in *.

(** C5, as the code has it: a reset token, and likewise a verification
    token, that has been consumed by a successful call which logged no
    failure to mark it used, is refused when it is presented again,
    whatever the clock shows: with InvalidToken when the lookup of the
    token is in service at the second call, with the failure of the lookup
    when it is not.  What is out of service at the second call is
    independent of the first call. *)
Theorem consumed_token_is_invalid :
  (forall ctx resetToken newPassword (w w' : world) du ds ctx' newPassword',
     services.ResetPassword ctx resetToken newPassword w = (None, w') ->
     (WarnLevel, "Failed to mark reset token as used") ∉ logged_since w w' ->
     fst (services.ResetPassword ctx' resetToken newPassword' (outage du ds w'))
     = Some (if down OpVerifyPasswordResetToken du
             then Errorf "failed to verify reset token" ErrStorage
             else services.ErrInvalidToken))
  /\ (forall ctx emailToken (w w' : world) du ds ctx',
        services.VerifyEmail ctx emailToken w = (None, w') ->
        (WarnLevel, "Failed to mark email token as used") ∉ logged_since w w' ->
        fst (services.VerifyEmail ctx' emailToken (outage du ds w'))
        = Some (if down OpVerifyEmailToken du
                then Errorf "failed to verify email token" ErrStorage
                else services.ErrInvalidToken)).
Proof.
  split.
  - intros ctx1 resetToken newPassword w1 w1' du ds ctx1' newPassword' Hreset Hlog1.
    unfold services.ResetPassword in Hreset.
    destruct (VerifyPasswordResetToken ctx1 resetToken _) as [userID|e] eqn:Hv;
      [|by destruct (_ || _)].
    destruct (services.hashPassword newPassword) as [passwordHash|]; [|done].
    destruct (UpdatePassword _ _ _ _) as [[e|] u1] eqn:Hu; [done|].
    simpl in *.
    destruct (MarkPasswordResetTokenUsed _ _ _) as [[e|] u2] eqn:Hm.
    { destruct (DeactivateUserSessions _ _ _) as [[e'|] s']; simpl in *;
        injection Hreset as <-; log_facts; set_solver. }
    apply MarkPasswordResetTokenUsed_None in Hm as (_ & t & Ht & Hused).
    assert (w_users w1' = u2) as Hw.
    { destruct (DeactivateUserSessions _ _ _) as [[e'|] s']; simpl in *;
        by injection Hreset as <-. }
    unfold services.ResetPassword, outage. simpl. rewrite Hw.
    unfold VerifyPasswordResetToken, users_repository, read. simpl.
    destruct (down OpVerifyPasswordResetToken du); [done|].
    by rewrite Ht, Hused.
  - intros ctx2 emailToken w2 w2' du ds ctx2' Hverify Hlog2.
    unfold services.VerifyEmail in Hverify.
    destruct (VerifyEmailToken ctx2 emailToken _) as [userID|e] eqn:Hv;
      [|by destruct (_ || _)].
    destruct (MarkUserVerified _ _ _) as [[e|] u1] eqn:Hu; [done|].
    simpl in *.
    destruct (MarkEmailTokenUsed _ _ _) as [[e|] u2] eqn:Hm.
    { injection Hverify as <-. log_facts. set_solver. }
    apply MarkEmailTokenUsed_None in Hm as (_ & t & Ht & Hused).
    injection Hverify as <-.
    unfold services.VerifyEmail, outage. simpl.
    unfold VerifyEmailToken, users_repository, read. simpl.
    destruct (down OpVerifyEmailToken du); [done|].
    by rewrite Ht, Hused.
Qed.


(** C8, as the code has it: for a registered, active and verified user
    whose password verifies, on a storage that keeps each user under its id
    and can store the session, the login succeeds; and the refresh token
    it returns, sent back before it expires (seven days after the login)
    while the lookups of the user and of the session are in service, is
    answered with the access token and the refresh token that the service
    issues at the time of the refresh for the user record as it is stored
    then and for the session the login created.  The refresh writes
    nothing, and its refresh token differs from the one presented exactly
    when the clock has moved on since the login.  What is out of service at
    the refresh is independent of the login. *)
Theorem Login_then_RefreshToken ctx ctx' req (w : world) user du ds :
  keyed_by_id (w_users w) ->
  GetUserByEmail ctx (LoginRequest_Email req) (w_users w) = Ok user ->
  User_IsActive user = true ->
  User_IsVerified user = true ->
  services.verifyPassword ctx (User_ID user) (LoginRequest_Password req) w = None ->
  User_ID user <> EmptyString ->
  ctx_uuid ctx <> EmptyString ->
  down OpCreateSession (sessions_down (w_sessions w)) = false ->
  down OpGetUser du = false ->
  down OpGetSession ds = false ->
  ctx_now ctx' < ctx_now ctx + DefaultRefreshDuration ->
  exists login w1 session user' accessToken refreshToken,
    services.Login cfg ctx req w = (Ok login, w1)
    /\ sessions (w_sessions w1) !! ctx_uuid ctx = Some session
    /\ Session_UserID session = User_ID user
    /\ session_of (models.RefreshToken login) = ctx_uuid ctx
    /\ repositories.GetUser ctx' (User_ID user) (w_users (outage du ds w1)) = Ok user'
    /\ services.generateAccessToken cfg ctx' user' (ctx_uuid ctx) = Ok accessToken
    /\ services.generateRefreshToken cfg ctx' (User_ID user) (ctx_uuid ctx)
       = Ok refreshToken
    /\ services.RefreshToken cfg ctx' (models.RefreshToken login) (outage du ds w1)
       = (Ok (mkAuthResponse accessToken refreshToken DefaultSessionDuration
                             (SanitizeUser user')),
          InfoCtx "Token refresh successful"
            (DebugCtx "Attempting to refresh token" (outage du ds w1)))
    /\ type_of accessToken = TokenTypeAccess
    /\ type_of refreshToken = TokenTypeRefresh
    /\ subject_of accessToken = User_ID user
    /\ subject_of refreshToken = User_ID user
    /\ session_of accessToken = ctx_uuid ctx
    /\ session_of refreshToken = ctx_uuid ctx
    /\ (refreshToken <> models.RefreshToken login <-> ctx_now ctx' <> ctx_now ctx).
Proof.
  intros Hwf Hget Hactive Hverified Hpw Hid Huuid Hcreate Hgetuser Hgetsess Hfresh.
  destruct (GetUserByEmail_Ok _ _ _ _ Hget) as (k & h & Hrow).
  pose proof (Hwf _ _ Hrow) as Hk. simpl in Hk. subst k.
  destruct (UpdateLastLogin ctx (User_ID user) (ctx_now ctx) (w_users w))
    as [e u1] eqn:Hlast.
  destruct (UpdateLastLogin_lookup _ _ _ _ _ _ _ _ Hlast Hrow)
    as (_ & user' & Hrow' & Hactive' & Hid').
  set (session := mkSession (ctx_uuid ctx) (User_ID user) EmptyString (LoginRequest_DeviceID req)
                            EmptyString EmptyString (ctx_now ctx) (ctx_now ctx + DefaultRefreshDuration) true).
  set (s1 := set_session_rows (<[ctx_uuid ctx := session]> (sessions (w_sessions w)))
                              (w_sessions w)).
  set (w1 := InfoCtx "User login successful"
               (match e with
                | Some _ => WarnCtx "Failed to update last login time"
                | None => fun w => w
                end (set_users u1 (set_sessions s1
                       (DebugCtx "Attempting to login user" w))))).
  set (login := mkAuthResponse
                  [Jws (mkToken HS256 (services.accessClaims ctx user (ctx_uuid ctx))
                                (JWTSecret cfg))]
                  [Jws (mkToken HS256
                                (services.refreshClaims ctx (User_ID user) (ctx_uuid ctx))
                                (JWTSecret cfg))]
                  DefaultSessionDuration (SanitizeUser user)).
  assert (services.Login cfg ctx req w = (Ok login, w1)) as Hlogin.
  { unfold services.Login. simpl. rewrite Hget, Hactive, Hverified. simpl.
    rewrite verifyPassword_logCtx, Hpw.
    unfold services.createSession. simpl.
    rewrite CreateSession_up by done. simpl.
    rewrite Hlast. subst w1 login. destruct e; reflexivity. }
  assert (w_sessions w1 = s1) as Hs1 by (by subst w1; destruct e).
  assert (w_users w1 = u1) as Hu1 by (by subst w1; destruct e).
  clearbody w1.
  assert (repositories.GetUser ctx' (User_ID user) (w_users (outage du ds w1)) = Ok user')
    as Huser'.
  { apply (GetUser_up ctx' _ _ user' h); [done|]. simpl. by rewrite Hu1. }
  assert (GetSession ctx' (ctx_uuid ctx) (w_sessions (outage du ds w1)) = Ok session)
    as Hsession'.
  { apply GetSession_up; [done|]. simpl. rewrite Hs1. apply lookup_insert_eq. }
  exists login, w1, session, user',
    [Jws (mkToken HS256 (services.accessClaims ctx' user' (ctx_uuid ctx)) (JWTSecret cfg))],
    [Jws (mkToken HS256 (services.refreshClaims ctx' (User_ID user) (ctx_uuid ctx))
                  (JWTSecret cfg))].
  split_and!; try done.
  - by rewrite Hs1; apply lookup_insert_eq.
  - revert Huser' Hsession'. generalize (outage du ds w1). intros w1' Huser' Hsession'.
    unfold services.RefreshToken. subst login. simpl.
    rewrite parseRefreshToken_generated by done. simpl.
    rewrite Huser', Hactive', Hactive. simpl. rewrite Hsession'.
    simpl. unfold Session_IsExpired. simpl.
    rewrite bool_decide_false by lia.
    by rewrite Hid'.
  - subst login. simpl. split.
    + intros Hne Hnow. apply Hne. unfold services.refreshClaims. by rewrite Hnow.
    + intros Hnow Heq. apply Hnow.
      apply (f_equal (fun t : text => claims_of t !! "iat")) in Heq.
      change (services.refreshClaims ctx' (User_ID user) (ctx_uuid ctx) !! "iat"
              = services.refreshClaims ctx (User_ID user) (ctx_uuid ctx) !! "iat") in Heq.
      unfold services.refreshClaims in Heq.
      rewrite !(lookup_insert_ne _ _ "iat"), !lookup_insert_eq in Heq by done.
      by injection Heq.
Qed.

(** On the storage layer, a successful password change rewrites the
    password hash of that user; the user record and every other row stay. *)
Lemma ChangePassword_on_storage
    ctx userID currentPassword newPassword (w w' : world) :
  services.ChangePassword ctx userID currentPassword newPassword w = (None, w') ->
  w_sessions w' = w_sessions w
  /\ reset_tokens (w_users w') = reset_tokens (w_users w)
  /\ email_tokens (w_users w') = email_tokens (w_users w)
  /\ exists user oldHash passwordHash,
       users (w_users w) !! userID = Some (user, oldHash)
       /\ users (w_users w') = <[userID := (user, passwordHash)]> (users (w_users w)).
Proof.
  unfold services.ChangePassword.
  destruct (services.verifyPassword _ _ _ _); [done|].
  destruct (services.hashPassword newPassword) as [passwordHash|]; [|done].
  simpl. destruct (UpdatePassword ctx _ _ _) as [[e|] u] eqn:Hup; [done|].
  intros [= <-]. simpl.
  destruct (UpdatePassword_frame _ _ _ _ _ _ Hup) as (Hr & He & _).
  destruct (UpdatePassword_rows _ _ _ _ _ Hup) as (user & oldHash & Hrow & Hrows).
  repeat split; try done. eauto.
Qed.

(** On the storage layer, the logout with a body that is not JSON leaves
    no session of the requesting user active. *)
Lemma Logout_malformed_body_on_storage
    ctx request claims (w : world) sessionID session :
  GetUserClaims ctx = Some claims ->
  Request_Body request = Malformed ->
  down OpDeactivateUserSessions (sessions_down (w_sessions w)) = false ->
  sessions (w_sessions (snd (handlers.Logout ctx request w))) !! sessionID = Some session ->
  Session_UserID session = UserClaims_UserID claims ->
  Session_IsActive session = false.
Proof.
  intros Hclaims Hbody Hup. unfold handlers.Logout. rewrite Hclaims, Hbody. simpl.
  unfold services.Logout. simpl.
  destruct (DeactivateUserSessions ctx _ _) as [[e|] s'] eqn:Hd.
  { revert Hd. unfold DeactivateUserSessions, sessions_repository, write.
    by rewrite Hup. }
  apply DeactivateUserSessions_None in Hd as [Hrows _]. simpl.
  rewrite Hrows, lookup_fmap. intros Hrow Hown.
  destruct (sessions (w_sessions w) !! sessionID) as [s0|]; [|done].
  simpl in Hrow. injection Hrow as <-. unfold deactivate_of in *.
  case_bool_decide; [done|]. simpl in Hown. congruence.
Qed.

End ServiceOnStorage.

(** ** The operations on the example storage *)

Import scenario.

Local Ltac run := vm_compute; reflexivity.
Local Ltac decide_it :=
  match goal with |- ?P => refine (@bool_decide_eq_true_1 P _ _) end;
  vm_compute; reflexivity.

Lemma users0_keyed_by_id down : keyed_by_id (users0 down).
Proof.
  unfold keyed_by_id, users0. simpl.
  repeat (apply map_Forall_insert_2; [reflexivity|]). apply map_Forall_empty.
Qed.

(** C1 (the bearer-token check): the refresh token that a login hands out,
    sent as the bearer token of a protected route, is not rejected.  The
    check calls the protected handler with the claims of the token's
    subject, although the token's type claim is refresh. *)
Theorem AuthMiddleware_passes_refresh_token (next : @Handler memory.Users memory.Sessions) :
  let login :=
    services.Login cfg (at_time 1000)
      alice_login world0 in
  let refresh := issued_refresh (fst login) in
  let request := bearer_request "POST" "/v1/auth/logout" refresh in
  type_of refresh = TokenTypeRefresh
  /\ AuthMiddleware cfg next (at_time 1060) request (snd login)
     = next (WithUserClaims (at_time 1060) (mkUserClaims "u-alice" EmptyString []))
            request (snd login).
Proof. vm_compute. split; reflexivity. Qed.

Lemma RefreshToken_failure_cases_witness :
  fst (services.RefreshToken cfg (at_time 2000)
         (refresh_token_at 1000 "u-ghost" "s-ghost") world0)
    = Err services.ErrInvalidToken
  /\ fst (services.RefreshToken cfg (at_time 2000)
            (refresh_token_at 1000 "u-carol" "s-carol-1") world0)
     = Err services.ErrUserDisabled
  /\ fst (services.RefreshToken cfg (at_time 700000)
            (refresh_token_at 600000 "u-alice" "s-alice-1") world0)
     = Err services.ErrTokenExpired.
Proof.
  split_and!.
  - apply (proj1 (RefreshToken_failure_cases cfg (at_time 2000)
                    (refresh_token_at 1000 "u-ghost" "s-ghost")
                    (mkTokenClaims "u-ghost" EmptyString EmptyString [] "s-ghost" 0 0)
                    world0 eq_refl)).
    run.
  - apply (proj1 (proj2 (RefreshToken_failure_cases cfg (at_time 2000)
                           (refresh_token_at 1000 "u-carol" "s-carol-1")
                           (mkTokenClaims "u-carol" EmptyString EmptyString []
                                          "s-carol-1" 0 0)
                           world0 eq_refl)) carol); run.
  - apply (proj2 (proj2 (RefreshToken_failure_cases cfg (at_time 700000)
                           (refresh_token_at 600000 "u-alice" "s-alice-1")
                           (mkTokenClaims "u-alice" EmptyString EmptyString []
                                          "s-alice-1" 0 0)
                           world0 eq_refl)) alice alice_session); try run.
    right. run.
Defined.

(** C2 as it is stated fails: for a user with IsActive false the refresh
    operation returns UserDisabled, not InvalidToken, and the handler
    answers 500; it does so also when the session has expired, the user
    being looked at first. *)
Lemma RefreshToken_disabled_user_is_not_InvalidToken :
  let token := refresh_token_at 1000 "u-carol" "s-carol-1" in
  let request :=
    mkRequest "POST" "/v1/auth/refresh" ∅ (Object [("refresh_token", JStr token)]) in
  services.parseRefreshToken cfg (at_time 2000) token
    = Ok (mkTokenClaims "u-carol" EmptyString EmptyString [] "s-carol-1" 0 0)
  /\ repositories.GetUser (at_time 2000) "u-carol" (w_users world0) = Ok carol
  /\ User_IsActive carol = false
  /\ fst (services.RefreshToken cfg (at_time 2000) token world0)
     = Err services.ErrUserDisabled
  /\ fst (services.RefreshToken cfg (at_time 2000) token world0)
     <> Err services.ErrInvalidToken
  /\ StatusCode (fst (handlers.RefreshToken cfg (at_time 2000) request world0))
     = StatusInternalServerError
  /\ Session_IsExpired 700000 carol_session = true
  /\ fst (services.RefreshToken cfg (at_time 700000)
            (refresh_token_at 600000 "u-carol" "s-carol-1") world0)
     = Err services.ErrUserDisabled.
Proof. repeat split; try run. by vm_compute. Qed.



(** *** C4 *)

Lemma Login_wrong_password_like_unknown_email_witness :
  services.Login cfg (at_time 2000)
    (mkLoginRequest "alice@example.com" "not-her-password" "laptop") world0
    = (Err services.ErrInvalidCredentials, DebugCtx "Attempting to login user" world0)
  /\ services.Login cfg (at_time 2000)
       (mkLoginRequest "mallory@example.com" "Secret123!" "laptop") world0
     = services.Login cfg (at_time 2000)
         (mkLoginRequest "alice@example.com" "not-her-password" "laptop") world0.
Proof.
  apply Login_wrong_password_like_unknown_email
    with (user := alice)
         (err := Errorf "password verification failed"
                   (Foreign "crypto/bcrypt: hashedPassword is not the hash of the given password"));
    run.
Defined.

(** C4 as it is stated fails: for a registered address whose owner has not
    verified it, a wrong password is answered with UserNotVerified (and for
    a disabled account with UserDisabled), and an unknown address with
    InvalidCredentials. *)
Lemma Login_unverified_user_differs_from_unknown_email :
  let known := mkLoginRequest "bob@example.com" "not-his-password" "phone" in
  let unknown := mkLoginRequest "mallory@example.com" "not-his-password" "phone" in
  GetUserByEmail (at_time 2000) "bob@example.com" (w_users world0) = Ok bob
  /\ is_Some (services.verifyPassword (at_time 2000) "u-bob" "not-his-password" world0)
  /\ GetUserByEmail (at_time 2000) "mallory@example.com" (w_users world0)
     = Err repositories.ErrUserNotFound
  /\ fst (services.Login cfg (at_time 2000) known world0) = Err services.ErrUserNotVerified
  /\ fst (services.Login cfg (at_time 2000) unknown world0)
     = Err services.ErrInvalidCredentials
  /\ fst (services.Login cfg (at_time 2000) known world0)
     <> fst (services.Login cfg (at_time 2000) unknown world0)
  /\ fst (services.Login cfg (at_time 2000)
            (mkLoginRequest "carol@example.com" "not-her-password" "phone") world0)
     = Err services.ErrUserDisabled.
Proof. repeat split; try run; [by vm_compute; eexists | by vm_compute]. Qed.

Lemma consumed_token_is_invalid_witness :
  let reset1 :=
    services.ResetPassword (at_time 2000) "reset-token-1" "NewSecret456!" world0 in
  let verify1 := services.VerifyEmail (at_time 4000) "verify-token-1" world0 in
  fst (services.ResetPassword (at_time 2100) "reset-token-1" "Another789!"
         (outage [OpUpdatePassword] [] (snd reset1)))
    = Some services.ErrInvalidToken
  /\ fst (services.ResetPassword (at_time 2100) "reset-token-1" "Another789!"
            (outage [OpVerifyPasswordResetToken] [] (snd reset1)))
     = Some (Errorf "failed to verify reset token" ErrStorage)
  /\ fst (services.VerifyEmail (at_time 4100) "verify-token-1"
            (outage [] [OpGetSession] (snd verify1)))
     = Some services.ErrInvalidToken
  /\ fst (services.VerifyEmail (at_time 4100) "verify-token-1"
            (outage [OpVerifyEmailToken] [] (snd verify1)))
     = Some (Errorf "failed to verify email token" ErrStorage).
Proof.
  intros reset1 verify1. split_and!.
  - rewrite (proj1 consumed_token_is_invalid (at_time 2000) "reset-token-1"
               "NewSecret456!" world0 (snd reset1));
      [reflexivity | run | decide_it].
  - rewrite (proj1 consumed_token_is_invalid (at_time 2000) "reset-token-1"
               "NewSecret456!" world0 (snd reset1));
      [reflexivity | run | decide_it].
  - rewrite (proj2 consumed_token_is_invalid (at_time 4000) "verify-token-1"
               world0 (snd verify1));
      [reflexivity | run | decide_it].
  - rewrite (proj2 consumed_token_is_invalid (at_time 4000) "verify-token-1"
               world0 (snd verify1));
      [reflexivity | run | decide_it].
Defined.

(** C5 as it is stated fails: when marking the token used fails, the
    failure is logged and the operation succeeds; the same token is then
    accepted a second time. *)
Lemma token_may_be_consumed_twice :
  let w := world_down [OpMarkPasswordResetTokenUsed; OpMarkEmailTokenUsed] in
  let reset1 := services.ResetPassword (at_time 2000) "reset-token-1" "NewSecret456!" w in
  let reset2 :=
    services.ResetPassword (at_time 2100) "reset-token-1" "Another789!" (snd reset1) in
  let verify1 := services.VerifyEmail (at_time 4000) "verify-token-1" w in
  let verify2 := services.VerifyEmail (at_time 4100) "verify-token-1" (snd verify1) in
  fst reset1 = None /\ fst reset2 = None
  /\ fst reset2 <> Some services.ErrInvalidToken
  /\ fst verify1 = None /\ fst verify2 = None
  /\ fst verify2 <> Some services.ErrInvalidToken.
Proof. repeat split; try run; by vm_compute. Qed.

(** *** C6 *)

Lemma RevokeSession_foreign_like_missing_witness :
  services.RevokeSession (at_time 2000) "u-alice" "s-carol-1" world0
    = (Some services.ErrSessionNotFound, world0)
  /\ services.RevokeSession (at_time 2000) "u-alice" "s-nobody" world0
     = (Some services.ErrSessionNotFound, world0).
Proof.
  apply RevokeSession_foreign_like_missing with (session := carol_session);
    try run. by vm_compute.
Defined.

Lemma email_dispatch_failure_witness :
  let request :=
    mkRequest "POST" "/v1/auth/resend-verification" ∅
              (Object [("email", JStr (lit "bob@example.com"))]) in
  (fst (services.Register (without_entropy 5000) dave_registration world0)
     = Ok (mkUser "c0ffee00-0000-4000-8000-000000000002" "dave@example.com" "Dave"
                  false true ["user"] 5000 5000 None)
   /\ (WarnLevel, "Failed to send verification email")
        ∈ logged_since world0
            (snd (services.Register (without_entropy 5000) dave_registration world0)))
  /\ fst (services.ResendVerification (without_entropy 5000) "bob@example.com" world0)
     = Some (Errorf "failed to send verification email"
               (Errorf "failed to generate verification token"
                  (Foreign "rand: entropy source unavailable")))
  /\ (StatusCode (fst (handlers.ResendVerification (without_entropy 5000) request world0))
      = StatusOK
      /\ StatusCode (fst (handlers.ForgotPassword (without_entropy 5000) request world0))
         = StatusOK).
Proof.
  intros request. split; [|split].
  - apply (proj1 email_dispatch_failure
             (without_entropy 5000) dave_registration "$2a$10$Passw0rd!!" world0
             (snd (CreateUser (without_entropy 5000)
                     (mkUser "c0ffee00-0000-4000-8000-000000000002" "dave@example.com"
                             "Dave" false true ["user"] 5000 5000 None)
                     "$2a$10$Passw0rd!!" (w_users world0)))
             (Errorf "failed to generate verification token"
                     (Foreign "rand: entropy source unavailable")));
      run.
  - apply (proj1 (proj2 email_dispatch_failure)
             (without_entropy 5000) "bob@example.com" world0 bob
             (Errorf "failed to generate verification token"
                     (Foreign "rand: entropy source unavailable")));
      run.
  - apply (proj2 (proj2 email_dispatch_failure)
             (without_entropy 5000) request "bob@example.com" world0);
      run.
Defined.

(** C7 as it is stated fails: ResendVerification returns an error to its
    caller when the step that sends the email fails, here because the
    storage refuses the new verification token. *)
Lemma ResendVerification_returns_dispatch_failure :
  let w := world_down [OpCreateEmailVerificationToken] in
  GetUserByEmail (at_time 2000) "bob@example.com" (w_users w) = Ok bob
  /\ User_IsVerified bob = false
  /\ is_Some (fst (services.sendVerificationEmail (at_time 2000) bob w))
  /\ fst (services.ResendVerification (at_time 2000) "bob@example.com" w)
     = Some (Errorf "failed to send verification email"
               (Errorf "failed to store verification token" ErrStorage))
  /\ fst (services.ResendVerification (at_time 2000) "bob@example.com" w) <> None.
Proof. repeat split; try run; [by vm_compute; eexists | by vm_compute]. Qed.

Lemma Login_then_RefreshToken_witness :
  exists login w1 session user' accessToken refreshToken,
    services.Login cfg (at_time 1000) alice_login world0 = (Ok login, w1)
    /\ sessions (w_sessions w1) !! ctx_uuid (at_time 1000) = Some session
    /\ Session_UserID session = User_ID alice
    /\ session_of (models.RefreshToken login) = ctx_uuid (at_time 1000)
    /\ repositories.GetUser (at_time 2000) (User_ID alice)
         (w_users (outage [OpUpdateLastLogin] [OpCreateSession] w1)) = Ok user'
    /\ services.generateAccessToken cfg (at_time 2000) user' (ctx_uuid (at_time 1000))
       = Ok accessToken
    /\ services.generateRefreshToken cfg (at_time 2000) (User_ID alice)
         (ctx_uuid (at_time 1000)) = Ok refreshToken
    /\ services.RefreshToken cfg (at_time 2000) (models.RefreshToken login)
         (outage [OpUpdateLastLogin] [OpCreateSession] w1)
       = (Ok (mkAuthResponse accessToken refreshToken DefaultSessionDuration
                             (SanitizeUser user')),
          InfoCtx "Token refresh successful"
            (DebugCtx "Attempting to refresh token"
               (outage [OpUpdateLastLogin] [OpCreateSession] w1)))
    /\ type_of accessToken = TokenTypeAccess
    /\ type_of refreshToken = TokenTypeRefresh
    /\ subject_of accessToken = User_ID alice
    /\ subject_of refreshToken = User_ID alice
    /\ session_of accessToken = ctx_uuid (at_time 1000)
    /\ session_of refreshToken = ctx_uuid (at_time 1000)
    /\ (refreshToken <> models.RefreshToken login
        <-> ctx_now (at_time 2000) <> ctx_now (at_time 1000)).
Proof.
  apply Login_then_RefreshToken; try run; try (by vm_compute).
  apply users0_keyed_by_id.
Defined.

(** C8 as it is stated fails: after a successful login the refresh with
    the returned token does not always succeed, and its refresh token is
    not always a new one.  Seven days after the login the token is refused
    with InvalidToken; when the lookup of the session fails at the refresh,
    that failure is returned; and a refresh in the second of the login
    returns the refresh token it was given. *)
Lemma Login_then_RefreshToken_may_fail :
  let login := services.Login cfg (at_time 1000) alice_login world0 in
  let token := issued_refresh (fst login) in
  is_ok (fst login) = true
  /\ fst (services.RefreshToken cfg (at_time (1000 + 7 * 24 * 3600)) token (snd login))
     = Err services.ErrInvalidToken
  /\ fst (services.RefreshToken cfg (at_time 2000) token
            (outage [] [OpGetSession] (snd login)))
     = Err (Errorf "failed to get session" ErrStorage)
  /\ is_ok (fst (services.RefreshToken cfg (at_time 1000) token (snd login))) = true
  /\ issued_refresh (fst (services.RefreshToken cfg (at_time 1000) token (snd login)))
     = token.
Proof. repeat split; run. Qed.

(** *** C9 *)

Lemma ChangePassword_leaves_sessions_witness :
  let w' :=
    snd (services.ChangePassword (at_time 2000) "u-alice" "Secret123!" "NewSecret456!"
           world0) in
  w_sessions w' = w_sessions world0
  /\ exists passwordHash,
       services.hashPassword "NewSecret456!" = Ok passwordHash
       /\ UpdatePassword (at_time 2000) "u-alice" passwordHash (w_users world0)
          = (None, w_users w').
Proof.
  apply ChangePassword_leaves_sessions with (currentPassword := "Secret123!"). run.
Defined.

(** *** C10 *)

Lemma Logout_malformed_body_revokes_everywhere_witness :
  let request := mkRequest "POST" "/v1/auth/logout" ∅ Malformed in
  let out := handlers.Logout (as_alice 2000) request world0 in
  StatusCode (fst out) <> StatusBadRequest
  /\ StatusCode (fst out)
     = match fst (DeactivateUserSessions (as_alice 2000) "u-alice" (w_sessions world0)) with
       | None => StatusOK
       | Some _ => StatusInternalServerError
       end
  /\ w_sessions (snd out)
     = snd (DeactivateUserSessions (as_alice 2000) "u-alice" (w_sessions world0))
  /\ w_users (snd out) = w_users world0
  /\ (WarnLevel, "Invalid logout request body") ∈ logged_since world0 (snd out).
Proof.
  apply (Logout_malformed_body_revokes_everywhere (as_alice 2000)
           (mkRequest "POST" "/v1/auth/logout" ∅ Malformed)
           (mkUserClaims "u-alice" "alice@example.com" ["user"]) world0);
    reflexivity.
Defined.

(** *** The scenario of the specification

    Register, verify the address, log in, refresh twice, log out of every
    session: the next refresh is answered with TokenExpired. *)
Example register_verify_login_refresh_logout :
  let register_ctx := mkContext 5000 "1d-dave" (Ok "5ec0de") None in
  let login_ctx := mkContext 6000 "1d-dave-session" (Ok "0ddba11") None in
  let registered := services.Register register_ctx dave_registration world0 in
  let verified := services.VerifyEmail (at_time 5500) "5ec0de" (snd registered) in
  let login :=
    services.Login cfg login_ctx
      (mkLoginRequest "dave@example.com" "Passw0rd!!" "tablet") (snd verified) in
  let refresh1 :=
    services.RefreshToken cfg (at_time 6100) (issued_refresh (fst login)) (snd login) in
  let refresh2 :=
    services.RefreshToken cfg (at_time 6200) (issued_refresh (fst refresh1))
      (snd refresh1) in
  let logout := services.Logout (at_time 6300) "1d-dave" EmptyString (snd refresh2) in
  let refresh3 :=
    services.RefreshToken cfg (at_time 6400) (issued_refresh (fst refresh2))
      (snd logout) in
  is_ok (fst registered) = true
  /\ fst verified = None
  /\ is_ok (fst login) = true
  /\ is_ok (fst refresh1) = true
  /\ is_ok (fst refresh2) = true
  /\ session_of (issued_refresh (fst refresh2)) = "1d-dave-session"
  /\ fst logout = None
  /\ fst refresh3 = Err services.ErrTokenExpired.
Proof. repeat split; run. Qed.

(** *** Instances of the further properties on the example storage *)

Lemma Register_new_user_witness :
  let user := mkUser "c0ffee00-0000-4000-8000-000000000001" "dave@example.com" "Dave"
                     false true ["user"] 5000 5000 None in
  let w' := snd (services.Register (at_time 5000) dave_registration world0) in
  User_ID user = ctx_uuid (at_time 5000)
  /\ User_Email user = RegisterRequest_Email dave_registration
  /\ User_Name user = RegisterRequest_Name dave_registration
  /\ User_IsVerified user = false
  /\ User_IsActive user = true
  /\ (forall role, HasRole user role = true <-> role = RoleUser)
  /\ (forall role, HasRole user role = true -> IsValidRole role = true)
  /\ w_sessions w' = w_sessions world0
  /\ exists passwordHash u,
       services.hashPassword (RegisterRequest_Password dave_registration) = Ok passwordHash
       /\ CreateUser (at_time 5000) user passwordHash (w_users world0) = (None, u)
       /\ w_users w'
          = w_users (snd (services.sendVerificationEmail (at_time 5000) user
                            (set_users u world0))).
Proof. apply Register_new_user. run. Defined.

Lemma Login_refused_writes_nothing_witness :
  snd (services.Login cfg (at_time 2000)
         (mkLoginRequest "bob@example.com" "hunter2hunter2" "phone") world0)
  = DebugCtx "Attempting to login user" world0.
Proof.
  apply Login_refused_writes_nothing
    with (cfg := cfg) (ctx := at_time 2000)
         (req := mkLoginRequest "bob@example.com" "hunter2hunter2" "phone")
         (e := services.ErrUserNotVerified).
  - run.
  - right. right. reflexivity.
Defined.

Lemma Login_survives_last_login_failure_witness :
  exists accessToken refreshToken w',
    services.Login cfg (at_time 1000) alice_login (world_down [OpUpdateLastLogin])
      = (Ok (mkAuthResponse accessToken refreshToken 900 alice), w')
    /\ services.generateAccessToken cfg (at_time 1000) alice (ctx_uuid (at_time 1000))
       = Ok accessToken
    /\ services.generateRefreshToken cfg (at_time 1000) (User_ID alice)
         (ctx_uuid (at_time 1000)) = Ok refreshToken
    /\ w_sessions w'
       = snd (CreateSession (at_time 1000)
                (mkSession (ctx_uuid (at_time 1000)) "u-alice" EmptyString "laptop"
                           EmptyString EmptyString 1000 (1000 + DefaultRefreshDuration) true)
                (sessions0 [OpUpdateLastLogin]))
    /\ w_users w' = users0 [OpUpdateLastLogin]
    /\ (WarnLevel, "Failed to update last login time")
         ∈ logged_since (world_down [OpUpdateLastLogin]) w'.
Proof.
  apply Login_survives_last_login_failure with (e := ErrStorage); run.
Defined.

Lemma Logout_by_session_id_ignores_user_witness :
  services.Logout (at_time 2000) "u-alice" "s-carol-1" world0
    = services.Logout (at_time 2000) "u-bob" "s-carol-1" world0
  /\ w_sessions (snd (services.Logout (at_time 2000) "u-alice" "s-carol-1" world0))
     = snd (DeactivateSession (at_time 2000) "s-carol-1" (w_sessions world0))
  /\ w_users (snd (services.Logout (at_time 2000) "u-alice" "s-carol-1" world0))
     = w_users world0.
Proof. apply Logout_by_session_id_ignores_user. by vm_compute. Defined.

Lemma RefreshToken_past_expiry_is_InvalidToken_witness :
  is_ok (services.parseRefreshToken cfg (at_time (1000 + 7 * 24 * 3600))
           (refresh_token_at 1000 "u-alice" "s-alice-1")) = false
  /\ services.RefreshToken cfg (at_time (1000 + 7 * 24 * 3600))
       (refresh_token_at 1000 "u-alice" "s-alice-1") world0
     = (Err services.ErrInvalidToken, DebugCtx "Attempting to refresh token" world0).
Proof.
  apply RefreshToken_past_expiry_is_InvalidToken
    with (ctx := at_time 1000) (userID := "u-alice") (sessionID := "s-alice-1");
    [reflexivity | by vm_compute | by vm_compute].
Defined.

Lemma parseRefreshToken_accepts_only_witness :
  exists t,
    refresh_token_at 1000 "u-alice" "s-alice-1" = [Jws t]
    /\ verifies cfg (ctx_now (at_time 2000)) t
    /\ as_string (Claims t !! "type") = TokenTypeRefresh
    /\ TokenClaims_UserID (mkTokenClaims "u-alice" EmptyString EmptyString []
                                         "s-alice-1" 0 0) <> EmptyString
    /\ TokenClaims_SessionID (mkTokenClaims "u-alice" EmptyString EmptyString []
                                            "s-alice-1" 0 0) <> EmptyString
    /\ mkTokenClaims "u-alice" EmptyString EmptyString [] "s-alice-1" 0 0
       = mkTokenClaims (as_string (Claims t !! "sub")) EmptyString EmptyString []
                       (as_string (Claims t !! "session_id")) 0 0.
Proof. apply (parseRefreshToken_accepts_only cfg (at_time 2000)). run. Defined.

Lemma ResendVerification_verified_like_unknown_witness :
  services.ResendVerification (at_time 2000) "alice@example.com" world0
    = (None, DebugCtx "Processing resend verification" world0)
  /\ services.ResendVerification (at_time 2000) "mallory@example.com" world0
     = services.ResendVerification (at_time 2000) "alice@example.com" world0.
Proof.
  apply ResendVerification_verified_like_unknown with (user := alice); run.
Defined.

Lemma ForgotPassword_silent_on_unknown_email_witness :
  let u2 :=
    snd (CreatePasswordResetToken (at_time 2000) "u-alice" "5ec0de" 3600 (w_users world0)) in
  services.ForgotPassword (at_time 2000) "mallory@example.com" world0
    = (None, DebugCtx "Processing forgot password request" world0)
  /\ (fst (services.ForgotPassword (at_time 2000) "alice@example.com" world0) = None
      /\ w_users (snd (services.ForgotPassword (at_time 2000) "alice@example.com" world0))
         = u2
      /\ w_sessions (snd (services.ForgotPassword (at_time 2000) "alice@example.com" world0))
         = w_sessions world0).
Proof.
  intros u2. split.
  - apply (proj1 ForgotPassword_silent_on_unknown_email). run.
  - apply (proj2 ForgotPassword_silent_on_unknown_email
             (at_time 2000) "alice@example.com" alice "5ec0de" u2 world0);
      run.
Defined.

Lemma unverified_token_writes_nothing_witness :
  snd (services.ResetPassword (at_time 6000) "reset-token-1" "NewSecret456!" world0)
    = DebugCtx "Processing password reset" world0
  /\ (fst (services.ResetPassword (at_time 6000) "reset-token-1" "NewSecret456!" world0)
        = Some services.ErrInvalidToken
      <-> repositories.ErrTokenExpired = repositories.ErrTokenNotFound
          \/ repositories.ErrTokenExpired = repositories.ErrTokenExpired)
  /\ is_Some (fst (services.ResetPassword (at_time 6000) "reset-token-1" "NewSecret456!"
                     world0))
  /\ snd (services.VerifyEmail (at_time 2000) "no-such-token" world0)
     = DebugCtx "Processing email verification" world0
  /\ (fst (services.VerifyEmail (at_time 2000) "no-such-token" world0)
        = Some services.ErrInvalidToken
      <-> repositories.ErrTokenNotFound = repositories.ErrTokenNotFound
          \/ repositories.ErrTokenNotFound = repositories.ErrTokenExpired)
  /\ is_Some (fst (services.VerifyEmail (at_time 2000) "no-such-token" world0)).
Proof. apply unverified_token_writes_nothing; run. Defined.

Lemma failed_update_keeps_token_witness :
  let w := world_down [OpUpdatePassword; OpMarkUserVerified] in
  services.ResetPassword (at_time 2000) "reset-token-1" "NewSecret456!" w
    = (Some (Errorf "failed to update password" ErrStorage),
       set_users (w_users w) (DebugCtx "Processing password reset" w))
  /\ services.VerifyEmail (at_time 4000) "verify-token-1" w
     = (Some (Errorf "failed to mark user as verified" ErrStorage),
        set_users (w_users w) (DebugCtx "Processing email verification" w)).
Proof.
  apply failed_update_keeps_token
    with (userID1 := "u-alice") (passwordHash := "$2a$10$NewSecret456!")
         (userID2 := "u-bob");
    run.
Defined.

Lemma unreadable_hash_is_InvalidCredentials_witness :
  let w := world_down [OpGetPasswordHash] in
  services.ChangePassword (at_time 2000) "u-alice" "Secret123!" "NewSecret456!" w
    = (Some services.ErrInvalidCredentials, DebugCtx "Processing password change" w)
  /\ services.Login cfg (at_time 2000) alice_login w
     = (Err services.ErrInvalidCredentials, DebugCtx "Attempting to login user" w).
Proof.
  intros w. split.
  - apply (proj1 (unreadable_hash_is_InvalidCredentials cfg)) with (e := ErrStorage). run.
  - apply (proj2 (unreadable_hash_is_InvalidCredentials cfg)) with (user := alice)
                                                                   (e := ErrStorage);
      run.
Defined.

Lemma access_token_round_trip_witness :
  let accessToken :=
    [Jws (mkToken HS256 (services.accessClaims (at_time 1000) alice "s-alice-1")
                  (JWTSecret cfg))] in
  AuthMiddleware cfg handlers.GetCurrentUser (at_time 1899)
                 (bearer_request "GET" "/v1/auth/me" accessToken) world0
  = handlers.GetCurrentUser
      (WithUserClaims (at_time 1899) (mkUserClaims "u-alice" "alice@example.com" ["user"]))
      (bearer_request "GET" "/v1/auth/me" accessToken) world0.
Proof.
  apply access_token_round_trip
    with (ctx := at_time 1000) (user := alice) (sessionID := "s-alice-1");
    [reflexivity | by vm_compute | by vm_compute].
Defined.

Lemma access_token_past_expiry_witness :
  let accessToken :=
    [Jws (mkToken HS256 (services.accessClaims (at_time 1000) alice "s-alice-1")
                  (JWTSecret cfg))] in
  AuthMiddleware cfg handlers.GetCurrentUser (at_time 1900)
                 (bearer_request "GET" "/v1/auth/me" accessToken) world0
  = (mkResponse StatusUnauthorized jsonHeaders (ErrorData "invalid or expired token"),
     WarnCtx "Invalid JWT token" world0).
Proof.
  apply access_token_past_expiry
    with (ctx := at_time 1000) (user := alice) (sessionID := "s-alice-1");
    [reflexivity | by vm_compute | by vm_compute].
Defined.

Lemma anonymous_token_is_not_a_user_token_witness :
  let token :=
    [Jws (mkToken HS256 (services.anonymousClaims (at_time 1000) "anon-1")
                  (JWTSecret cfg))] in
  let request := bearer_request "GET" "/v1/auth/me" token in
  services.RefreshToken cfg (at_time 1060) token world0
    = (Err services.ErrInvalidToken, DebugCtx "Attempting to refresh token" world0)
  /\ unauthorized (fst (AuthMiddleware cfg handlers.GetCurrentUser (at_time 1060) request
                          world0))
  /\ same_storage world0
       (snd (AuthMiddleware cfg handlers.GetCurrentUser (at_time 1060) request world0))
  /\ forall other : @Handler Users Sessions,
       AuthMiddleware cfg other (at_time 1060) request world0
       = AuthMiddleware cfg handlers.GetCurrentUser (at_time 1060) request world0.
Proof.
  apply anonymous_token_is_not_a_user_token
    with (ctx := at_time 1000) (sessionID := "anon-1").
  reflexivity.
Defined.

Lemma CreateAnonymousSession_lifetime_witness :
  let session :=
    mkAnonymousSession "c0ffee00-0000-4000-8000-000000000001"
      [Jws (mkToken HS256
              (services.anonymousClaims (at_time 1000)
                 "c0ffee00-0000-4000-8000-000000000001")
              (JWTSecret cfg))]
      1000 (1000 + 24 * 3600) in
  let w' := snd (services.CreateAnonymousSession cfg (at_time 1000) world0) in
  AnonymousSession_ID session = ctx_uuid (at_time 1000)
  /\ AnonymousSession_CreatedAt session = ctx_now (at_time 1000)
  /\ AnonymousSession_ExpiresAt session = AnonymousSession_CreatedAt session + 24 * 3600
  /\ type_of (AnonymousSession_Token session) = "anonymous"
  /\ session_of (AnonymousSession_Token session) = AnonymousSession_ID session
  /\ claims_of (AnonymousSession_Token session) !! "exp"
     = Some (Scalar (JNumber (AnonymousSession_ExpiresAt session)))
  /\ repositories.CreateAnonymousSession (at_time 1000) session (w_sessions world0)
     = (None, w_sessions w')
  /\ w_users w' = w_users world0.
Proof. apply CreateAnonymousSession_lifetime with (cfg := cfg). run. Defined.

Lemma handlers_require_claims_witness :
  let ctx := at_time 2000 in
  let request := mkRequest "POST" "/v1/auth/logout" ∅ EmptyBody in
  handlers.Logout ctx request world0
    = (errorResponse StatusUnauthorized "unauthorized",
       InfoCtx "Processing logout request" world0)
  /\ handlers.ChangePassword ctx request world0
     = (errorResponse StatusUnauthorized "unauthorized",
        InfoCtx "Processing password change request" world0)
  /\ handlers.GetCurrentUser ctx request world0
     = (errorResponse StatusUnauthorized "unauthorized",
        InfoCtx "Processing get current user request" world0)
  /\ handlers.GetUserSessions ctx request world0
     = (errorResponse StatusUnauthorized "unauthorized",
        InfoCtx "Processing get user sessions request" world0)
  /\ handlers.RevokeSession ctx request world0
     = (errorResponse StatusUnauthorized "unauthorized",
        InfoCtx "Processing revoke session request" world0).
Proof. apply handlers_require_claims. reflexivity. Defined.



(** The validator measures in characters: a name of sixty characters of
    two bytes each is within the bounds, a name of one such character is
    too short, and a password of five such characters, ten bytes, is too
    short as well. *)
Example validator_counts_characters :
  let e := [ascii_of_N 195; ascii_of_N 169] in
  let times (n : nat) := string_of_list_ascii (mjoin (replicate n e)) in
  validateRegisterRequest (mkRegisterRequest "dave@example.com" "Passw0rd!!" (times 60%nat))
    = None
  /\ validateRegisterRequest (mkRegisterRequest "dave@example.com" "Passw0rd!!" (times 1%nat))
     = failed "Name" "min"
  /\ validateRegisterRequest (mkRegisterRequest "dave@example.com" (times 5%nat) "Dave")
     = failed "Password" "min"
  /\ RuneCountInString (string_of_list_ascii [ascii_of_N 240; ascii_of_N 159;
                                               ascii_of_N 152; ascii_of_N 128]) = 1%nat
  /\ RuneCountInString (string_of_list_ascii [ascii_of_N 195; ascii_of_N 40]) = 2%nat.
Proof. repeat split; run. Qed.

(** The decoding of a body follows [encoding/json]: the name of a member
    is matched up to case (the Kelvin sign counts as a k), [null] leaves a
    field as it is, the last of several members of one name wins, a member
    of an unknown name is passed over, and a value that is not a string is
    an error whatever follows it. *)
Example Unmarshal_member_names :
  let kelvin := string_of_list_ascii
                  ["t"; "o"; ascii_of_N 226; ascii_of_N 132; ascii_of_N 170; "e"; "n"]%char in
  decodeLoginRequest [("Email", JStr (lit "alice@example.com"));
                      ("PASSWORD", JStr (lit "first"));
                      ("password", JStr (lit "Secret123!"));
                      ("password", JNil);
                      ("remember", JOther);
                      ("device_id", JNil)]
    = (None, mkLoginRequest "alice@example.com" "Secret123!" EmptyString)
  /\ decodeLoginRequest [("email", JOther); ("email", JStr (lit "alice@example.com"))]
     = (Some UnmarshalTypeError, mkLoginRequest "alice@example.com" EmptyString EmptyString)
  /\ decodeVerifyEmailRequest [(kelvin, JStr (lit "verify-token-1"))]
     = (None, "verify-token-1")
  /\ decodeVerifyEmailRequest [("tokens", JStr (lit "verify-token-1"))]
     = (None, EmptyString).
Proof. repeat split; run. Qed.

Lemma handlers_answer_400_for_invalid_token_witness :
  let request1 :=
    mkRequest "POST" "/v1/auth/reset-password" ∅
      (Object [("token", JStr (lit "no-such-token"));
               ("new_password", JStr (lit "NewSecret456!"))]) in
  let request2 :=
    mkRequest "POST" "/v1/auth/verify-email" ∅
      (Object [("token", JStr (lit "verify-token-1"))]) in
  fst (handlers.ResetPassword (at_time 2000) request1 world0)
    = errorResponse StatusBadRequest "invalid or expired reset token"
  /\ same_storage world0 (snd (handlers.ResetPassword (at_time 2000) request1 world0))
  /\ fst (handlers.VerifyEmail (at_time 100000) request2 world0)
     = errorResponse StatusBadRequest "invalid or expired verification token"
  /\ same_storage world0 (snd (handlers.VerifyEmail (at_time 100000) request2 world0)).
Proof.
  apply handlers_answer_400_for_invalid_token
    with (resetReq := mkResetPasswordRequest "no-such-token" "NewSecret456!")
         (e1 := repositories.ErrTokenNotFound)
         (emailToken := "verify-token-1")
         (e2 := repositories.ErrTokenExpired);
    try (by left); try (by right); run.
Defined.

Lemma RevokeSession_session_id_of_path_witness :
  let request := mkRequest "DELETE" "/v1/auth/sessions/" ∅ EmptyBody in
  sessionIDOfPath ("/v1/auth/sessions/" +:+ "s-alice-1") = "s-alice-1"
  /\ sessionIDOfPath ("/v1/auth/sessions/" +:+ "s-alice-1" +:+ String "/"%char "revoke")
     = "s-alice-1"
  /\ sessionIDOfPath (String "/"%char "v1/auth/me") = EmptyString
  /\ handlers.RevokeSession (as_alice 2000) request world0
     = (errorResponse StatusBadRequest "session ID required",
        InfoCtx "Processing revoke session request" world0).
Proof.
  apply RevokeSession_session_id_of_path
    with (claims := mkUserClaims "u-alice" "alice@example.com" ["user"]);
    [decide_it | run | run | run].
Defined.

Lemma route_sessions_witness :
  let healthCheck : @Handler Users Sessions :=
    fun _ _ w => (successResponse StatusOK (MessageData "healthy"), w) in
  let route := main.route cfg healthCheck in
  let listing := mkRequest "GET" "/v1/auth/sessions-of-alice" ∅ EmptyBody in
  let revoking := mkRequest "DELETE" "/sessions/s-alice-1" ∅ EmptyBody in
  let other := mkRequest "PUT" "/v1/auth/login" ∅ EmptyBody in
  let w1 := DebugCtx "Routing request" world0 in
  route (at_time 2000) listing world0
    = AuthMiddleware cfg handlers.GetUserSessions (at_time 2000) listing w1
  /\ route (at_time 2000) revoking world0
     = AuthMiddleware cfg handlers.RevokeSession (at_time 2000) revoking w1
  /\ StatusCode (fst (route (at_time 2000) revoking world0))
     ∈ [StatusUnauthorized; StatusBadRequest]
  /\ same_storage world0 (snd (route (at_time 2000) revoking world0))
  /\ route (at_time 2000) other world0
     = (mkResponse StatusNotFound jsonHeaders (ErrorData "endpoint not found"), w1).
Proof.
  apply route_sessions with (rest := "-of-alice") (id := "s-alice-1");
    [reflexivity | run | reflexivity | reflexivity | decide_it].
Defined.

Lemma WithContext_binds_ids_witness :
  let zap : logger.Logger := [("service", logger.StringValue "auth-svc")] in
  let ctx' :=
    logger.WithRequestID
      (logger.WithCorrelationID (logger.WithUserID [] "u-alice") "corr-1") "req-1" in
  logger.WithContext (Some zap) ctx'
    = logger.Returns (zap ++ [("correlation_id", logger.StringValue "corr-1");
                              ("user_id", logger.StringValue "u-alice");
                              ("request_id", logger.StringValue "req-1")])%list
  /\ logger.WithContext (Some zap) (logger.WithUserID ctx' EmptyString)
     = logger.Returns (zap ++ [("correlation_id", logger.StringValue "corr-1");
                               ("request_id", logger.StringValue "req-1")])%list.
Proof. apply WithContext_binds_ids; discriminate. Defined.
